(** * vector-xlite: the replicated command pipeline

    A shallow embedding of the Go sources of the distributed proxy
    (packages [server], [consensus], [client] and the [main] wiring of a
    node) together with the properties claimed for them.

    Layout: the embedding comes first, one module per Go package, the
    statements and their proofs follow. Everything that lives outside the
    repository (encoding/json, the Raft library, the backend reached over
    gRPC, the network) is an interface of the embedding: a type class whose
    instance is a parameter of the code that uses it. *)

From Stdlib Require Import ZArith NArith List String Ascii Lia Bool.
From Stdlib.Strings Require Import Byte.
From stdpp Require Import base option gmap strings list pretty.
From Equations Require Import Equations.

Local Open Scope string_scope.
Local Open Scope Z_scope.

(* ===================================================================== *)
(** * google.golang.org/grpc/codes *)
(* ===================================================================== *)

Module Codes.

Inductive Code : Type :=
| OK | Canceled | Unknown | InvalidArgument | DeadlineExceeded | NotFound
| AlreadyExists | PermissionDenied | ResourceExhausted | FailedPrecondition
| Aborted | OutOfRange | Unimplemented | Internal | Unavailable | DataLoss
| Unauthenticated.

#[export] Instance Code_eq_dec : EqDecision Code.
Proof. solve_decision. Defined.

(** [Code.String()] *)
Definition Code_String (c : Code) : string :=
  match c with
  | OK => "OK" | Canceled => "Canceled" | Unknown => "Unknown"
  | InvalidArgument => "InvalidArgument"
  | DeadlineExceeded => "DeadlineExceeded" | NotFound => "NotFound"
  | AlreadyExists => "AlreadyExists"
  | PermissionDenied => "PermissionDenied"
  | ResourceExhausted => "ResourceExhausted"
  | FailedPrecondition => "FailedPrecondition" | Aborted => "Aborted"
  | OutOfRange => "OutOfRange" | Unimplemented => "Unimplemented"
  | Internal => "Internal" | Unavailable => "Unavailable"
  | DataLoss => "DataLoss" | Unauthenticated => "Unauthenticated"
  end.

End Codes.
Export Codes.

(* ===================================================================== *)
(** * Go runtime values shared by all packages *)
(* ===================================================================== *)

Module Go.

(** [error] values.  The sentinels of package io are compared by identity
    in the sources ([err == io.EOF]), so they are constructors of their
    own; [Wrap] is [fmt.Errorf("...: %w", err)], [status_Errorf] an error
    made by grpc's [status.Errorf], [External] an error raised inside a
    library or a remote peer. *)
Inductive error : Type :=
| io_EOF
| io_ErrUnexpectedEOF
| errors_New (msg : string)
| Wrap (text : string) (inner : error)
| status_Errorf (c : Code) (msg : string)
| External (lib : string) (msg : string).

(** [err.Error()] *)
Fixpoint Error (e : error) : string :=
  match e with
  | io_EOF => "EOF"
  | io_ErrUnexpectedEOF => "unexpected EOF"
  | errors_New msg => msg
  | Wrap text inner => text +:+ Error inner
  | status_Errorf c msg =>
      "rpc error: code = " +:+ Code_String c +:+ " desc = " +:+ msg
  | External _ msg => msg
  end.

Definition error_eq_dec (a b : error) : {a = b} + {a <> b}.
Proof. decide equality; solve [apply string_dec | apply Code_eq_dec]. Defined.

(** [err == io.EOF]: identity with the sentinel, which a wrapped error
    does not have. *)
Definition is_EOF (e : error) : bool :=
  match e with io_EOF => true | _ => false end.

(** A function result [(T, error)]. *)
Inductive result (T : Type) : Type :=
| Ok (v : T)
| Err (e : error).
Arguments Ok {T} v.
Arguments Err {T} e.

Definition bytes := list byte.

(** [time.Duration], in nanoseconds. *)
Definition Duration := Z.
Definition time_Second : Duration := 1000000000.

(** ** package strings and string slicing (byte indexed, as in Go) *)

Fixpoint lastIndexFrom (i : Z) (s substr : string) : Z :=
  match s with
  | EmptyString => if String.prefix substr EmptyString then i else -1
  | String _ s' =>
      let r := lastIndexFrom (i + 1) s' substr in
      if 0 <=? r then r
      else if String.prefix substr s then i else -1
  end.

(** [strings.LastIndex(s, substr)] *)
Definition strings_LastIndex (s substr : string) : Z :=
  lastIndexFrom 0 s substr.

(** [len(s)] *)
Definition len (s : string) : Z := Z.of_nat (String.length s).

(** [s[:hi]] and [s[lo:]]; the sources only slice within range. *)
Definition slice_to (s : string) (hi : Z) : string :=
  String.substring 0 (Z.to_nat hi) s.
Definition slice_from (s : string) (lo : Z) : string :=
  String.substring (Z.to_nat lo) (String.length s - Z.to_nat lo)%nat s.

(** [s[i]] *)
Definition index (s : string) (i : Z) : option ascii :=
  if i <? 0 then None else String.get (Z.to_nat i) s.

(** [s[i] == c], for an index within range. *)
Definition byte_at_is (s : string) (i : Z) (c : ascii) : bool :=
  match index s i with
  | Some b => Ascii.eqb b c
  | None => false
  end.

End Go.
Export Go.

(* ===================================================================== *)
(** * google.golang.org/grpc: status and metadata *)
(* ===================================================================== *)

Module Grpc.

(** [status.Status] *)
Record Status : Type := mkStatus { code : Code; message : string }.

(** [status.Convert(err)]: the status an error carries, looking through
    wrapping; an error that carries none has code Unknown. *)
Fixpoint carried_code (e : error) : option Code :=
  match e with
  | status_Errorf c _ => Some c
  | Wrap _ inner => carried_code inner
  | _ => None
  end.

Definition Convert (e : error) : Status :=
  match e with
  | status_Errorf c msg => mkStatus c msg
  | _ => mkStatus (default Unknown (carried_code e)) (Error e)
  end.

(** Response metadata: [metadata.MD], a map from key to values. *)
Abbreviation MD := (gmap string (list string)).

(** [metadata.Pairs(k1, v1, k2, v2, ...)]: every value is appended to the
    values of its key (the keys of the sources are lower case already). *)
Definition Pairs (kv : list (string * string)) : MD :=
  fold_left
    (fun (md : MD) '(k, v) => <[k := app (default [] (md !! k)) [v]]> md)
    kv ∅.

(** [md.Get(k)] *)
Definition Get (md : MD) (k : string) : list string := default [] (md !! k).

End Grpc.

(* ===================================================================== *)
(** * github.com/hashicorp/raft: the types the proxy reads *)
(* ===================================================================== *)

Module Raft.

Inductive RaftState : Type := Follower | Candidate | Leader | Shutdown.

#[export] Instance RaftState_eq_dec : EqDecision RaftState.
Proof. solve_decision. Defined.

(** [RaftState.String()] *)
Definition RaftState_String (s : RaftState) : string :=
  match s with
  | Follower => "Follower"
  | Candidate => "Candidate"
  | Leader => "Leader"
  | Shutdown => "Shutdown"
  end.

Definition ServerID := string.
Definition ServerAddress := string.

Inductive ServerSuffrage : Type := Voter | Nonvoter | Staging.

Record Server : Type := mkServer {
  Suffrage : ServerSuffrage;
  ID : ServerID;
  Address : ServerAddress
}.

Record Configuration : Type := mkConfiguration { Servers : list Server }.

End Raft.

(* ===================================================================== *)
(** * package types of the Go client of the backend *)
(* ===================================================================== *)

Module Types.

(** A [float32] is carried, never computed with: its IEEE-754 bit pattern. *)
Definition float32 := Z.

Inductive DistanceFunction : Type :=
| DistanceUnknown | DistanceCosine | DistanceEuclidean | DistanceDot.

Definition DistanceFunction_String (d : DistanceFunction) : string :=
  match d with
  | DistanceCosine => "Cosine"
  | DistanceEuclidean => "Euclidean"
  | DistanceDot => "Dot"
  | DistanceUnknown => "Unknown"
  end.

Record CollectionConfig : Type := mkCollectionConfig {
  cfg_CollectionName : string;
  cfg_Distance : DistanceFunction;
  cfg_VectorDimension : Z;
  cfg_PayloadTableSchema : string;
  cfg_IndexFilePath : string
}.

(** [NewCollectionConfigBuilder()....Build()] *)
Definition CollectionConfig_Build (cfg : CollectionConfig)
  : result CollectionConfig :=
  if String.eqb (cfg_CollectionName cfg) "" then
    Err (errors_New "collection_name required")
  else if cfg_VectorDimension cfg =? 0 then
    Err (errors_New "vector_dimension must be > 0")
  else Ok cfg.

Record InsertPoint : Type := mkInsertPoint {
  ip_CollectionName : string;
  ip_Id : Z;
  ip_Vector : list float32;
  ip_PayloadInsertQuery : string
}.

(** [NewInsertPointBuilder()....Build()] *)
Definition InsertPoint_Build (p : InsertPoint) : result InsertPoint :=
  if String.eqb (ip_CollectionName p) "" then
    Err (errors_New "collection_name required")
  else if (List.length (ip_Vector p) =? 0)%nat then
    Err (errors_New "vector required")
  else Ok p.

Inductive SnapshotFileType : Type :=
| SnapshotFileTypeUnknown | SnapshotFileTypeSqliteDB
| SnapshotFileTypeHnswIndex | SnapshotFileTypeWal.

Record SnapshotFileInfo : Type := mkSnapshotFileInfo {
  fi_FileName : string;
  fi_FileType : SnapshotFileType;
  fi_FileSize : Z;
  fi_Checksum : string
}.

Record SnapshotMetadata : Type := mkSnapshotMetadata {
  SnapshotID : string;
  CreatedAt : Z;
  TotalSize : Z;
  Files : list SnapshotFileInfo;
  Version : Z;
  Checksum : string
}.

Record FileChunk : Type := mkFileChunk {
  fc_FileName : string;
  Offset : Z;
  Data : bytes;
  IsLastChunk : bool
}.

(** The two pointer fields are [nil] or point to a value. *)
Record SnapshotChunk : Type := mkSnapshotChunk {
  Metadata : option SnapshotMetadata;
  File : option FileChunk;
  Sequence : Z;
  IsFinal : bool
}.

Record ImportSnapshotResponse : Type := mkImportSnapshotResponse {
  Success : bool;
  ErrorMessage : string;
  imp_SnapshotID : string;
  BytesRestored : Z;
  FilesRestored : Z
}.

Record ExportSnapshotRequest : Type := mkExportSnapshotRequest {
  ChunkSize : Z;
  IncludeIndexFiles : bool
}.

Record SnapshotCollector : Type := mkSnapshotCollector {
  col_Metadata : option SnapshotMetadata;
  Chunks : list SnapshotChunk
}.

Definition NewSnapshotCollector : SnapshotCollector :=
  mkSnapshotCollector None [].

Definition AddChunk (c : SnapshotCollector) (chunk : SnapshotChunk)
  : SnapshotCollector :=
  mkSnapshotCollector
    (match Metadata chunk with
     | Some m => Some m
     | None => col_Metadata c
     end)
    (app (Chunks c) [chunk]).

Definition IsComplete (c : SnapshotCollector) : bool :=
  match last (Chunks c) with
  | None => false
  | Some lastChunk => IsFinal lastChunk
  end.

End Types.
Export Types.

(* ===================================================================== *)
(** * encoding/json *)
(* ===================================================================== *)

(** [json.Marshal] and [json.Unmarshal] at one Go type.  The codec is the
    standard library's; the proxy relies on it and so does the embedding. *)
Class JSON (A : Type) : Type := {
  json_Marshal : A -> result bytes;
  json_Unmarshal : bytes -> result A
}.

(* ===================================================================== *)
(** * The backend: the generated gRPC client of the vector store *)
(* ===================================================================== *)

Module PB.

Record CollectionConfigPB : Type := mkCollectionConfigPB {
  pb_CollectionName : string;
  pb_Distance : string;
  pb_VectorDimension : Z;
  pb_PayloadTableSchema : string;
  pb_IndexFilePath : string
}.

Record InsertPointPB : Type := mkInsertPointPB {
  pbi_CollectionName : string;
  pbi_Id : Z;
  pbi_Vector : list float32;
  pbi_PayloadInsertQuery : string
}.

Record DeleteRequestPB : Type := mkDeleteRequestPB {
  pbd_CollectionName : string;
  pbd_Id : Z
}.

Record DeleteCollectionRequestPB : Type := mkDeleteCollectionRequestPB {
  pbdc_CollectionName : string
}.

(** The wire form of a chunk carries the same fields as [SnapshotChunk];
    [convertTypeChunkToPb] copies them one by one. *)
Record SnapshotChunkPB : Type := mkSnapshotChunkPB {
  pb_chunk : SnapshotChunk
}.

(** [pb.VectorXLitePBClient]: every call reaches the backend process, whose
    state is [B]. *)
Class VectorXLitePBClient (B : Type) : Type := {
  rpc_CreateCollection : CollectionConfigPB -> B -> option error * B;
  rpc_Insert : InsertPointPB -> B -> option error * B;
  rpc_Delete : DeleteRequestPB -> B -> option error * B;
  rpc_DeleteCollection : DeleteCollectionRequestPB -> B -> option error * B;
  rpc_ImportSnapshot : B -> option error * B;
  stream_Send : SnapshotChunkPB -> B -> option error * B;
  stream_CloseAndRecv : B -> result ImportSnapshotResponse * B
}.

End PB.
Export PB.

(* ===================================================================== *)
(** * package client: the Go client of the backend *)
(* ===================================================================== *)

Module BackendClient.

Section WithBackend.
Context {B : Type} `{!VectorXLitePBClient B}.

(** [Client] holds the connection; calling through it acts on the backend. *)
Record Client : Type := mkClient { pbClient : B }.

Definition call (rpc : B -> option error * B) (c : Client)
  : option error * Client :=
  let '(e, b) := rpc (pbClient c) in (e, mkClient b).

(** [Client.CreateCollection]; the argument is a pointer. *)
Definition CreateCollection (cfg : option CollectionConfig) (c : Client)
  : option error * Client :=
  match cfg with
  | None => (Some (errors_New "nil config"), c)
  | Some cfg =>
      let pbCfg :=
        mkCollectionConfigPB (cfg_CollectionName cfg)
          (DistanceFunction_String (cfg_Distance cfg))
          (cfg_VectorDimension cfg) (cfg_PayloadTableSchema cfg)
          (cfg_IndexFilePath cfg) in
      call (rpc_CreateCollection pbCfg) c
  end.

(** [Client.Insert] *)
Definition Insert (p : option InsertPoint) (c : Client)
  : option error * Client :=
  match p with
  | None => (Some (errors_New "nil point"), c)
  | Some p =>
      let pbPt :=
        mkInsertPointPB (ip_CollectionName p) (ip_Id p) (ip_Vector p)
          (ip_PayloadInsertQuery p) in
      call (rpc_Insert pbPt) c
  end.

(** [Client.Delete] *)
Definition Delete (collectionName : string) (id : Z) (c : Client)
  : option error * Client :=
  if String.eqb collectionName "" then
    (Some (errors_New "collection name cannot be empty"), c)
  else call (rpc_Delete (mkDeleteRequestPB collectionName id)) c.

(** [Client.DeleteCollection] *)
Definition DeleteCollection (collectionName : string) (c : Client)
  : option error * Client :=
  if String.eqb collectionName "" then
    (Some (errors_New "collection name cannot be empty"), c)
  else call (rpc_DeleteCollection (mkDeleteCollectionRequestPB collectionName)) c.

Definition convertTypeChunkToPb (chunk : SnapshotChunk) : SnapshotChunkPB :=
  mkSnapshotChunkPB chunk.

(** The loop of ImportSnapshot that sends the chunks in order and stops at
    the first failed send. *)
Fixpoint sendAll (chunks : list SnapshotChunk) (b : B) : option error * B :=
  match chunks with
  | [] => (None, b)
  | chunk :: rest =>
      match stream_Send (convertTypeChunkToPb chunk) b with
      | (Some err, b') => (Some err, b')
      | (None, b') => sendAll rest b'
      end
  end.

(** [Client.ImportSnapshot] *)
Definition ImportSnapshot (chunks : list SnapshotChunk) (c : Client)
  : result ImportSnapshotResponse * Client :=
  if (List.length chunks =? 0)%nat then
    (Err (errors_New "no chunks to import"), c)
  else
    match rpc_ImportSnapshot (pbClient c) with
    | (Some err, b) => (Err err, mkClient b)
    | (None, b) =>
        match sendAll chunks b with
        | (Some err, b') => (Err err, mkClient b')
        | (None, b') =>
            match stream_CloseAndRecv b' with
            | (Err err, b'') => (Err err, mkClient b'')
            | (Ok pbResp, b'') => (Ok pbResp, mkClient b'')
            end
        end
    end.

End WithBackend.
Arguments Client B : clear implicits.

End BackendClient.

(* ===================================================================== *)
(** * encoding/binary and io over an in-memory stream *)
(* ===================================================================== *)

Module IO.

Definition byte_of_Z (z : Z) : byte :=
  default x00 (Byte.of_N (Z.to_N (z mod 256))).

Definition Z_of_byte (b : byte) : Z := Z.of_N (Byte.to_N b).

(** [uint32(n)]: conversion to a 32-bit unsigned integer wraps around. *)
Definition uint32 (n : Z) : Z := n mod 2 ^ 32.

(** [binary.BigEndian.PutUint32] *)
Definition PutUint32 (v : Z) : bytes :=
  [ byte_of_Z (Z.shiftr v 24); byte_of_Z (Z.shiftr v 16);
    byte_of_Z (Z.shiftr v 8); byte_of_Z v ].

(** [binary.BigEndian.Uint32], on the four bytes read. *)
Definition Uint32 (b0 b1 b2 b3 : byte) : Z :=
  Z.lor (Z.lor (Z.lor (Z_of_byte b3) (Z.shiftl (Z_of_byte b2) 8))
               (Z.shiftl (Z_of_byte b1) 16))
        (Z.shiftl (Z_of_byte b0) 24).

(** The snapshot source handed to Restore: the bytes not read yet. *)
Record ReadCloser : Type := mkReadCloser {
  pending : bytes;
  closed : bool
}.

Definition NewReader (s : bytes) : ReadCloser := mkReadCloser s false.

Definition Close (rc : ReadCloser) : ReadCloser :=
  mkReadCloser (pending rc) true.

(** [io.ReadFull(r, buf)] with [len(buf) = n]: EOF when nothing could be
    read, ErrUnexpectedEOF when the stream ends inside the buffer. *)
Definition ReadFull (n : nat) (r : ReadCloser) : result bytes * ReadCloser :=
  match n, pending r with
  | O, _ => (Ok [], r)
  | S _, [] => (Err io_EOF, r)
  | S _, _ :: _ =>
      if (List.length (pending r) <? n)%nat then
        (Err io_ErrUnexpectedEOF, mkReadCloser [] (closed r))
      else
        (Ok (firstn n (pending r)), mkReadCloser (skipn n (pending r)) (closed r))
  end.

(** [binary.Read(r, binary.BigEndian, &length)] for a [uint32]. *)
Definition Read_uint32 (r : ReadCloser) : result Z * ReadCloser :=
  match ReadFull 4 r with
  | (Ok [b0; b1; b2; b3], r') => (Ok (Uint32 b0 b1 b2 b3), r')
  | (Ok _, r') => (Err io_ErrUnexpectedEOF, r')
  | (Err err, r') => (Err err, r')
  end.

(** [raft.SnapshotSink]: an [io.WriteCloser] that can be cancelled. *)
Class SnapshotSink (S : Type) : Type := {
  sink_Write : bytes -> S -> option error * S;
  sink_Close : S -> option error * S;
  sink_Cancel : S -> option error * S
}.

(** [binary.Write(w, binary.BigEndian, length)] for a [uint32]. *)
Definition Write_uint32 {S} `{!SnapshotSink S} (v : Z) (w : S)
  : option error * S :=
  sink_Write (PutUint32 v) w.

(** A sink that keeps what is written in memory and never fails. *)
Record Buffer : Type := mkBuffer {
  written : bytes;
  sink_closed : bool;
  sink_cancelled : bool
}.

Definition NewBuffer : Buffer := mkBuffer [] false false.

#[export] Instance Buffer_sink : SnapshotSink Buffer := {|
  sink_Write p w :=
    (None, mkBuffer (app (written w) p) (sink_closed w) (sink_cancelled w));
  sink_Close w := (None, mkBuffer (written w) true (sink_cancelled w));
  sink_Cancel w := (None, mkBuffer (written w) (sink_closed w) true)
|}.

End IO.
Export IO.

(* ===================================================================== *)
(** * package consensus: commands, the FSM and the snapshot codec *)
(* ===================================================================== *)

Module Consensus.

(** [CommandType] is an [int]; a decoded command can carry any value. *)
Definition CommandType := Z.
Definition CmdCreateCollection : CommandType := 1.
Definition CmdInsert : CommandType := 2.
Definition CmdDelete : CommandType := 3.
Definition CmdUpdate : CommandType := 4.
Definition CmdDropCollection : CommandType := 5.

Record Command : Type := mkCommand {
  Type_ : CommandType;
  Payload : bytes
}.

Record ApplyResult : Type := mkApplyResult {
  res_Data : option bytes;
  res_Error : option error
}.

(** What a call comes to: it returns, or [log.Fatalf] ends the process
    with [os.Exit(1)] after printing its message. *)
Inductive exec (T : Type) : Type :=
| Return (v : T)
| Fatal (msg : string).
Arguments Return {T} v.
Arguments Fatal {T} msg.

(** A value together with the equation that names it, for the loops whose
    termination depends on what a call returned. *)
Definition inspect {A : Type} (a : A) : {b : A | a = b} := exist _ a eq_refl.

Section FSM.
Context {B : Type} `{!VectorXLitePBClient B}.
Context `{!JSON Command} `{!JSON CollectionConfig} `{!JSON InsertPoint}.
Context `{!JSON SnapshotChunk}.

Import BackendClient.

Record VxFSM : Type := mkVxFSM { VectorClient : Client B }.

(** [applyCreateCollection]: the error of the backend call is dropped. *)
Definition applyCreateCollection (payload : bytes) (f : VxFSM)
  : exec ApplyResult * VxFSM :=
  match json_Unmarshal (A := CollectionConfig) payload with
  | Err err => (Return (mkApplyResult None (Some err)), f)
  | Ok collectionConfig =>
      let '(_, c) := CreateCollection (Some collectionConfig) (VectorClient f) in
      (Return (mkApplyResult None None), mkVxFSM c)
  end.

(** [applyInsert]: the error of the backend call is dropped. *)
Definition applyInsert (payload : bytes) (f : VxFSM)
  : exec ApplyResult * VxFSM :=
  match json_Unmarshal (A := InsertPoint) payload with
  | Err err =>
      (Fatal ("failed deserialize the insert point, err: " +:+ Error err), f)
  | Ok insertPoint =>
      let '(_, c) := Insert (Some insertPoint) (VectorClient f) in
      (Return (mkApplyResult None None), mkVxFSM c)
  end.

(** [VxFSM.Apply], on the data of the log entry. *)
Definition Apply (rlog_Data : bytes) (f : VxFSM) : exec ApplyResult * VxFSM :=
  match json_Unmarshal (A := Command) rlog_Data with
  | Err err =>
      (Fatal ("Failed to deserialize raft log in Apply method, err: "
              +:+ Error err), f)
  | Ok cmd =>
      if Type_ cmd =? CmdCreateCollection then
        applyCreateCollection (Payload cmd) f
      else if Type_ cmd =? CmdInsert then
        applyInsert (Payload cmd) f
      else
        (Return (mkApplyResult None None), f)
  end.

(** ** The snapshot codec *)

(** [writeChunk] *)
Definition writeChunk {S} `{!SnapshotSink S} (w : S) (chunk : SnapshotChunk)
  : option error * S :=
  match json_Marshal chunk with
  | Err err => (Some (Wrap "failed to marshal chunk: " err), w)
  | Ok data =>
      let length := uint32 (Z.of_nat (List.length data)) in
      match Write_uint32 length w with
      | (Some err, w') => (Some (Wrap "failed to write length prefix: " err), w')
      | (None, w') =>
          match sink_Write data w' with
          | (Some err, w'') => (Some (Wrap "failed to write chunk data: " err), w'')
          | (None, w'') => (None, w'')
          end
      end
  end.

(** [readChunk] *)
Definition readChunk (r : ReadCloser) : result SnapshotChunk * ReadCloser :=
  match Read_uint32 r with
  | (Err err, r') => (Err err, r')
  | (Ok length, r') =>
      match ReadFull (Z.to_nat length) r' with
      | (Err err, r'') => (Err (Wrap "failed to read chunk data: " err), r'')
      | (Ok data, r'') =>
          match json_Unmarshal (A := SnapshotChunk) data with
          | Err err => (Err (Wrap "failed to unmarshal chunk: " err), r'')
          | Ok chunk => (Ok chunk, r'')
          end
      end
  end.

(** The loop of [writeSnapshotToSink], at index [i]. *)
Fixpoint writeChunksFrom {S} `{!SnapshotSink S} (i : Z)
    (chunks : list SnapshotChunk) (sink : S) : option error * S :=
  match chunks with
  | [] => (None, sink)
  | chunk :: rest =>
      match writeChunk sink chunk with
      | (Some err, sink') =>
          (Some (Wrap ("failed to write chunk " +:+ pretty i +:+ ": ") err), sink')
      | (None, sink') => writeChunksFrom (i + 1) rest sink'
      end
  end.

(** [writeSnapshotToSink] *)
Definition writeSnapshotToSink {S} `{!SnapshotSink S} (sink : S)
    (collector : SnapshotCollector) : option error * S :=
  writeChunksFrom 0 (Chunks collector) sink.

(** [VectorXLiteSnapshot.Persist] *)
Definition Persist {S} `{!SnapshotSink S} (collector : SnapshotCollector)
    (sink : S) : option error * S :=
  match writeSnapshotToSink sink collector with
  | (Some err, sink') => let '(_, sink'') := sink_Cancel sink' in (Some err, sink'')
  | (None, sink') => sink_Close sink'
  end.

(** The loop of [readSnapshotChunks]: it ends on end of stream, on an
    error and after a final chunk; otherwise it goes on with a shorter
    stream. *)
Equations? readLoop (rc : ReadCloser) (chunks : list SnapshotChunk)
  : result (list SnapshotChunk) * ReadCloser
  by wf (List.length (pending rc)) lt :=
  readLoop rc chunks with inspect (readChunk rc) => {
    | exist _ (Err err, rc') _ =>
        if is_EOF err then (Ok chunks, rc')
        else (Err (Wrap "failed to read chunk: " err), rc');
    | exist _ (Ok chunk, rc') Heq =>
        if IsFinal chunk then (Ok (app chunks [chunk]), rc')
        else readLoop rc' (app chunks [chunk]) }.
Proof.
  (* a successful readChunk consumed the four bytes of a length prefix *)
  clear readLoop.
  assert (RF : forall n r d r', ReadFull n r = (Ok d, r') ->
            List.length (pending r) = (n + List.length (pending r'))%nat).
  { intros n r d r'. unfold ReadFull. destruct n as [|n].
    - intros [=]; subst; reflexivity.
    - destruct (pending r) as [|b p] eqn:E; [discriminate|].
      destruct (_ <? _)%nat eqn:Hl; [discriminate|].
      intros [=]; subst. cbn [pending]. apply Nat.ltb_ge in Hl.
      rewrite length_skipn. cbn [List.length] in *. lia. }
  revert Heq. unfold readChunk, Read_uint32.
  destruct (ReadFull 4 rc) as [[d|e] r1] eqn:H4; [|discriminate].
  destruct d as [|b0 [|b1 [|b2 [|b3 [|b4 d]]]]]; try discriminate.
  destruct (ReadFull (Z.to_nat _) r1) as [[d2|e2] r2] eqn:H5; [|discriminate].
  destruct (json_Unmarshal d2); [|discriminate].
  intros [=]; subst. apply RF in H4, H5. lia.
Qed.

(** [readSnapshotChunks]: the reader is closed before returning. *)
Definition readSnapshotChunks (rc : ReadCloser)
  : result (list SnapshotChunk) * ReadCloser :=
  let '(r, rc') := readLoop rc [] in (r, Close rc').

(** [VxFSM.Restore] *)
Definition Restore (rc : ReadCloser) (f : VxFSM)
  : option error * (ReadCloser * VxFSM) :=
  match readSnapshotChunks rc with
  | (Err err, rc') => (Some err, (rc', f))
  | (Ok chunks, rc') =>
      match ImportSnapshot chunks (VectorClient f) with
      | (Err err, c) => (Some err, (rc', mkVxFSM c))
      | (Ok _, c) => (None, (rc', mkVxFSM c))
      end
  end.

End FSM.
Arguments VxFSM B : clear implicits.

End Consensus.

(* ===================================================================== *)
(** * The messages of the cluster service (generated package pb) *)
(* ===================================================================== *)

Module ClusterPB.

Record CreateCollectionRequest : Type := mkCreateCollectionRequest {
  cc_CollectionName : string;
  cc_Distance : string;
  cc_VectorDimension : Z;
  cc_PayloadTableSchema : string
}.

Record InsertRequest : Type := mkInsertRequest {
  in_CollectionName : string;
  in_Id : Z;
  in_Vector : list float32;
  in_PayloadInsertQuery : string
}.

Record DeleteRequest : Type := mkDeleteRequest {
  del_CollectionName : string;
  del_Id : Z
}.

(** CreateCollectionResponse, InsertResponse and DeleteResponse have the
    same two fields. *)
Record WriteResponse : Type := mkWriteResponse {
  Success : bool;
  Message : string
}.

Record NodeInfo : Type := mkNodeInfo {
  NodeId : string;
  Addr : string;
  node_State : string;
  IsVoter : bool
}.

Record ClusterInfoResponse : Type := mkClusterInfoResponse {
  LeaderId : string;
  LeaderAddr : string;
  Nodes : list NodeInfo;
  info_State : string
}.

Record JoinClusterRequest : Type := mkJoinClusterRequest {
  join_NodeId : string;
  join_NodeAddr : string
}.

Record JoinClusterResponse : Type := mkJoinClusterResponse {
  join_Success : bool;
  join_Message : string;
  join_LeaderId : string
}.

Record LeaveClusterRequest : Type := mkLeaveClusterRequest {
  leave_NodeId : string
}.

End ClusterPB.

(* ===================================================================== *)
(** * package server: the redirect filter and the cluster service *)
(* ===================================================================== *)

Module Server.

Import Raft Grpc ClusterPB.

(** The interface [ClusterNode] of server.go.  A value of [N] is the node
    as it stands; the calls that act on it return the node they leave.
    [Apply], [AddVoter] and [RemoveServer] give the [Error()] of the future
    they return, [GetConfiguration] the future's error or configuration. *)
Class ClusterNode (N : Type) : Type := {
  State : N -> RaftState;
  Leader : N -> ServerAddress;
  AddVoter : ServerID -> ServerAddress -> Z -> Duration -> N -> option error * N;
  RemoveServer : ServerID -> Z -> Duration -> N -> option error * N;
  Apply : bytes -> Duration -> N -> option error * N;
  GetConfiguration : N -> result Configuration
}.

(** What a handler returns: [(resp, err)], either of which can be nil. *)
Definition reply (T : Type) : Type := (option T * option error)%type.

(** The server side of the call as far as the filter touches it: whether
    the context carries a stream whose header can be set, and the header
    set so far. *)
Record ServerStream : Type := mkServerStream {
  has_stream : bool;
  header : MD
}.

(** [grpc.SetHeader(ctx, md)] *)
Definition SetHeader (ctx : ServerStream) (md : MD) : option error * ServerStream :=
  if has_stream ctx then
    (None, mkServerStream true
             (union_with (fun a b => Some (app a b)) (header ctx) md))
  else
    (Some (status_Errorf Internal
             "grpc: failed to fetch the stream from the context"), ctx).

(** [convertRaftToClusterAddr] *)
Definition convertRaftToClusterAddr (raftAddr : string) : result string :=
  let lastColon := strings_LastIndex raftAddr ":" in
  if lastColon =? -1 then
    Err (errors_New ("invalid address format: " +:+ raftAddr))
  else
    let host := slice_to raftAddr lastColon in
    let port := slice_from raftAddr (lastColon + 1) in
    if (len port =? 0) || negb (byte_at_is port (len port - 1) "1") then
      Err (errors_New ("raft address must end with '1': " +:+ raftAddr))
    else
      let clusterPort := slice_to port (len port - 1) +:+ "2" in
      let clusterAddr := host +:+ ":" +:+ clusterPort in
      Ok clusterAddr.

(** The table of [isWriteOperation]. *)
Definition writeOperations : gmap string bool :=
  list_to_map
    [ ("/vectorxlite.cluster.ClusterService/CreateCollection", true);
      ("/vectorxlite.cluster.ClusterService/Insert", true);
      ("/vectorxlite.cluster.ClusterService/Delete", true);
      ("/vectorxlite.cluster.ClusterService/JoinCluster", true);
      ("/vectorxlite.cluster.ClusterService/LeaveCluster", true) ].

(** [isWriteOperation]: a key that is not in the map reads as [false]. *)
Definition isWriteOperation (method : string) : bool :=
  default false (writeOperations !! method).

Section WithNode.
Context {N : Type} `{!ClusterNode N}.

(** [LeaderRedirectInterceptor.Unary], applied to one call.  The handler
    acts on the node; the filter returns what the caller sees, the stream
    and the node. *)
Definition Unary {Req Resp : Type} (ctx : ServerStream) (req : Req)
    (info_FullMethod : string) (handler : Req -> N -> reply Resp * N)
    (n : N) : reply Resp * ServerStream * N :=
  let proceed := let '(r, n') := handler req n in (r, ctx, n') in
  if isWriteOperation info_FullMethod then
    if negb (bool_decide (State n = Raft.Leader)) then
      let leaderRaftAddr := Leader n in
      if String.eqb leaderRaftAddr "" then
        ((None, Some (status_Errorf Unavailable
                        "no leader available, please retry")), ctx, n)
      else
        match convertRaftToClusterAddr leaderRaftAddr with
        | Err err =>
            ((None, Some (status_Errorf Internal
                            ("failed to convert leader address: "
                             +:+ Error err))),
             ctx, n)
        | Ok leaderClusterAddr =>
            let md := Pairs [ ("x-leader-addr", leaderClusterAddr);
                              ("x-redirect", "true") ] in
            match SetHeader ctx md with
            | (Some err, ctx') =>
                ((None, Some (status_Errorf Internal
                                ("failed to set header: " +:+ Error err))),
                 ctx', n)
            | (None, ctx') =>
                ((None, Some (status_Errorf FailedPrecondition
                                ("not leader, redirect to: "
                                 +:+ leaderClusterAddr))),
                 ctx', n)
            end
        end
    else proceed
  else proceed.

(** [ClusterServer]: the callbacks are [nil] or a function; they act on the
    node ([raftNode] is the node the calls are threaded through). *)
Record ClusterServer : Type := mkClusterServer {
  nodeID : string;
  nodeAddr : string;
  onCreateCollection : option (CreateCollectionRequest -> N -> option error * N);
  onInsert : option (InsertRequest -> N -> option error * N);
  onDelete : option (DeleteRequest -> N -> option error * N)
}.

Record ClusterServerConfig : Type := mkClusterServerConfig {
  OnCreateCollection : option (CreateCollectionRequest -> N -> option error * N);
  OnInsert : option (InsertRequest -> N -> option error * N);
  OnDelete : option (DeleteRequest -> N -> option error * N)
}.

(** [NewClusterServer]: nodeID and nodeAddr stay empty. *)
Definition NewClusterServer (cfg : ClusterServerConfig) : ClusterServer :=
  mkClusterServer "" "" (OnCreateCollection cfg) (OnInsert cfg) (OnDelete cfg).

(** The body shared by the three write handlers: call the callback if
    there is one, report its error, else report success. *)
Definition write_handler {Req : Type}
    (callback : option (Req -> N -> option error * N)) (done : string)
    (req : Req) (n : N) : reply WriteResponse * N :=
  match callback with
  | Some on =>
      match on req n with
      | (Some err, n') =>
          ((Some (mkWriteResponse false (Error err)), Some err), n')
      | (None, n') => ((Some (mkWriteResponse true done), None), n')
      end
  | None => ((Some (mkWriteResponse true done), None), n)
  end.

(** [ClusterServer.CreateCollection] *)
Definition CreateCollection (s : ClusterServer) :=
  write_handler (onCreateCollection s) "collection created successfully".

(** [ClusterServer.Insert] *)
Definition Insert (s : ClusterServer) :=
  write_handler (onInsert s) "inserted successfully".

(** [ClusterServer.Delete] *)
Definition Delete (s : ClusterServer) :=
  write_handler (onDelete s) "deleted successfully".

(** [ClusterServer.getLeaderAddr] *)
Definition getLeaderAddr (n : N) : string := Leader n.

(** [ClusterServer.findLeaderID] *)
Fixpoint findLeaderID (servers : list Server) (leaderAddr : string) : string :=
  match servers with
  | [] => ""
  | server :: rest =>
      if String.eqb (Address server) leaderAddr then ID server
      else findLeaderID rest leaderAddr
  end.

(** [ClusterServer.GetClusterInfo] *)
Definition GetClusterInfo (s : ClusterServer) (n : N)
  : reply ClusterInfoResponse :=
  match GetConfiguration n with
  | Err err =>
      (None, Some (status_Errorf Internal
                     ("failed to get configuration: " +:+ Error err)))
  | Ok config =>
      let leaderAddr := getLeaderAddr n in
      let nodes :=
        map (fun server =>
               mkNodeInfo (ID server) (Address server)
                 (if String.eqb (Address server) leaderAddr
                  then "leader" else "follower")
                 (match Suffrage server with Voter => true | _ => false end))
            (Servers config) in
      (Some (mkClusterInfoResponse
               (findLeaderID (Servers config) leaderAddr)
               leaderAddr nodes (RaftState_String (State n))),
       None)
  end.

(** [ClusterServer.JoinCluster] *)
Definition JoinCluster (s : ClusterServer) (req : JoinClusterRequest) (n : N)
  : reply JoinClusterResponse * N :=
  match AddVoter (join_NodeId req) (join_NodeAddr req) 0 (10 * time_Second) n with
  | (Some err, n') =>
      ((Some (mkJoinClusterResponse false
                ("failed to add node: " +:+ Error err) ""),
        Some (status_Errorf Internal ("failed to add node: " +:+ Error err))), n')
  | (None, n') =>
      ((Some (mkJoinClusterResponse true "joined cluster successfully"
                (nodeID s)), None), n')
  end.

(** [ClusterServer.LeaveCluster] *)
Definition LeaveCluster (s : ClusterServer) (req : LeaveClusterRequest) (n : N)
  : reply WriteResponse * N :=
  match RemoveServer (leave_NodeId req) 0 (10 * time_Second) n with
  | (Some err, n') =>
      ((Some (mkWriteResponse false ("failed to remove node: " +:+ Error err)),
        Some (status_Errorf Internal ("failed to remove node: " +:+ Error err))), n')
  | (None, n') =>
      ((Some (mkWriteResponse true "left cluster successfully"), None), n')
  end.

End WithNode.
Arguments ClusterServer N : clear implicits.
Arguments ClusterServerConfig N : clear implicits.

End Server.

(* ===================================================================== *)
(** * The node: consensus.VxRaftNode and the wiring of package main *)
(* ===================================================================== *)

Module Node.

Import Raft ClusterPB Consensus.

(** [*raft.Raft], as far as the proxy calls it.  A value of [R] is the
    Raft peer as it stands. *)
Class RaftLib (R : Type) : Type := {
  raft_State : R -> RaftState;
  raft_Leader : R -> ServerAddress;
  raft_AddVoter : ServerID -> ServerAddress -> Z -> Duration -> R -> option error * R;
  raft_RemoveServer : ServerID -> Z -> Duration -> R -> option error * R;
  raft_Apply : bytes -> Duration -> R -> option error * R;
  raft_GetConfiguration : R -> result Configuration
}.

Section WithLibraries.
Context {R : Type} `{!RaftLib R}.
Context {B : Type} `{!VectorXLitePBClient B}.
Context `{!JSON Command} `{!JSON CollectionConfig} `{!JSON InsertPoint}.

Record VxRaftNode : Type := mkVxRaftNode {
  id : string;
  bindAddr : string;
  raft : R;
  Fsm : VxFSM B
}.

Definition on_raft {A : Type} (call : R -> A * R) (n : VxRaftNode)
  : A * VxRaftNode :=
  let '(a, r) := call (raft n) in (a, mkVxRaftNode (id n) (bindAddr n) r (Fsm n)).

(** The methods of [VxRaftNode]: each hands over to the Raft peer;
    [AddVoter] and [RemoveServer] pass 0 for the previous index. *)
#[export] Instance VxRaftNode_ClusterNode : Server.ClusterNode VxRaftNode := {|
  Server.State n := raft_State (raft n);
  Server.Leader n := raft_Leader (raft n);
  Server.AddVoter id addr prevIndex timeout :=
    on_raft (raft_AddVoter id addr 0 timeout);
  Server.RemoveServer id prevIndex timeout :=
    on_raft (raft_RemoveServer id 0 timeout);
  Server.Apply cmd timeout := on_raft (raft_Apply cmd timeout);
  Server.GetConfiguration n := raft_GetConfiguration (raft n)
|}.

(** The callbacks that [main] registers with the cluster server. *)

Definition OnCreateCollection (req : CreateCollectionRequest) (n : VxRaftNode)
  : option error * VxRaftNode :=
  match CollectionConfig_Build
          (mkCollectionConfig (cc_CollectionName req) DistanceCosine
             (cc_VectorDimension req) (cc_PayloadTableSchema req) "") with
  | Err err => (Some (Wrap "failed to build collection config: " err), n)
  | Ok collectionConfig =>
      match json_Marshal collectionConfig with
      | Err err => (Some (Wrap "failed to marshal collection config: " err), n)
      | Ok payload =>
          match json_Marshal (mkCommand CmdCreateCollection payload) with
          | Err err => (Some (Wrap "failed to marshal command: " err), n)
          | Ok comm =>
              match Server.Apply comm (5 * time_Second) n with
              | (Some err, n') => (Some (Wrap "raft apply failed: " err), n')
              | (None, n') => (None, n')
              end
          end
      end
  end.

Definition OnInsert (req : InsertRequest) (n : VxRaftNode)
  : option error * VxRaftNode :=
  match InsertPoint_Build
          (mkInsertPoint (in_CollectionName req) (in_Id req) (in_Vector req)
             (in_PayloadInsertQuery req)) with
  | Err err => (Some (Wrap "failed to build insert request: " err), n)
  | Ok insertReq =>
      match json_Marshal insertReq with
      | Err err => (Some (Wrap "failed to marshal insert request: " err), n)
      | Ok payload =>
          match json_Marshal (mkCommand CmdInsert payload) with
          | Err err => (Some (Wrap "failed to marshal command: " err), n)
          | Ok comm =>
              match Server.Apply comm (5 * time_Second) n with
              | (Some err, n') => (Some (Wrap "raft apply failed: " err), n')
              | (None, n') => (None, n')
              end
          end
      end
  end.

(** The Delete callback logs the request and returns [nil]. *)
Definition OnDelete (req : DeleteRequest) (n : VxRaftNode)
  : option error * VxRaftNode :=
  (None, n).

Definition serverCfg : Server.ClusterServerConfig VxRaftNode :=
  Server.mkClusterServerConfig
    (Some OnCreateCollection) (Some OnInsert) (Some OnDelete).

Definition clusterServer : Server.ClusterServer VxRaftNode :=
  Server.NewClusterServer serverCfg.

End WithLibraries.
Arguments VxRaftNode R B : clear implicits.

End Node.

(* ===================================================================== *)
(** * package client of the cluster: the redirect interceptor *)
(* ===================================================================== *)

Module ClusterClient.

Import Grpc.

(** [*grpc.ClientConn]: a connection is known by the address it dials. *)
Record ClientConn : Type := mkClientConn { target : string }.

(** [grpc.CallOption]: the option that captures the response header, or
    one of the caller's. *)
Inductive CallOption : Type :=
| Header_option
| Caller_option (tag : nat).

(** What one invocation of the call leaves behind: the reply it wrote, its
    error and the response header it delivered. *)
Record Response (Reply : Type) : Type := mkResponse {
  resp_reply : option Reply;
  resp_err : option error;
  resp_header : MD
}.
Arguments mkResponse {Reply} _ _ _.
Arguments resp_reply {Reply} _.
Arguments resp_err {Reply} _.
Arguments resp_header {Reply} _.

Record RedirectInterceptor : Type := mkRedirectInterceptor {
  maxRedirects : Z;
  connCache : gmap string ClientConn
}.

(** [NewRedirectInterceptor] *)
Definition NewRedirectInterceptor (maxRedirects : Z) : RedirectInterceptor :=
  let maxRedirects := if maxRedirects <=? 0 then 3 else maxRedirects in
  mkRedirectInterceptor maxRedirects ∅.

(** What a call through the interceptor comes to: the error returned, the
    reply left in the caller's variable, the cache of connections and the
    number of invocations made so far. *)
Record Outcome (Reply : Type) : Type := mkOutcome {
  out_err : option error;
  out_reply : option Reply;
  out_cache : gmap string ClientConn;
  out_calls : nat
}.
Arguments mkOutcome {Reply} _ _ _ _.
Arguments out_err {Reply} _.
Arguments out_reply {Reply} _.
Arguments out_cache {Reply} _.
Arguments out_calls {Reply} _.

Section WithNetwork.
Context {Req Reply : Type}.

(** The rest of the call chain and the cluster behind it: the response to
    the invocation made after [calls] earlier ones, which may depend on the
    connection, the method and the request in any way. *)
Variable invoker :
  forall (calls : nat) (method : string) (req : Req) (cc : ClientConn)
         (opts : list CallOption), Response Reply.

(** [grpc.Dial(addr, ...)] *)
Variable grpc_Dial : string -> result ClientConn.

(** [getOrCreateConnection]: the cache is looked up, again under the write
    lock, and filled on a miss. *)
Definition getOrCreateConnection (cache : gmap string ClientConn) (addr : string)
  : result ClientConn * gmap string ClientConn :=
  match cache !! addr with
  | Some conn => (Ok conn, cache)
  | None =>
      match cache !! addr with
      | Some conn => (Ok conn, cache)
      | None =>
          match grpc_Dial addr with
          | Err err => (Err err, cache)
          | Ok conn => (Ok conn, <[addr := conn]> cache)
          end
      end
  end.

(** [invokeWithRedirect] *)
#[derive(eliminator=no)] Equations? invokeWithRedirect (i : RedirectInterceptor) (calls : nat)
    (method : string) (req : Req) (reply : option Reply) (cc : ClientConn)
    (opts : list CallOption) (redirectCount : Z) : Outcome Reply
  by wf (Z.to_nat (maxRedirects i - redirectCount)) lt :=
  invokeWithRedirect i calls method req reply cc opts redirectCount
    with Z_ge_dec redirectCount (maxRedirects i) => {
    | left _ =>
        mkOutcome
          (Some (errors_New ("max redirects (" +:+ pretty (maxRedirects i)
                             +:+ ") exceeded")))
          reply (connCache i) calls;
    | right Hbudget =>
        let opts' := app opts [Header_option] in
        let r := invoker calls method req cc opts' in
        let reply' := match resp_reply r with Some v => Some v | None => reply end in
        let header := resp_header r in
        let unchanged := mkOutcome (resp_err r) reply' (connCache i) (S calls) in
        match resp_err r with
        | None => unchanged
        | Some err =>
            if bool_decide (code (Convert err) = FailedPrecondition) then
              match Get header "x-leader-addr", Get header "x-redirect" with
              | leaderAddr :: _, isRedirect0 :: _ =>
                  if String.eqb isRedirect0 "true" then
                    match getOrCreateConnection (connCache i) leaderAddr with
                    | (Err err', cache') =>
                        mkOutcome
                          (Some (Wrap ("failed to connect to leader "
                                       +:+ leaderAddr +:+ ": ") err'))
                          reply' cache' (S calls)
                    | (Ok leaderConn, cache') =>
                        invokeWithRedirect
                          (mkRedirectInterceptor (maxRedirects i) cache')
                          (S calls) method req reply' leaderConn
                          (removelast opts') (redirectCount + 1)
                    end
                  else unchanged
              | _, _ => unchanged
              end
            else unchanged
        end }.
Proof. cbn. lia. Qed.

(** [RedirectInterceptor.Unary], applied to one call. *)
Definition Unary (i : RedirectInterceptor) (method : string) (req : Req)
    (reply : option Reply) (cc : ClientConn) (opts : list CallOption)
  : Outcome Reply :=
  invokeWithRedirect i 0 method req reply cc opts 0.

End WithNetwork.

End ClusterClient.

(* ===================================================================== *)
(** * Concrete collaborators for running the embedding *)
(* ===================================================================== *)

(** Instances of the interfaces on which the code can be run: a Raft peer
    and a backend that record what they are asked to do, and the JSON codec
    restricted to a handful of documents, each written out as the text
    encoding/json gives for the value next to it. *)
Module Fixtures.

Import Raft ClusterPB Consensus Node.

Definition quote : string := String (ascii_of_nat 34) EmptyString.

(** [q s] is [s] between double quotes. *)
Definition q (s : string) : string := quote +:+ s +:+ quote.

Definition text (s : string) : bytes := list_byte_of_string s.

Definition is_text (b : bytes) (s : string) : bool :=
  String.eqb (string_of_list_byte b) s.

Definition syntax_error {A : Type} : result A :=
  Err (External "encoding/json" "invalid character looking for beginning of value").

(** *** Commands and their payloads *)

Definition users_1 : InsertPoint :=
  mkInsertPoint "users" 1 [1065353216; 1073741824] "insert into users(name) values ('Alice')".

Definition users_1_json : string :=
  "{" +:+ q "CollectionName" +:+ ":" +:+ q "users" +:+ "," +:+ q "Id" +:+ ":1,"
  +:+ q "Vector" +:+ ":[1,2]," +:+ q "PayloadInsertQuery" +:+ ":"
  +:+ q "insert into users(name) values ('Alice')" +:+ "}".

Definition users_cfg : CollectionConfig :=
  mkCollectionConfig "users" DistanceCosine 2
    "create table users(rowid integer primary key, name text)" "".

Definition users_cfg_json : string :=
  "{" +:+ q "CollectionName" +:+ ":" +:+ q "users" +:+ "," +:+ q "Distance" +:+ ":1,"
  +:+ q "VectorDimension" +:+ ":2," +:+ q "PayloadTableSchema" +:+ ":"
  +:+ q "create table users(rowid integer primary key, name text)" +:+ ","
  +:+ q "IndexFilePath" +:+ ":" +:+ q "" +:+ "}".

Definition delete_payload_json : string :=
  "{" +:+ q "collection_name" +:+ ":" +:+ q "users" +:+ "," +:+ q "id" +:+ ":1}".

Definition drop_payload_json : string :=
  "{" +:+ q "collection_name" +:+ ":" +:+ q "users" +:+ "}".

Definition command_json (type : Z) (payload : string) : string :=
  "{" +:+ q "type" +:+ ":" +:+ pretty type +:+ "," +:+ q "payload" +:+ ":"
  +:+ payload +:+ "}".

Definition known_commands : list (string * Command) :=
  map (fun '(t, p) => (command_json t p, mkCommand t (text p)))
    [ (CmdCreateCollection, users_cfg_json); (CmdInsert, users_1_json);
      (CmdDelete, delete_payload_json); (CmdDropCollection, drop_payload_json) ].

(** Decoding by looking the document up among the known ones. *)
Fixpoint decode {A : Type} (known : list (string * A)) (b : bytes) : result A :=
  match known with
  | [] => syntax_error
  | (doc, v) :: rest => if is_text b doc then Ok v else decode rest b
  end.

(** Encoding by looking the value up, by the key that tells the known
    values apart. *)
Fixpoint encode {A : Type} (key : A -> A -> bool) (known : list (string * A))
    (v : A) : result bytes :=
  match known with
  | [] => Err (External "encoding/json" "unsupported value")
  | (doc, v') :: rest => if key v v' then Ok (text doc) else encode key rest v
  end.

#[export] Instance Command_JSON : JSON Command := {|
  json_Marshal :=
    encode (fun a b => (Type_ a =? Type_ b)
                       && is_text (Payload a) (string_of_list_byte (Payload b)))
      known_commands;
  json_Unmarshal := decode known_commands
|}.

#[export] Instance CollectionConfig_JSON : JSON CollectionConfig := {|
  json_Marshal :=
    encode (fun a b => String.eqb (cfg_CollectionName a) (cfg_CollectionName b))
      [ (users_cfg_json, users_cfg) ];
  json_Unmarshal := decode [ (users_cfg_json, users_cfg) ]
|}.

#[export] Instance InsertPoint_JSON : JSON InsertPoint := {|
  json_Marshal :=
    encode (fun a b => String.eqb (ip_CollectionName a) (ip_CollectionName b)
                       && (ip_Id a =? ip_Id b))
      [ (users_1_json, users_1) ];
  json_Unmarshal := decode [ (users_1_json, users_1) ]
|}.

(** *** Snapshot chunks *)

Definition chunk0 : SnapshotChunk :=
  mkSnapshotChunk
    (Some (mkSnapshotMetadata "snap-1" 1700000000 3 [] 1 "c0ffee")) None 0 false.

Definition chunk1 : SnapshotChunk :=
  mkSnapshotChunk None
    (Some (mkFileChunk "vx.db" 0 [x01; x02; x03] true)) 1 true.

Definition chunk0_json : string :=
  "{" +:+ q "Metadata" +:+ ":{" +:+ q "SnapshotID" +:+ ":" +:+ q "snap-1" +:+ ","
  +:+ q "CreatedAt" +:+ ":1700000000," +:+ q "TotalSize" +:+ ":3,"
  +:+ q "Files" +:+ ":[]," +:+ q "Version" +:+ ":1," +:+ q "Checksum" +:+ ":"
  +:+ q "c0ffee" +:+ "}," +:+ q "FileChunk" +:+ ":null," +:+ q "Sequence"
  +:+ ":0," +:+ q "IsFinal" +:+ ":false}".

Definition chunk1_json : string :=
  "{" +:+ q "Metadata" +:+ ":null," +:+ q "FileChunk" +:+ ":{" +:+ q "FileName"
  +:+ ":" +:+ q "vx.db" +:+ "," +:+ q "Offset" +:+ ":0," +:+ q "Data" +:+ ":"
  +:+ q "AQID" +:+ "," +:+ q "IsLastChunk" +:+ ":true}," +:+ q "Sequence"
  +:+ ":1," +:+ q "IsFinal" +:+ ":true}".

(** *** encoding/json on snapshot chunks

    [json.Marshal] cannot fail on a [types.SnapshotChunk]: the type holds
    strings, integers, booleans, byte slices, a slice of structs and two
    pointers, and nothing of it has a marshalling method.  The encoder
    below writes what the library writes: the fields in the order of
    their declaration under their Go names, no white space, integers in
    decimal, a [nil] pointer as [null], a byte slice in base64, and a
    string between quotes with the escapes of [json.Marshal] (the HTML
    characters included).  A list stands for the slice the sources build:
    [Files] is made by [make] and is never [nil]; [Data] is taken from the
    message received and is [nil] when it is empty. *)

Definition byte_value (c : ascii) : Z := Z.of_nat (nat_of_ascii c).

Definition between (lo hi : Z) (c : ascii) : bool :=
  (lo <=? byte_value c) && (byte_value c <=? hi).

Definition hex_digit (n : Z) : string :=
  String.substring (Z.to_nat n) 1 "0123456789abcdef".

Definition backslash : string := String (ascii_of_nat 92) EmptyString.

(** The six characters of an escape by code point below 256. *)
Definition escape_u00 (c : ascii) : string :=
  backslash +:+ "u00" +:+ hex_digit (Z.shiftr (byte_value c) 4)
  +:+ hex_digit (Z.land (byte_value c) 15).

(** A byte below 128 inside a string. *)
Definition escape_ascii (c : ascii) : string :=
  let n := byte_value c in
  if (n =? 34) || (n =? 92) then backslash +:+ String c EmptyString
  else if n =? 8 then backslash +:+ "b"
  else if n =? 12 then backslash +:+ "f"
  else if n =? 10 then backslash +:+ "n"
  else if n =? 13 then backslash +:+ "r"
  else if n =? 9 then backslash +:+ "t"
  else if (n <? 32) || (n =? 60) || (n =? 62) || (n =? 38) then escape_u00 c
  else String c EmptyString.

(** The well-formed UTF-8 sequences of two, three and four bytes. *)
Definition continuation : ascii -> bool := between 128 191.

Definition rune2 (c c1 : ascii) : bool := between 194 223 c && continuation c1.

Definition rune3 (c c1 c2 : ascii) : bool :=
  ((between 224 224 c && between 160 191 c1)
   || (between 225 236 c && continuation c1)
   || (between 237 237 c && between 128 159 c1)
   || (between 238 239 c && continuation c1))
  && continuation c2.

Definition rune4 (c c1 c2 c3 : ascii) : bool :=
  ((between 240 240 c && between 144 191 c1)
   || (between 241 243 c && continuation c1)
   || (between 244 244 c && between 128 143 c1))
  && continuation c2 && continuation c3.

(** U+2028 and U+2029, which are written as escapes. *)
Definition line_separator (c c1 c2 : ascii) : bool :=
  between 226 226 c && between 128 128 c1 && between 168 169 c2.

Definition replacement : string := backslash +:+ "ufffd".

(** The inside of a string: a byte that starts no well-formed sequence
    becomes the replacement character. *)
Fixpoint escape (s : string) : string :=
  match s with
  | EmptyString => EmptyString
  | String c s1 =>
      if byte_value c <? 128 then escape_ascii c +:+ escape s1
      else
        match s1 with
        | EmptyString => replacement
        | String c1 s2 =>
            if rune2 c c1 then String c (String c1 (escape s2))
            else
              match s2 with
              | EmptyString => replacement +:+ escape s1
              | String c2 s3 =>
                  if rune3 c c1 c2 then
                    if line_separator c c1 c2 then
                      backslash +:+ "u202"
                      +:+ hex_digit (Z.land (byte_value c2) 15 )
                      +:+ escape s3
                    else String c (String c1 (String c2 (escape s3)))
                  else
                    match s3 with
                    | EmptyString => replacement +:+ escape s1
                    | String c3 s4 =>
                        if rune4 c c1 c2 c3 then
                          String c (String c1 (String c2 (String c3 (escape s4))))
                        else replacement +:+ escape s1
                    end
              end
        end
  end.

Definition json_string (s : string) : string := q (escape s).

Definition json_bool (b : bool) : string := if b then "true" else "false".

Definition json_int (n : Z) : string := pretty n.

Definition sextet (n : Z) : string :=
  String.substring (Z.to_nat n) 1
    "ABCDEFGHIJKLMNOPQRSTUVWXYZabcdefghijklmnopqrstuvwxyz0123456789+/".

(** [base64.StdEncoding], with padding. *)
Fixpoint base64 (d : bytes) : string :=
  match d with
  | [] => EmptyString
  | [a] =>
      let a := Z_of_byte a in
      sextet (Z.shiftr a 2) +:+ sextet (Z.shiftl (Z.land a 3) 4) +:+ "=="
  | [a; b] =>
      let a := Z_of_byte a in
      let b := Z_of_byte b in
      sextet (Z.shiftr a 2)
      +:+ sextet (Z.lor (Z.shiftl (Z.land a 3) 4) (Z.shiftr b 4))
      +:+ sextet (Z.shiftl (Z.land b 15) 2) +:+ "="
  | a :: b :: c :: rest =>
      let a := Z_of_byte a in
      let b := Z_of_byte b in
      let c := Z_of_byte c in
      sextet (Z.shiftr a 2)
      +:+ sextet (Z.lor (Z.shiftl (Z.land a 3) 4) (Z.shiftr b 4))
      +:+ sextet (Z.lor (Z.shiftl (Z.land b 15) 2) (Z.shiftr c 6))
      +:+ sextet (Z.land c 63) +:+ base64 rest
  end.

Definition json_bytes (d : bytes) : string :=
  match d with
  | [] => "null"
  | _ => q (base64 d)
  end.

(** A [SnapshotFileType] is an [int] without a marshalling method. *)
Definition json_file_type (t : SnapshotFileType) : string :=
  match t with
  | SnapshotFileTypeUnknown => "0"
  | SnapshotFileTypeSqliteDB => "1"
  | SnapshotFileTypeHnswIndex => "2"
  | SnapshotFileTypeWal => "3"
  end.

Definition json_file_info (f : SnapshotFileInfo) : string :=
  "{" +:+ q "FileName" +:+ ":" +:+ json_string (fi_FileName f)
  +:+ "," +:+ q "FileType" +:+ ":" +:+ json_file_type (fi_FileType f)
  +:+ "," +:+ q "FileSize" +:+ ":" +:+ json_int (fi_FileSize f)
  +:+ "," +:+ q "Checksum" +:+ ":" +:+ json_string (fi_Checksum f) +:+ "}".

Fixpoint json_elements (docs : list string) : string :=
  match docs with
  | [] => EmptyString
  | [doc] => doc
  | doc :: rest => doc +:+ "," +:+ json_elements rest
  end.

Definition json_metadata (m : SnapshotMetadata) : string :=
  "{" +:+ q "SnapshotID" +:+ ":" +:+ json_string (SnapshotID m)
  +:+ "," +:+ q "CreatedAt" +:+ ":" +:+ json_int (CreatedAt m)
  +:+ "," +:+ q "TotalSize" +:+ ":" +:+ json_int (TotalSize m)
  +:+ "," +:+ q "Files" +:+ ":[" +:+ json_elements (map json_file_info (Files m))
  +:+ "]," +:+ q "Version" +:+ ":" +:+ json_int (Version m)
  +:+ "," +:+ q "Checksum" +:+ ":" +:+ json_string (Checksum m) +:+ "}".

Definition json_file_chunk (fc : FileChunk) : string :=
  "{" +:+ q "FileName" +:+ ":" +:+ json_string (fc_FileName fc)
  +:+ "," +:+ q "Offset" +:+ ":" +:+ json_int (Offset fc)
  +:+ "," +:+ q "Data" +:+ ":" +:+ json_bytes (Data fc)
  +:+ "," +:+ q "IsLastChunk" +:+ ":" +:+ json_bool (IsLastChunk fc) +:+ "}".

Definition json_pointer {A : Type} (doc : A -> string) (p : option A) : string :=
  match p with
  | None => "null"
  | Some v => doc v
  end.

Definition json_chunk (c : SnapshotChunk) : string :=
  "{" +:+ q "Metadata" +:+ ":" +:+ json_pointer json_metadata (Metadata c)
  +:+ "," +:+ q "FileChunk" +:+ ":" +:+ json_pointer json_file_chunk (File c)
  +:+ "," +:+ q "Sequence" +:+ ":" +:+ json_int (Sequence c)
  +:+ "," +:+ q "IsFinal" +:+ ":" +:+ json_bool (IsFinal c) +:+ "}".

(** Marshalling never fails; decoding knows the documents of the two
    chunks above and takes any other input for malformed. *)
#[export] Instance SnapshotChunk_JSON : JSON SnapshotChunk := {|
  json_Marshal c := Ok (text (json_chunk c));
  json_Unmarshal := decode [ (chunk0_json, chunk0); (chunk1_json, chunk1) ]
|}.

(** *** A backend that records the calls it receives *)

Inductive Call : Type :=
| CallCreateCollection (cfg : CollectionConfigPB)
| CallInsert (p : InsertPointPB)
| CallDelete (r : DeleteRequestPB)
| CallDeleteCollection (r : DeleteCollectionRequestPB)
| CallImportSnapshot
| CallSend (c : SnapshotChunkPB)
| CallCloseAndRecv.

(** [failing] is the error every mutation is answered with, if any. *)
Record Recorder : Type := mkRecorder {
  failing : option error;
  received : list Call
}.

Definition record (c : Call) (b : Recorder) : option error * Recorder :=
  (failing b, mkRecorder (failing b) (app (received b) [c])).

#[export] Instance Recorder_backend : VectorXLitePBClient Recorder := {|
  rpc_CreateCollection cfg := record (CallCreateCollection cfg);
  rpc_Insert p := record (CallInsert p);
  rpc_Delete r := record (CallDelete r);
  rpc_DeleteCollection r := record (CallDeleteCollection r);
  rpc_ImportSnapshot := record CallImportSnapshot;
  stream_Send c := record (CallSend c);
  stream_CloseAndRecv b :=
    (match failing b with
     | Some err => Err err
     | None => Ok (mkImportSnapshotResponse true "" "snap-1" 3 1)
     end,
     mkRecorder (failing b) (app (received b) [CallCloseAndRecv]))
|}.

Definition healthy : Recorder := mkRecorder None [].

Definition disk_full : Recorder :=
  mkRecorder (Some (status_Errorf Internal "database or disk is full")) [].

(** *** A Raft peer that records what is proposed to it *)

Record Peer : Type := mkPeer {
  peer_state : RaftState;
  peer_leader : ServerAddress;
  peer_servers : list Server;
  proposed : list (bytes * Duration)
}.

#[export] Instance Peer_raft : RaftLib Peer := {|
  raft_State := peer_state;
  raft_Leader := peer_leader;
  raft_AddVoter id addr prevIndex timeout p :=
    (None, mkPeer (peer_state p) (peer_leader p)
             (app (peer_servers p) [mkServer Voter id addr]) (proposed p));
  raft_RemoveServer id prevIndex timeout p :=
    (None, mkPeer (peer_state p) (peer_leader p)
             (filter (fun s => negb (String.eqb (ID s) id)) (peer_servers p))
             (proposed p));
  raft_Apply cmd timeout p :=
    (None, mkPeer (peer_state p) (peer_leader p) (peer_servers p)
             (app (proposed p) [(cmd, timeout)]));
  raft_GetConfiguration p := Ok (mkConfiguration (peer_servers p))
|}.

Definition three_servers : list Server :=
  [ mkServer Voter "node1" "127.0.0.1:5001";
    mkServer Voter "node2" "127.0.0.1:5011";
    mkServer Voter "node3" "127.0.0.1:5021" ].

(** node1 leads; [node state] is a node of this cluster in [state]. *)
Definition node (state : RaftState) (leader : ServerAddress)
  : VxRaftNode Peer Recorder :=
  mkVxRaftNode "node2" "127.0.0.1:5011"
    (mkPeer state leader three_servers [])
    (mkVxFSM (BackendClient.mkClient healthy)).

Definition fresh_stream : Server.ServerStream := Server.mkServerStream true ∅.

(** *** Answers of a cluster to the client *)

Definition redirect_to (addr : string) : ClusterClient.Response nat :=
  ClusterClient.mkResponse None
    (Some (status_Errorf FailedPrecondition ("not leader, redirect to: " +:+ addr)))
    (Grpc.Pairs [("x-leader-addr", addr); ("x-redirect", "true")]).

Definition served (v : nat) : ClusterClient.Response nat :=
  ClusterClient.mkResponse (Some v) None ∅.

Definition unavailable : ClusterClient.Response nat :=
  ClusterClient.mkResponse None
    (Some (status_Errorf Unavailable "no leader available, please retry")) ∅.

(** Every node points to 127.0.0.1:5002, that node included. *)
Definition always_redirecting (calls : nat) (method : string) (req : string)
    (cc : ClusterClient.ClientConn) (opts : list ClusterClient.CallOption)
  : ClusterClient.Response nat :=
  redirect_to "127.0.0.1:5002".

(** No leader is known anywhere. *)
Definition leaderless (calls : nat) (method : string) (req : string)
    (cc : ClusterClient.ClientConn) (opts : list ClusterClient.CallOption)
  : ClusterClient.Response nat :=
  unavailable.

(** The node at 127.0.0.1:5002 leads and serves; the others redirect to it. *)
Definition healthy_cluster (calls : nat) (method : string) (req : string)
    (cc : ClusterClient.ClientConn) (opts : list ClusterClient.CallOption)
  : ClusterClient.Response nat :=
  if String.eqb (ClusterClient.target cc) "127.0.0.1:5002" then served 7
  else redirect_to "127.0.0.1:5002".

(** The first answer is a redirect whose x-leader-addr value is the empty
    string; whatever is called next serves. *)
Definition names_no_address (calls : nat) (method : string) (req : string)
    (cc : ClusterClient.ClientConn) (opts : list ClusterClient.CallOption)
  : ClusterClient.Response nat :=
  match calls with
  | O => redirect_to ""
  | S _ => served 7
  end.

(** [grpc.Dial] without blocking, on the addresses of the fixtures: the
    connection to a host and port is made without waiting for the peer,
    and the empty target is refused when its resolver is built.  The text
    of that error is the library's and no statement depends on it. *)
Definition empty_target : error :=
  External "grpc" "passthrough: received empty target in Build()".

Definition dial (addr : string) : result ClusterClient.ClientConn :=
  if String.eqb addr "" then Err empty_target
  else Ok (ClusterClient.mkClientConn addr).

End Fixtures.

(* ===================================================================== *)
(** * More of the sources: addresses of a node, search points, helpers *)
(* ===================================================================== *)

(** The part of [main] of a node that derives its addresses from the base
    port given on the command line. *)
Module NodeMain.

(** [raftPort := *basePort + "1"] *)
Definition raftPort (basePort : string) : string := basePort +:+ "1".

(** [clusterPort := *basePort + "2"] *)
Definition clusterPort (basePort : string) : string := basePort +:+ "2".

(** [raftAddr := fmt.Sprintf("127.0.0.1:%s", raftPort)] *)
Definition raftAddr (basePort : string) : string :=
  "127.0.0.1:" +:+ raftPort basePort.

(** [clusterAddr := fmt.Sprintf(":%s", clusterPort)], the address the
    cluster server listens on. *)
Definition clusterAddr (basePort : string) : string :=
  ":" +:+ clusterPort basePort.

End NodeMain.

(** [types.SearchPoint] and its builder. *)
Module Search.

Record SearchPoint : Type := mkSearchPoint {
  sp_CollectionName : string;
  sp_Vector : list float32;
  TopK : Z;
  PayloadSearchQuery : string
}.

(** [NewSearchPointBuilder()....Build()]: a top-k of 0 becomes 10. *)
Definition SearchPoint_Build (s : SearchPoint) : result SearchPoint :=
  if String.eqb (sp_CollectionName s) "" then
    Err (errors_New "collection_name required")
  else if (List.length (sp_Vector s) =? 0)%nat then
    Err (errors_New "vector required")
  else if TopK s =? 0 then
    Ok (mkSearchPoint (sp_CollectionName s) (sp_Vector s) 10
          (PayloadSearchQuery s))
  else Ok s.

End Search.

(** [SnapshotCollector.GetTotalBytes]: the sum is a [uint64]. *)
Module CollectorTotals.

Definition uint64 (n : Z) : Z := n mod 2 ^ 64.

Definition GetTotalBytes (c : SnapshotCollector) : Z :=
  fold_left
    (fun total chunk =>
       match File chunk with
       | Some fc => uint64 (total + uint64 (Z.of_nat (List.length (Data fc))))
       | None => total
       end)
    (Chunks c) 0.

End CollectorTotals.

(** The helper of the cluster tests that picks a follower by comparing
    the leader address with the addresses of the nodes. *)
Module DistributedTest.

(** [contains] *)
Definition contains (s substr : string) : bool :=
  (0 <? len s) && (0 <? len substr)
  && (String.eqb s substr
      || ((len substr <=? len s)
          && String.eqb (slice_from s (len s - len substr)) substr)).

End DistributedTest.


(** A snapshot sink with room for a number of bytes, as a store that
    fills up: a write that does not fit is refused and leaves the sink as
    it was. *)
Module BoundedSink.

Record Bounded : Type := mkBounded {
  room : nat;
  stored : bytes;
  bounded_closed : bool;
  bounded_cancelled : bool
}.

Definition no_space : error :=
  External "os" "write snapshot: no space left on device".

#[export] Instance Bounded_sink : SnapshotSink Bounded := {|
  sink_Write p w :=
    if (List.length p <=? room w)%nat then
      (None, mkBounded (room w - List.length p) (app (stored w) p)
               (bounded_closed w) (bounded_cancelled w))
    else (Some no_space, w);
  sink_Close w :=
    (None, mkBounded (room w) (stored w) true (bounded_cancelled w));
  sink_Cancel w :=
    (None, mkBounded (room w) (stored w) (bounded_closed w) true)
|}.

End BoundedSink.

(** Documents that decode as commands but whose payload has a field of the
    wrong type, for running the FSM on entries it cannot apply. *)
Module MoreFixtures.

Import Consensus Fixtures.

Definition bad_cfg_json : string := "{" +:+ q "CollectionName" +:+ ":5}".

Definition bad_point_json : string := "{" +:+ q "Id" +:+ ":" +:+ q "one" +:+ "}".

Definition type_error (field type : string) : error :=
  External "encoding/json"
    ("json: cannot unmarshal into Go struct field " +:+ field +:+ " of type "
     +:+ type).

Definition more_commands : list (string * Command) :=
  app known_commands
    (map (fun '(t, p) => (command_json t p, mkCommand t (text p)))
       [ (CmdCreateCollection, bad_cfg_json); (CmdInsert, bad_point_json) ]).

#[export] Instance Command_JSON : JSON Command := {|
  json_Marshal := json_Marshal (JSON := Fixtures.Command_JSON);
  json_Unmarshal := decode more_commands
|}.

#[export] Instance CollectionConfig_JSON : JSON CollectionConfig := {|
  json_Marshal := json_Marshal (JSON := Fixtures.CollectionConfig_JSON);
  json_Unmarshal b :=
    if is_text b bad_cfg_json
    then Err (type_error "CollectionConfig.CollectionName" "string")
    else json_Unmarshal (JSON := Fixtures.CollectionConfig_JSON) b
|}.

#[export] Instance InsertPoint_JSON : JSON InsertPoint := {|
  json_Marshal := json_Marshal (JSON := Fixtures.InsertPoint_JSON);
  json_Unmarshal b :=
    if is_text b bad_point_json
    then Err (type_error "InsertPoint.Id" "int64")
    else json_Unmarshal (JSON := Fixtures.InsertPoint_JSON) b
|}.

End MoreFixtures.


(* ===================================================================== *)
(** * The vocabulary of the statements *)
(* ===================================================================== *)

(** The notions the properties below are stated with: addresses on and off
    the port convention, frames and streams of frames, malformed streams,
    the redirect signal. *)
Module Vocabulary.

Import Grpc Consensus ClusterClient.

(** ** Addresses *)

(** [s] holds no colon. *)
Fixpoint colon_free (s : string) : Prop :=
  match s with
  | EmptyString => True
  | String c s' => c <> ":"%char /\ colon_free s'
  end.

(** The value of a string of decimal digits, as a port number is read. *)
Fixpoint digits_value (acc : Z) (s : string) : option Z :=
  match s with
  | EmptyString => Some acc
  | String c s' =>
      let d := Z.of_nat (nat_of_ascii c) - 48 in
      if (0 <=? d) && (d <=? 9) then digits_value (10 * acc + d) s' else None
  end.

Definition port_number (s : string) : option Z :=
  match s with
  | EmptyString => None
  | _ => digits_value 0 s
  end.

(** The last byte of a string. *)
Fixpoint last_byte (s : string) : option ascii :=
  match s with
  | EmptyString => None
  | String c EmptyString => Some c
  | String _ s' => last_byte s'
  end.

(** An address off the convention: no colon at all, or a port (the text
    after the last colon) that does not end in the character '1'. *)
Definition off_convention (addr : string) : Prop :=
  colon_free addr \/
  exists h p, addr = h +:+ ":" +:+ p /\ colon_free p /\ last_byte p <> Some "1"%char.

(** ** Frames *)

(** A frame: the length of the payload as four bytes, most significant
    first, then the payload. *)
Definition frame (data : bytes) : bytes :=
  app (PutUint32 (Z.of_nat (List.length data))) data.

Definition fits (data : bytes) : Prop := Z.of_nat (List.length data) < 2 ^ 32.

Section Chunks.
Context `{!JSON SnapshotChunk}.
Implicit Types (chunk : SnapshotChunk) (data : bytes).

Definition non_final chunk : Prop := IsFinal chunk = false.

(** [data] is a payload a length prefix can describe and it decodes to
    [chunk]. *)
Definition decodes data chunk : Prop :=
  fits data /\ json_Unmarshal data = Ok chunk.

(** [chunk] is serialized as [data], which decodes to it again. *)
Definition coded chunk data : Prop :=
  json_Marshal chunk = Ok data /\ decodes data chunk.

(** The frames of the payloads, one after the other. *)
Definition stream (datas : list bytes) : bytes := concat (map frame datas).

(** What is left of the stream starts with a frame that is cut short,
    inside its length prefix or inside its payload, or whose payload does
    not decode. *)
Inductive malformed : bytes -> Prop :=
| short_prefix rest :
    rest <> [] -> (List.length rest < 4)%nat -> malformed rest
| short_payload b0 b1 b2 b3 tail :
    Z.of_nat (List.length tail) < Uint32 b0 b1 b2 b3 ->
    malformed (b0 :: b1 :: b2 :: b3 :: tail)
| bad_payload b0 b1 b2 b3 data tail err :
    Z.of_nat (List.length data) = Uint32 b0 b1 b2 b3 ->
    json_Unmarshal data = Err err ->
    malformed (b0 :: b1 :: b2 :: b3 :: app data tail).

End Chunks.

(** ** Redirects *)

(** The redirect signal as the interceptor tests it: the call failed with
    FailedPrecondition, the header has at least one x-leader-addr value and
    its first x-redirect value is "true". *)
Definition is_redirect {Reply : Type} (r : Response Reply) : bool :=
  match resp_err r with
  | None => false
  | Some err =>
      bool_decide (code (Convert err) = FailedPrecondition)
      && match Get (resp_header r) "x-leader-addr",
               Get (resp_header r) "x-redirect" with
         | _ :: _, isRedirect0 :: _ => String.eqb isRedirect0 "true"
         | _, _ => false
         end
  end.

(** The address a redirect names: the first x-leader-addr value. *)
Definition leader_of {Reply : Type} (r : Response Reply) : string :=
  hd "" (Get (resp_header r) "x-leader-addr").

(** The text of the error that ends a call out of budget. *)
Definition MaxRedirectsExceeded (i : RedirectInterceptor) : error :=
  errors_New ("max redirects (" +:+ pretty (maxRedirects i) +:+ ") exceeded").

(** The rule of the interceptor in words, by recursion on the invocations
    that are left.  With none left the call ends with the terminal error.
    Otherwise the call is invoked on the current connection with the
    caller's options and one header option.  An answer that is not a
    redirect signal is returned as it is.  On a redirect signal the
    connection for the first x-leader-addr value is taken from the cache
    or dialled and cached: when dialling fails the call ends with that
    error inside "failed to connect to leader <address>: ", and else the
    same call is retried on that connection with one invocation fewer
    left. *)
Section Follow.
Context {Req Reply : Type}.
Variable invoker :
  nat -> string -> Req -> ClientConn -> list CallOption -> Response Reply.
Variable grpc_Dial : string -> result ClientConn.

Fixpoint follow_redirects (left : nat) (terminal : error)
    (cache : gmap string ClientConn) (calls : nat) (method : string)
    (req : Req) (reply : option Reply) (cc : ClientConn)
    (opts : list CallOption) : Outcome Reply :=
  match left with
  | O => mkOutcome (Some terminal) reply cache calls
  | S left' =>
      let r := invoker calls method req cc (app opts [Header_option]) in
      let reply' := match resp_reply r with Some v => Some v | None => reply end in
      if is_redirect r then
        match cache !! leader_of r with
        | Some conn =>
            follow_redirects left' terminal cache (S calls) method req reply'
              conn opts
        | None =>
            match grpc_Dial (leader_of r) with
            | Err err =>
                mkOutcome
                  (Some (Wrap ("failed to connect to leader "
                               +:+ leader_of r +:+ ": ") err))
                  reply' cache (S calls)
            | Ok conn =>
                follow_redirects left' terminal (<[leader_of r := conn]> cache)
                  (S calls) method req reply' conn opts
            end
        end
      else mkOutcome (resp_err r) reply' cache (S calls)
  end.

End Follow.

End Vocabulary.

(* ===================================================================== *)
(** * Properties: strings and the address convention *)
(* ===================================================================== *)

Module AddressFacts.

Import Server Vocabulary.

#[local] Arguments String.append !_ _ / : simpl nomatch.

Lemma length_append (a b : string) :
  String.length (a +:+ b) = (String.length a + String.length b)%nat.
Proof. induction a as [|c a IH]; cbn; [reflexivity | now rewrite IH]. Qed.

Lemma append_assoc (a b c : string) : (a +:+ b) +:+ c = a +:+ (b +:+ c).
Proof. induction a as [|x a IH]; cbn; [reflexivity | now rewrite IH]. Qed.

Lemma append_empty_r (a : string) : a +:+ "" = a.
Proof. induction a as [|x a IH]; cbn; [reflexivity | now rewrite IH]. Qed.

Lemma substring_all (s : string) : String.substring 0 (String.length s) s = s.
Proof. induction s as [|c s IH]; cbn; [reflexivity | now rewrite IH]. Qed.

Lemma substring_prefix (h r : string) :
  String.substring 0 (String.length h) (h +:+ r) = h.
Proof.
  induction h as [|c h IH]; cbn.
  - now destruct r.
  - now rewrite IH.
Qed.

Lemma substring_skip (h r : string) (n m : nat) :
  String.substring (String.length h + n) m (h +:+ r) = String.substring n m r.
Proof. induction h as [|c h IH]; cbn; [reflexivity | exact IH]. Qed.

Lemma get_after (h r : string) (c : ascii) :
  String.get (String.length h) (h +:+ String c r) = Some c.
Proof. induction h as [|x h IH]; cbn; [reflexivity | exact IH]. Qed.

Lemma last_char (p : string) :
  p <> "" -> exists r c, p = r +:+ String c "".
Proof.
  induction p as [|x p IH]; [congruence | intros _].
  destruct p as [|y p].
  - now exists "", x.
  - destruct IH as (r & c & E); [discriminate|].
    exists (String x r), c. cbn. now rewrite <- E.
Qed.

Lemma colon_free_append (a b : string) :
  colon_free (a +:+ b) <-> colon_free a /\ colon_free b.
Proof. induction a as [|c a IH]; cbn; tauto. Qed.

Lemma prefix_colon (c : ascii) (s : string) :
  String.prefix ":" (String c s) = bool_decide (c = ":"%char).
Proof.
  change (String.prefix ":" (String c s))
    with (if ascii_dec ":" c then String.prefix "" s else false).
  destruct (ascii_dec ":" c) as [<-|Hne].
  - now destruct s.
  - symmetry. apply bool_decide_eq_false_2. congruence.
Qed.

Lemma lastIndexFrom_none (s : string) (i : Z) :
  colon_free s -> lastIndexFrom i s ":" = -1.
Proof.
  revert i. induction s as [|c s IH]; intros i; [reflexivity|].
  intros [Hc Hs]. cbn [lastIndexFrom]. rewrite (IH _ Hs).
  rewrite prefix_colon, bool_decide_eq_false_2 by assumption. reflexivity.
Qed.

Lemma lastIndexFrom_split (h p : string) (i : Z) :
  0 <= i -> colon_free p ->
  lastIndexFrom i (h +:+ ":" +:+ p) ":" = i + len h.
Proof.
  revert i. induction h as [|c h IH]; intros i Hi Hp.
  - cbn [String.append lastIndexFrom]. rewrite (lastIndexFrom_none _ _ Hp).
    rewrite prefix_colon, bool_decide_eq_true_2 by reflexivity.
    unfold len. cbn. lia.
  - cbn [String.append lastIndexFrom]. rewrite IH by (lia || assumption).
    unfold len. cbn [String.length].
    destruct (Z.leb_spec 0 (i + 1 + Z.of_nat (String.length h))); lia.
Qed.

(** Every string is free of colons or splits at its last colon. *)
Lemma split_last_colon (s : string) :
  colon_free s \/ exists h p, s = h +:+ ":" +:+ p /\ colon_free p.
Proof.
  induction s as [|c s [Hs | (h & p & -> & Hp)]].
  - now left.
  - destruct (decide (c = ":"%char)) as [->|Hc].
    + right. now exists "", s.
    + left. now split.
  - right. now exists (String c h), p.
Qed.

Lemma slice_to_prefix (h r : string) : slice_to (h +:+ r) (len h) = h.
Proof. unfold slice_to, len. rewrite Nat2Z.id. apply substring_prefix. Qed.

Lemma slice_from_suffix (h p : string) :
  slice_from (h +:+ ":" +:+ p) (len h + 1) = p.
Proof.
  unfold slice_from, len.
  replace (Z.to_nat (Z.of_nat (String.length h) + 1))
    with (String.length h + 1)%nat by lia.
  rewrite substring_skip, !length_append. cbn.
  replace (String.length h + S (String.length p) - (String.length h + 1))%nat
    with (String.length p) by lia.
  apply substring_all.
Qed.

(** What [convertRaftToClusterAddr] returns, case by case. *)

Lemma convert_no_colon (s : string) :
  colon_free s ->
  convertRaftToClusterAddr s
  = Err (errors_New ("invalid address format: " +:+ s)).
Proof.
  intros Hs. unfold convertRaftToClusterAddr, strings_LastIndex.
  now rewrite lastIndexFrom_none.
Qed.

Lemma convert_at_colon (h p : string) :
  colon_free p ->
  convertRaftToClusterAddr (h +:+ ":" +:+ p)
  = if (len p =? 0) || negb (byte_at_is p (len p - 1) "1") then
      Err (errors_New ("raft address must end with '1': " +:+ h +:+ ":" +:+ p))
    else Ok (h +:+ ":" +:+ slice_to p (len p - 1) +:+ "2").
Proof.
  intros Hp. unfold convertRaftToClusterAddr, strings_LastIndex.
  rewrite lastIndexFrom_split by (lia || assumption).
  replace (0 + len h) with (len h) by lia.
  assert ((len h =? -1) = false) as -> by (apply Z.eqb_neq; unfold len; lia).
  now rewrite slice_from_suffix, slice_to_prefix.
Qed.

Lemma byte_at_last (r : string) (c d : ascii) :
  byte_at_is (r +:+ String c "") (len (r +:+ String c "") - 1) d = Ascii.eqb c d.
Proof.
  unfold byte_at_is, index, len. rewrite length_append. cbn [String.length].
  destruct (Z.ltb_spec (Z.of_nat (String.length r + 1) - 1) 0); [lia|].
  replace (Z.to_nat (Z.of_nat (String.length r + 1) - 1))
    with (String.length r) by lia.
  now rewrite get_after.
Qed.

Lemma convert_ok (h r : string) :
  colon_free r ->
  convertRaftToClusterAddr (h +:+ ":" +:+ r +:+ "1")
  = Ok (h +:+ ":" +:+ r +:+ "2").
Proof.
  intros Hr. rewrite convert_at_colon.
  2:{ apply colon_free_append. split; [assumption|]. cbn. split; [discriminate|exact I]. }
  rewrite byte_at_last. cbn [Ascii.eqb negb].
  assert ((len (r +:+ "1") =? 0) = false) as ->.
  { apply Z.eqb_neq. unfold len. rewrite length_append. cbn. lia. }
  cbn [orb].
  replace (len (r +:+ "1") - 1) with (len r).
  2:{ unfold len. rewrite length_append. cbn. lia. }
  now rewrite slice_to_prefix.
Qed.

Lemma convert_bad_port (h p : string) :
  colon_free p -> (forall r, p <> r +:+ "1") ->
  convertRaftToClusterAddr (h +:+ ":" +:+ p)
  = Err (errors_New ("raft address must end with '1': " +:+ h +:+ ":" +:+ p)).
Proof.
  intros Hp Hbad. rewrite convert_at_colon by assumption.
  destruct (decide (p = "")) as [->|Hne]; [reflexivity|].
  destruct (last_char p Hne) as (r & c & ->).
  rewrite byte_at_last.
  destruct (Ascii.eqb_spec c "1") as [->|Hc]; [now destruct (Hbad r)|].
  now rewrite orb_true_r.
Qed.

Lemma digits_value_append (a b : string) (acc : Z) :
  digits_value acc (a +:+ b)
  = match digits_value acc a with
    | Some v => digits_value v b
    | None => None
    end.
Proof.
  revert acc. induction a as [|c a IH]; intros acc; cbn; [reflexivity|].
  destruct (_ && _); [apply IH | reflexivity].
Qed.

(** A port written [r1] has number 10*P+1 and the port written [r2]
    number 10*P+2, where P is the number [r] writes (0 if [r] is empty). *)
Lemma port_number_convention (r : string) (P : Z) :
  digits_value 0 r = Some P ->
  port_number (r +:+ "1") = Some (10 * P + 1) /\
  port_number (r +:+ "2") = Some (10 * P + 2).
Proof.
  intros HP. unfold port_number.
  assert (forall d, r +:+ d = "" -> d = "") as Hnil by (destruct r; [auto|discriminate]).
  split.
  - destruct (r +:+ "1") eqn:E; [now apply Hnil in E|].
    rewrite <- E, digits_value_append, HP. reflexivity.
  - destruct (r +:+ "2") eqn:E; [now apply Hnil in E|].
    rewrite <- E, digits_value_append, HP. reflexivity.
Qed.

End AddressFacts.

(* ===================================================================== *)
(** * Properties: the redirect filter and the cluster service *)
(* ===================================================================== *)

Module ServerFacts.

Import Raft Grpc ClusterPB Server Vocabulary AddressFacts.
Import (hints) Node Fixtures.

#[local] Arguments String.append !_ _ / : simpl nomatch.

Lemma last_byte_append (r : string) (c : ascii) :
  last_byte (r +:+ String c "") = Some c.
Proof.
  induction r as [|x r IH]; [reflexivity|].
  cbn [String.append last_byte]. rewrite IH.
  destruct r; reflexivity.
Qed.

Lemma off_convention_rejected (addr : string) :
  off_convention addr -> exists msg, convertRaftToClusterAddr addr = Err (errors_New msg).
Proof.
  intros [Hfree | (h & p & -> & Hp & Hlast)].
  - eexists. now apply convert_no_colon.
  - eexists. apply convert_bad_port; [assumption|].
    intros r ->. now rewrite last_byte_append in Hlast.
Qed.

Lemma append_not_empty (h t : string) : h +:+ ":" +:+ t <> "".
Proof. destruct h; discriminate. Qed.

Lemma not_leader (s : RaftState) :
  s <> Raft.Leader -> negb (bool_decide (s = Raft.Leader)) = true.
Proof. intros H. now rewrite bool_decide_eq_false_2. Qed.

(** What the two header entries of a redirect read as. *)
Lemma redirect_metadata (addr : string) :
  Get (Pairs [("x-leader-addr", addr); ("x-redirect", "true")]) "x-leader-addr" = [addr]
  /\ Get (Pairs [("x-leader-addr", addr); ("x-redirect", "true")]) "x-redirect" = ["true"].
Proof. split; reflexivity. Qed.

Section Filter.
Context {N : Type} `{!ClusterNode N}.
Context {Req Resp : Type}.
Implicit Types (n : N) (ctx : ServerStream) (req : Req).
Implicit Types (handler : Req -> N -> reply Resp * N).

(** The filter lets every call through that is not classified as a write. *)
Lemma Unary_passes_non_write ctx req m handler n :
  isWriteOperation m = false ->
  Unary ctx req m handler n = (let '(r, n') := handler req n in (r, ctx, n')).
Proof. intros H. unfold Unary. now rewrite H. Qed.

(** ... and every call that arrives at the leader. *)
Lemma Unary_passes_on_leader ctx req m handler n :
  State n = Raft.Leader ->
  Unary ctx req m handler n = (let '(r, n') := handler req n in (r, ctx, n')).
Proof.
  intros H. unfold Unary. rewrite H.
  rewrite bool_decide_eq_true_2 by reflexivity. now destruct (isWriteOperation m).
Qed.

Lemma Unary_no_leader ctx req m handler n :
  isWriteOperation m = true -> State n <> Raft.Leader -> Leader n = "" ->
  Unary ctx req m handler n
  = ((None, Some (status_Errorf Unavailable "no leader available, please retry")),
     ctx, n).
Proof.
  intros Hw Hs Hl. unfold Unary. now rewrite Hw, not_leader, Hl.
Qed.

Lemma Unary_redirects ctx req m handler n (host r : string) :
  isWriteOperation m = true -> State n <> Raft.Leader ->
  Leader n = host +:+ ":" +:+ r +:+ "1" -> colon_free r ->
  has_stream ctx = true ->
  Unary ctx req m handler n
  = ((None, Some (status_Errorf FailedPrecondition
                    ("not leader, redirect to: " +:+ host +:+ ":" +:+ r +:+ "2"))),
     mkServerStream true
       (union_with (fun a b => Some (app a b)) (header ctx)
          (Pairs [("x-leader-addr", host +:+ ":" +:+ r +:+ "2");
                  ("x-redirect", "true")])),
     n).
Proof.
  intros Hw Hs Hl Hr Hctx. unfold Unary. rewrite Hw, not_leader, Hl by assumption.
  destruct (String.eqb_spec (host +:+ ":" +:+ r +:+ "1") "") as [E|_].
  { now apply append_not_empty in E. }
  rewrite convert_ok by assumption. unfold SetHeader. now rewrite Hctx.
Qed.

Lemma Unary_internal ctx req m handler n :
  isWriteOperation m = true -> State n <> Raft.Leader ->
  Leader n <> "" -> off_convention (Leader n) ->
  exists msg,
    Unary ctx req m handler n
    = ((None, Some (status_Errorf Internal
                      ("failed to convert leader address: " +:+ msg))), ctx, n).
Proof.
  intros Hw Hs Hne Hoff. unfold Unary. rewrite Hw, not_leader by assumption.
  destruct (String.eqb_spec (Leader n) "") as [E|_]; [contradiction|].
  destruct (off_convention_rejected _ Hoff) as (msg & ->).
  now exists msg.
Qed.

End Filter.

(** ** The filter on a write that reaches a node that is not the leader *)

(** C10: a leader address off the port convention (no colon, or a port
    that does not end in '1') is rejected by the address derivation, and
    the filter answers the write with Internal: the stream is left as it
    was, so no x-leader-addr or x-redirect entry is set, and the handler
    is not run (the node is returned as it was, whatever the handler). *)
Theorem unconventional_leader_address_is_internal (addr : string) :
  off_convention addr ->
  (exists msg, convertRaftToClusterAddr addr = Err (errors_New msg)) /\
  forall (N : Type) (node : ClusterNode N) (Req Resp : Type) (n : N)
         (ctx : ServerStream) (req : Req) (m : string)
         (handler : Req -> N -> reply Resp * N),
    isWriteOperation m = true -> State n <> Raft.Leader ->
    Leader n = addr -> addr <> "" ->
    exists msg,
      Unary ctx req m handler n
      = ((None, Some (status_Errorf Internal
                        ("failed to convert leader address: " +:+ msg))),
         ctx, n).
Proof.
  intros Hoff. split; [now apply off_convention_rejected|].
  intros N node Req Resp n ctx req m handler Hw Hs <- Hne.
  now apply Unary_internal.
Qed.

Lemma unconventional_leader_address_is_internal_witness :
  off_convention "127.0.0.1:5000" /\
  exists msg,
    Unary Fixtures.fresh_stream (mkInsertRequest "users" 1 [] "")
      "/vectorxlite.cluster.ClusterService/Insert"
      (Insert Node.clusterServer)
      (Fixtures.node Follower "127.0.0.1:5000")
    = ((None, Some (status_Errorf Internal
                      ("failed to convert leader address: " +:+ msg))),
       Fixtures.fresh_stream, Fixtures.node Follower "127.0.0.1:5000").
Proof.
  assert (off_convention "127.0.0.1:5000") as Hoff.
  { right. exists "127.0.0.1", "5000". cbn. repeat split; discriminate. }
  split; [exact Hoff|].
  apply (proj2 (unconventional_leader_address_is_internal _ Hoff));
    [reflexivity | discriminate | reflexivity | discriminate].
Defined.

(** C6, as the code has it: a write that reaches a node that is not the
    leader is answered Unavailable, with the stream untouched, when the
    node knows no leader, in whatever state it is (Follower, Candidate or
    Shutdown); and when the leader address is [host:r1] it is answered
    FailedPrecondition with x-leader-addr [host:r2] and x-redirect true
    added to the header, the host unchanged and the port number 10*P+1
    turned into 10*P+2.  In both cases the node is returned as it was,
    whatever the handler: the handler is not run.  (A leader address of
    another shape is the subject of C10.) *)
Theorem nonleader_write_redirected_or_unavailable
    (N : Type) (node : ClusterNode N) (Req Resp : Type) (n : N)
    (req : Req) (m : string) (handler : Req -> N -> reply Resp * N) :
  isWriteOperation m = true -> State n <> Raft.Leader ->
  (Leader n = "" ->
   forall ctx,
     Unary ctx req m handler n
     = ((None, Some (status_Errorf Unavailable
                       "no leader available, please retry")), ctx, n))
  /\
  (forall host r,
     Leader n = host +:+ ":" +:+ r +:+ "1" -> colon_free r ->
     let leaderClusterAddr := host +:+ ":" +:+ r +:+ "2" in
     (forall ctx, has_stream ctx = true ->
        exists ctx',
          Unary ctx req m handler n
          = ((None, Some (status_Errorf FailedPrecondition
                            ("not leader, redirect to: " +:+ leaderClusterAddr))),
             ctx', n)
          /\ Get (header ctx') "x-leader-addr"
             = app (Get (header ctx) "x-leader-addr") [leaderClusterAddr]
          /\ Get (header ctx') "x-redirect"
             = app (Get (header ctx) "x-redirect") ["true"])
     /\
     (forall P, digits_value 0 r = Some P ->
        port_number (r +:+ "1") = Some (10 * P + 1) /\
        port_number (r +:+ "2") = Some (10 * P + 2))).
Proof.
  intros Hw Hs. split.
  - intros Hl ctx. now apply Unary_no_leader.
  - intros host r Hl Hr addr. split.
    + intros ctx Hctx. eexists. split; [now apply Unary_redirects|].
      cbn [header]. unfold Get. rewrite !lookup_union_with.
      destruct (redirect_metadata addr) as [Ha Hx]. unfold Get in Ha, Hx.
      destruct (Pairs _ !! "x-leader-addr") as [a|] eqn:Ea; [|discriminate].
      destruct (Pairs _ !! "x-redirect") as [x|] eqn:Ex; [|discriminate].
      cbn in Ha, Hx. subst a x.
      split; [destruct (header ctx !! "x-leader-addr")
             | destruct (header ctx !! "x-redirect")]; reflexivity.
    + intros P. apply port_number_convention.
Qed.

Lemma nonleader_write_redirected_or_unavailable_witness :
  let req := mkInsertRequest "users" 1 [] "" in
  let m := "/vectorxlite.cluster.ClusterService/Insert" in
  Unary Fixtures.fresh_stream req m (Insert Node.clusterServer)
    (Fixtures.node Candidate "")
  = ((None, Some (status_Errorf Unavailable "no leader available, please retry")),
     Fixtures.fresh_stream, Fixtures.node Candidate "")
  /\
  (exists ctx',
     Unary Fixtures.fresh_stream req m (Insert Node.clusterServer)
       (Fixtures.node Follower "127.0.0.1:5001")
     = ((None, Some (status_Errorf FailedPrecondition
                       "not leader, redirect to: 127.0.0.1:5002")),
        ctx', Fixtures.node Follower "127.0.0.1:5001")
     /\ Get (header ctx') "x-leader-addr" = ["127.0.0.1:5002"]
     /\ Get (header ctx') "x-redirect" = ["true"])
  /\ port_number "5001" = Some 5001 /\ port_number "5002" = Some 5002.
Proof.
  intros req m. split.
  - refine (proj1 (nonleader_write_redirected_or_unavailable _ _ _ _
                     (Fixtures.node Candidate "") req m _ _ _) _ _).
    + reflexivity.
    + cbn. discriminate.
    + reflexivity.
  - assert (colon_free "500") as Hfree by (cbn; repeat split; discriminate).
    assert (State (Fixtures.node Follower "127.0.0.1:5001") <> Raft.Leader)
      as Hs by (cbn; discriminate).
    destruct (proj2 (nonleader_write_redirected_or_unavailable _ _ _ _
                       (Fixtures.node Follower "127.0.0.1:5001") req m
                       (Insert Node.clusterServer) eq_refl Hs)
                "127.0.0.1" "500" eq_refl Hfree) as [Hredirect Hport].
    split.
    + exact (Hredirect Fixtures.fresh_stream eq_refl).
    + exact (Hport 500 eq_refl).
Defined.

(** C6 as stated fails: with a leader known at 127.0.0.1:5000 a Follower
    answers an Insert with Internal and sets no header, where the
    specification has FailedPrecondition with redirect metadata. *)
Lemma known_leader_without_redirect :
  let n := Fixtures.node Follower "127.0.0.1:5000" in
  isWriteOperation "/vectorxlite.cluster.ClusterService/Insert" = true /\
  State n <> Raft.Leader /\ Leader n <> "" /\
  Unary Fixtures.fresh_stream (mkInsertRequest "users" 1 [] "")
    "/vectorxlite.cluster.ClusterService/Insert" (Insert Node.clusterServer) n
  = ((None, Some (status_Errorf Internal
        "failed to convert leader address: raft address must end with '1': 127.0.0.1:5000")),
     Fixtures.fresh_stream, n).
Proof. cbn zeta. repeat split; try discriminate; vm_compute; reflexivity. Qed.

(** The filter does not look at the Candidate state: a Candidate that
    still reports a leader redirects as a Follower does. *)
Example candidate_with_leader_redirects :
  let n := Fixtures.node Candidate "127.0.0.1:5001" in
  fst (fst (Unary Fixtures.fresh_stream (mkInsertRequest "users" 1 [] "")
              "/vectorxlite.cluster.ClusterService/Insert"
              (Insert Node.clusterServer) n))
  = (None, Some (status_Errorf FailedPrecondition
                   "not leader, redirect to: 127.0.0.1:5002")).
Proof. vm_compute. reflexivity. Qed.

(** ** Classification of the calls *)

(** C5: CreateCollection, Insert and Delete are classified as writes, but
    DropCollection is not (nor is DeleteCollection, as the command line
    client names the call): on any node, whatever its state, the filter
    hands a DropCollection call to the local handler. *)
Theorem drop_collection_is_not_intercepted :
  isWriteOperation "/vectorxlite.cluster.ClusterService/CreateCollection" = true /\
  isWriteOperation "/vectorxlite.cluster.ClusterService/Insert" = true /\
  isWriteOperation "/vectorxlite.cluster.ClusterService/Delete" = true /\
  isWriteOperation "/vectorxlite.cluster.ClusterService/DropCollection" = false /\
  isWriteOperation "/vectorxlite.cluster.ClusterService/DeleteCollection" = false /\
  forall (N : Type) (node : ClusterNode N) (Req Resp : Type) (n : N)
         (ctx : ServerStream) (req : Req)
         (handler : Req -> N -> reply Resp * N),
    Unary ctx req "/vectorxlite.cluster.ClusterService/DropCollection" handler n
    = (let '(r, n') := handler req n in (r, ctx, n')).
Proof.
  repeat (split; [reflexivity|]).
  intros. now apply Unary_passes_non_write.
Qed.

(** On a Follower that knows the leader a DropCollection call runs the
    local handler, where an Insert is turned away with a redirect. *)
Example drop_collection_on_follower :
  let n := Fixtures.node Follower "127.0.0.1:5001" in
  let handler (req : string) (n : Node.VxRaftNode Fixtures.Peer Fixtures.Recorder) :=
    ((Some (mkWriteResponse true "handled locally"), None), n) in
  fst (fst (Unary Fixtures.fresh_stream "users"
              "/vectorxlite.cluster.ClusterService/DropCollection" handler n))
  = (Some (mkWriteResponse true "handled locally"), None)
  /\ fst (fst (Unary Fixtures.fresh_stream "users"
                 "/vectorxlite.cluster.ClusterService/Insert" handler n))
     = (None, Some (status_Errorf FailedPrecondition
                      "not leader, redirect to: 127.0.0.1:5002")).
Proof. split; vm_compute; reflexivity. Qed.

(** ** GetClusterInfo *)

Section ClusterInfo.
Context {N : Type} `{!ClusterNode N}.

(** C4: whenever the configuration can be read, the leader address that
    GetClusterInfo returns is the address the Raft peer reports, that is
    the consensus endpoint as it is, not the coordination endpoint that
    [convertRaftToClusterAddr] derives from it. *)
Theorem cluster_info_reports_consensus_address
    (s : ClusterServer N) (n : N) (config : Configuration) :
  GetConfiguration n = Ok config ->
  exists resp,
    GetClusterInfo s n = (Some resp, None) /\ LeaderAddr resp = Leader n.
Proof.
  intros H. unfold GetClusterInfo. rewrite H. eexists. split; reflexivity.
Qed.

End ClusterInfo.

Lemma cluster_info_reports_consensus_address_witness :
  let n := Fixtures.node Follower "127.0.0.1:5001" in
  (exists resp,
     GetClusterInfo Node.clusterServer n = (Some resp, None)
     /\ LeaderAddr resp = "127.0.0.1:5001")
  /\ convertRaftToClusterAddr "127.0.0.1:5001" = Ok "127.0.0.1:5002".
Proof.
  intros n. split; [|reflexivity].
  exact (cluster_info_reports_consensus_address Node.clusterServer n
           (mkConfiguration Fixtures.three_servers) eq_refl).
Defined.

(** ** The Delete handler *)

Section DeleteOnLeader.
Context {R : Type} `{!Node.RaftLib R}.
Context {B : Type} `{!VectorXLitePBClient B}.
Context `{!JSON Consensus.Command} `{!JSON CollectionConfig} `{!JSON InsertPoint}.

(** C1: on the leader a Delete call passes the filter and the handler of
    the node answers success with the node exactly as it was: nothing is
    submitted to Raft (nor sent to the backend), whatever the Raft peer and
    the backend are. *)
Theorem delete_on_leader_skips_raft
    (n : Node.VxRaftNode R B) (ctx : ServerStream) (req : DeleteRequest) :
  State n = Raft.Leader ->
  Unary ctx req "/vectorxlite.cluster.ClusterService/Delete"
    (Delete Node.clusterServer) n
  = ((Some (mkWriteResponse true "deleted successfully"), None), ctx, n).
Proof. intros Hleader. now rewrite Unary_passes_on_leader. Qed.

End DeleteOnLeader.

Lemma delete_on_leader_skips_raft_witness :
  let n := Fixtures.node Raft.Leader "127.0.0.1:5011" in
  Unary Fixtures.fresh_stream (mkDeleteRequest "users" 1)
    "/vectorxlite.cluster.ClusterService/Delete" (Delete Node.clusterServer) n
  = ((Some (mkWriteResponse true "deleted successfully"), None),
     Fixtures.fresh_stream, n)
  /\ Fixtures.proposed (Node.raft n) = [].
Proof.
  intros n. split; [|reflexivity].
  exact (delete_on_leader_skips_raft n Fixtures.fresh_stream
           (mkDeleteRequest "users" 1) eq_refl).
Defined.

(** The sibling path: an Insert on the leader is serialized into a command
    and submitted to Raft with a deadline of five seconds. *)
Example insert_on_leader_goes_through_raft :
  let n := Fixtures.node Raft.Leader "127.0.0.1:5011" in
  let '(r, _, n') :=
    Unary Fixtures.fresh_stream
      (mkInsertRequest "users" 1 [1065353216; 1073741824]
         "insert into users(name) values ('Alice')")
      "/vectorxlite.cluster.ClusterService/Insert" (Insert Node.clusterServer) n in
  r = (Some (mkWriteResponse true "inserted successfully"), None)
  /\ Fixtures.proposed (Node.raft n')
     = [ (Fixtures.text (Fixtures.command_json Consensus.CmdInsert
                           Fixtures.users_1_json), 5000000000) ].
Proof. vm_compute. split; reflexivity. Qed.

End ServerFacts.

(* ===================================================================== *)
(** * Properties: the FSM *)
(* ===================================================================== *)

Module FsmFacts.

Import Consensus.
Import (hints) Fixtures.

Section Apply.
Context {B : Type} `{!VectorXLitePBClient B}.
Context `{!JSON Command} `{!JSON CollectionConfig} `{!JSON InsertPoint}.
Context `{!JSON SnapshotChunk}.
Implicit Types (f : VxFSM B) (data payload : bytes).

(** Apply on a decoded command, by its type. *)
Lemma Apply_dispatch data f (cmd : Command) :
  json_Unmarshal data = Ok cmd ->
  Apply data f
  = if Type_ cmd =? CmdCreateCollection then applyCreateCollection (Payload cmd) f
    else if Type_ cmd =? CmdInsert then applyInsert (Payload cmd) f
    else (Return (mkApplyResult None None), f).
Proof. intros E. unfold Apply. now rewrite E. Qed.

(** C2: a committed entry that decodes to a Delete or to a DropCollection
    command falls to the default branch of Apply: the FSM is returned as it
    was, so the backend receives no call, whatever the backend is, and the
    result carries no error. *)
Theorem apply_skips_delete_and_drop data payload f (t : CommandType) :
  json_Unmarshal data = Ok (mkCommand t payload) ->
  t = CmdDelete \/ t = CmdDropCollection ->
  Apply data f = (Return (mkApplyResult None None), f).
Proof.
  intros E Ht. rewrite (Apply_dispatch _ _ _ E).
  destruct Ht as [-> | ->]; reflexivity.
Qed.

(** C3: when the backend answers the Insert (or the CreateCollection) of a
    committed command with an error, whatever the error, Apply has made
    the call and returns a result whose error is nil. *)
Theorem apply_drops_backend_errors data payload f (e : error) :
  (forall p : InsertPoint,
     json_Unmarshal data = Ok (mkCommand CmdInsert payload) ->
     json_Unmarshal payload = Ok p ->
     fst (BackendClient.Insert (Some p) (VectorClient f)) = Some e ->
     Apply data f
     = (Return (mkApplyResult None None),
        mkVxFSM (snd (BackendClient.Insert (Some p) (VectorClient f)))))
  /\
  (forall cfg : CollectionConfig,
     json_Unmarshal data = Ok (mkCommand CmdCreateCollection payload) ->
     json_Unmarshal payload = Ok cfg ->
     fst (BackendClient.CreateCollection (Some cfg) (VectorClient f)) = Some e ->
     Apply data f
     = (Return (mkApplyResult None None),
        mkVxFSM (snd (BackendClient.CreateCollection (Some cfg) (VectorClient f))))).
Proof.
  split.
  - intros p E Ep _. rewrite (Apply_dispatch _ _ _ E). cbn [Type_ Payload].
    change (CmdInsert =? CmdCreateCollection) with false.
    change (CmdInsert =? CmdInsert) with true. cbn iota.
    unfold applyInsert. rewrite Ep.
    now destruct (BackendClient.Insert _ _).
  - intros cfg E Ecfg _. rewrite (Apply_dispatch _ _ _ E). cbn [Type_ Payload].
    change (CmdCreateCollection =? CmdCreateCollection) with true. cbn iota.
    unfold applyCreateCollection. rewrite Ecfg.
    now destruct (BackendClient.CreateCollection _ _).
Qed.

End Apply.

Lemma apply_skips_delete_and_drop_witness :
  let f := mkVxFSM (BackendClient.mkClient Fixtures.healthy) in
  Apply (Fixtures.text (Fixtures.command_json CmdDelete Fixtures.delete_payload_json)) f
  = (Return (mkApplyResult None None), f)
  /\ Apply (Fixtures.text (Fixtures.command_json CmdDropCollection
                            Fixtures.drop_payload_json)) f
     = (Return (mkApplyResult None None), f)
  /\ Fixtures.received (BackendClient.pbClient (VectorClient f)) = [].
Proof.
  intros f. split; [|split]; [| |reflexivity].
  - apply (apply_skips_delete_and_drop _
             (Fixtures.text Fixtures.delete_payload_json) f CmdDelete);
      [reflexivity | left; reflexivity].
  - apply (apply_skips_delete_and_drop _
             (Fixtures.text Fixtures.drop_payload_json) f CmdDropCollection);
      [reflexivity | right; reflexivity].
Defined.

Lemma apply_drops_backend_errors_witness :
  let f := mkVxFSM (BackendClient.mkClient Fixtures.disk_full) in
  let e := status_Errorf Internal "database or disk is full" in
  (exists f',
     Apply (Fixtures.text (Fixtures.command_json CmdInsert Fixtures.users_1_json)) f
     = (Return (mkApplyResult None None), f')
     /\ fst (BackendClient.Insert (Some Fixtures.users_1) (VectorClient f)) = Some e)
  /\
  (exists f',
     Apply (Fixtures.text (Fixtures.command_json CmdCreateCollection
                             Fixtures.users_cfg_json)) f
     = (Return (mkApplyResult None None), f')
     /\ fst (BackendClient.CreateCollection (Some Fixtures.users_cfg) (VectorClient f))
        = Some e).
Proof.
  intros f e. split; eexists; (split; [|reflexivity]).
  - apply (proj1 (apply_drops_backend_errors _
                    (Fixtures.text Fixtures.users_1_json) f e)
             Fixtures.users_1); reflexivity.
  - apply (proj2 (apply_drops_backend_errors _
                    (Fixtures.text Fixtures.users_cfg_json) f e)
             Fixtures.users_cfg); reflexivity.
Defined.

(** What the same entries do on a healthy backend: the Insert reaches it,
    the Delete does not. *)
Example insert_reaches_backend :
  let f := mkVxFSM (BackendClient.mkClient Fixtures.healthy) in
  Fixtures.received
    (BackendClient.pbClient
       (VectorClient
          (snd (Apply (Fixtures.text (Fixtures.command_json CmdInsert
                                        Fixtures.users_1_json)) f))))
  = [ Fixtures.CallInsert
        (mkInsertPointPB "users" 1 [1065353216; 1073741824]
           "insert into users(name) values ('Alice')") ].
Proof. vm_compute. reflexivity. Qed.

End FsmFacts.

(* ===================================================================== *)
(** * Properties: the snapshot codec *)
(* ===================================================================== *)

Module CodecFacts.

Import Consensus Vocabulary.
Import (hints) Fixtures.

(** ** The length prefix *)

Lemma Z_of_byte_range (b : byte) : 0 <= Z_of_byte b < 256.
Proof. unfold Z_of_byte. pose proof (Byte.to_N_bounded b). lia. Qed.

Lemma Z_of_byte_of_Z (z : Z) : Z_of_byte (byte_of_Z z) = z mod 256.
Proof.
  unfold Z_of_byte, byte_of_Z. pose proof (Z.mod_pos_bound z 256 eq_refl).
  destruct (Byte.of_N (Z.to_N (z mod 256))) as [b|] eqn:E.
  - apply Byte.to_of_N in E. change (default x00 (Some b)) with b.
    rewrite E. lia.
  - apply Byte.of_N_None_iff in E. lia.
Qed.

(** Decoding the four bytes that PutUint32 writes gives the number back. *)
Lemma Uint32_PutUint32 (v : Z) :
  0 <= v < 2 ^ 32 ->
  Uint32 (byte_of_Z (Z.shiftr v 24)) (byte_of_Z (Z.shiftr v 16))
         (byte_of_Z (Z.shiftr v 8)) (byte_of_Z v) = v.
Proof.
  intros Hv. unfold Uint32. rewrite !Z_of_byte_of_Z.
  change 256 with (2 ^ 8).
  apply Z.bits_inj'. intros n Hn.
  rewrite !Z.lor_spec, !Z.shiftl_spec, !Z.testbit_mod_pow2 by lia.
  assert (32 <= n -> Z.testbit v n = false) as Hhigh.
  { intros H32. rewrite <- (Z.mod_small v (2 ^ 32)) by lia.
    rewrite Z.testbit_mod_pow2 by lia.
    destruct (Z.ltb_spec n 32); [lia | reflexivity]. }
  destruct (Z.ltb_spec n 8), (Z.ltb_spec (n - 8) 8),
           (Z.ltb_spec (n - 16) 8), (Z.ltb_spec (n - 24) 8);
    try lia; cbn [andb orb];
    try (rewrite (Z.testbit_neg_r _ (n - 8)) by lia);
    try (rewrite (Z.testbit_neg_r _ (n - 16)) by lia);
    try (rewrite (Z.testbit_neg_r _ (n - 24)) by lia);
    try (rewrite !Z.shiftr_spec by lia);
    rewrite ?Z.sub_add, ?orb_false_r; cbn [orb];
    try reflexivity.
  symmetry. apply Hhigh. lia.
Qed.

(** ** Reading from a stream whose head is known *)

Lemma ReadFull_exact (d rest : bytes) (c : bool) :
  ReadFull (List.length d) (mkReadCloser (app d rest) c)
  = (Ok d, mkReadCloser rest c).
Proof.
  unfold ReadFull. destruct d as [|b d]; [reflexivity|].
  cbn [pending closed]. rewrite take_app_length, drop_app_length.
  match goal with
  | |- context [(?a <? ?b)%nat] => destruct (Nat.ltb_spec a b) as [Hlt|_]
  end; [|reflexivity].
  rewrite length_app in Hlt. lia.
Qed.

Lemma Read_uint32_prefix (v : Z) (tail : bytes) (c : bool) :
  0 <= v < 2 ^ 32 ->
  Read_uint32 (mkReadCloser (app (PutUint32 v) tail) c)
  = (Ok v, mkReadCloser tail c).
Proof.
  intros Hv. unfold Read_uint32.
  change 4%nat with (List.length (PutUint32 v)).
  rewrite ReadFull_exact. unfold PutUint32. now rewrite Uint32_PutUint32.
Qed.

Section Codec.
Context `{!JSON SnapshotChunk}.
Implicit Types (chunk : SnapshotChunk) (chunks : list SnapshotChunk).
Implicit Types (data rest : bytes) (rc : ReadCloser).

(** One turn of the loop of readSnapshotChunks. *)
Lemma readLoop_step rc chunks :
  readLoop rc chunks
  = match readChunk rc with
    | (Err err, rc') =>
        if is_EOF err then (Ok chunks, rc')
        else (Err (Wrap "failed to read chunk: " err), rc')
    | (Ok chunk, rc') =>
        if IsFinal chunk then (Ok (app chunks [chunk]), rc')
        else readLoop rc' (app chunks [chunk])
    end.
Proof.
  funelim (readLoop rc chunks);
    match goal with H : readChunk _ = _ |- _ => rewrite H end; reflexivity.
Qed.

(** Reading a whole frame hands its payload to the decoder and leaves the
    rest of the stream. *)
Lemma readChunk_frame data rest (c : bool) :
  fits data ->
  readChunk (mkReadCloser (app (frame data) rest) c)
  = (match json_Unmarshal data with
     | Ok chunk => Ok chunk
     | Err err => Err (Wrap "failed to unmarshal chunk: " err)
     end, mkReadCloser rest c).
Proof.
  intros Hfit. unfold readChunk, frame. rewrite <- app_assoc.
  rewrite Read_uint32_prefix by (unfold fits in Hfit; lia).
  rewrite Nat2Z.id, ReadFull_exact.
  now destruct (json_Unmarshal data).
Qed.

(** At the end of the stream the loop returns what it has read. *)
Lemma readLoop_eof chunks (c : bool) :
  readLoop (mkReadCloser [] c) chunks = (Ok chunks, mkReadCloser [] c).
Proof. now rewrite readLoop_step. Qed.

Lemma coded_decodes chunks (datas : list bytes) :
  Forall2 coded chunks datas -> Forall2 decodes datas chunks.
Proof. induction 1 as [|? ? ? ? [_ ?]]; constructor; assumption. Qed.

(** The loop reads through frames of chunks that are not final. *)
Lemma readLoop_frames (datas : list bytes) chunks rest (c : bool) :
  Forall2 decodes datas chunks -> Forall non_final chunks ->
  forall acc,
    readLoop (mkReadCloser (app (stream datas) rest) c) acc
    = readLoop (mkReadCloser rest c) (app acc chunks).
Proof.
  induction 1 as [|data chunk datas chunks [Hfit Hdec] _ IH]; intros Hnf acc.
  - now rewrite app_nil_r.
  - apply Forall_cons in Hnf as [Hchunk Hnf].
    unfold stream. cbn [map concat]. rewrite <- app_assoc.
    rewrite readLoop_step, readChunk_frame, Hdec, Hchunk by assumption.
    fold (stream datas). rewrite IH by assumption.
    now rewrite <- app_assoc.
Qed.

(** ... and stops after the frame of a final chunk. *)
Lemma readLoop_final (datas : list bytes) chunks data chunk rest (c : bool) acc :
  Forall2 decodes datas chunks -> Forall non_final chunks ->
  decodes data chunk -> IsFinal chunk = true ->
  readLoop (mkReadCloser (app (stream datas) (app (frame data) rest)) c) acc
  = (Ok (app acc (app chunks [chunk])), mkReadCloser rest c).
Proof.
  intros Hdecs Hnf [Hfit Hdec] Hfinal.
  rewrite (readLoop_frames datas chunks) by assumption.
  rewrite readLoop_step, readChunk_frame, Hdec, Hfinal by assumption.
  now rewrite <- app_assoc.
Qed.

(** Writing to the in-memory sink appends one frame per chunk. *)
Lemma writeChunk_buffer (w : Buffer) chunk data :
  json_Marshal chunk = Ok data -> fits data ->
  writeChunk w chunk
  = (None, mkBuffer (app (written w) (frame data)) (sink_closed w)
             (sink_cancelled w)).
Proof.
  intros Hm Hfit. unfold writeChunk, Write_uint32, uint32, frame. rewrite Hm.
  rewrite Z.mod_small by (unfold fits in Hfit; lia).
  cbn. now rewrite <- app_assoc.
Qed.

Lemma writeChunksFrom_buffer chunks (datas : list bytes) :
  Forall2 coded chunks datas ->
  forall (i : Z) (w : Buffer),
    writeChunksFrom i chunks w
    = (None, mkBuffer (app (written w) (stream datas)) (sink_closed w)
               (sink_cancelled w)).
Proof.
  induction 1 as [|chunk data chunks datas [Hm [Hfit _]] _ IH]; intros i w.
  - cbn. rewrite app_nil_r. now destruct w.
  - cbn [writeChunksFrom]. rewrite (writeChunk_buffer _ _ _ Hm Hfit), IH.
    cbn [written sink_closed sink_cancelled]. unfold stream.
    cbn [map concat]. now rewrite <- app_assoc.
Qed.

(** C7: for a sequence of chunks of which the last one, and only the last
    one, is final, the snapshot writer produces the frames of the
    serialized chunks (each a 4-byte big-endian length and that many bytes
    of payload), and reading that stream back gives the sequence itself,
    with the stream consumed and the reader closed.  The codec is taken
    for what it is on the chunks at hand: each is serialized to a payload
    shorter than 2^32 bytes that decodes to the chunk. *)
Theorem snapshot_frames_round_trip (collector : SnapshotCollector)
    (init : list SnapshotChunk) (final : SnapshotChunk) (datas : list bytes) :
  Chunks collector = app init [final] ->
  Forall non_final init -> IsFinal final = true ->
  Forall2 coded (Chunks collector) datas ->
  exists sink : Buffer,
    writeSnapshotToSink NewBuffer collector = (None, sink)
    /\ written sink = stream datas
    /\ readSnapshotChunks (NewReader (written sink))
       = (Ok (Chunks collector), mkReadCloser [] true).
Proof.
  intros Hchunks Hinit Hfinal Hcoded.
  eexists. split; [|split].
  - unfold writeSnapshotToSink. apply (writeChunksFrom_buffer _ _ Hcoded).
  - reflexivity.
  - cbn [written NewBuffer app]. rewrite Hchunks in Hcoded |- *.
    apply Forall2_app_inv_l in Hcoded
      as (datas1 & datas2 & Hcoded1 & Hcoded2 & ->).
    inversion Hcoded2 as [|? data ? ? [_ Hdec] Hnil]; subst.
    inversion Hnil; subst.
    unfold readSnapshotChunks, NewReader, stream.
    rewrite map_app, concat_app. cbn [map concat]. fold (stream datas1).
    rewrite (readLoop_final datas1 init data final [] false [])
      by auto using coded_decodes.
    reflexivity.
Qed.

(** ** Malformed streams *)

(** On a malformed stream readChunk fails with an error that is not the
    end of stream marker, even when the payload is missing altogether: the
    EOF of the payload read is wrapped. *)
Lemma readChunk_malformed rest (c : bool) :
  malformed rest ->
  exists err rc', readChunk (mkReadCloser rest c) = (Err err, rc')
                  /\ is_EOF err = false.
Proof.
  intros [rest' Hne Hlen | b0 b1 b2 b3 tail Hlen | b0 b1 b2 b3 data tail err Hlen Hdec].
  - unfold readChunk, Read_uint32, ReadFull. cbn [pending closed].
    destruct rest' as [|b rest']; [congruence|].
    destruct (Nat.ltb_spec (List.length (b :: rest')) 4); [|lia].
    now eexists _, _.
  - unfold readChunk, Read_uint32.
    change (b0 :: b1 :: b2 :: b3 :: tail) with (app [b0; b1; b2; b3] tail).
    change 4%nat with (List.length [b0; b1; b2; b3]). rewrite ReadFull_exact.
    unfold ReadFull. cbn [pending closed].
    destruct (Z.to_nat (Uint32 b0 b1 b2 b3)) as [|k] eqn:Hk; [lia|].
    destruct tail as [|b tail]; [now eexists _, _|].
    destruct (Nat.ltb_spec (List.length (b :: tail)) (S k)); [|lia].
    now eexists _, _.
  - unfold readChunk, Read_uint32.
    change (b0 :: b1 :: b2 :: b3 :: app data tail)
      with (app [b0; b1; b2; b3] (app data tail)).
    change 4%nat with (List.length [b0; b1; b2; b3]). rewrite ReadFull_exact.
    rewrite <- Hlen, Nat2Z.id, ReadFull_exact, Hdec.
    now eexists _, _.
Qed.

(** The loop fails on a stream that turns malformed before a final chunk
    has been read. *)
Lemma readSnapshotChunks_malformed (datas : list bytes) chunks rest :
  Forall2 decodes datas chunks -> Forall non_final chunks ->
  malformed rest ->
  exists err rc',
    readSnapshotChunks (NewReader (app (stream datas) rest)) = (Err err, rc').
Proof.
  intros Hdecs Hnf Hbad. unfold readSnapshotChunks, NewReader.
  rewrite (readLoop_frames datas chunks) by assumption. rewrite readLoop_step.
  destruct (readChunk_malformed rest false Hbad) as (err & rc' & -> & ->).
  now eexists _, _.
Qed.

(** A frame that has lost its last byte is malformed. *)
Lemma removelast_frame_malformed data :
  fits data -> malformed (removelast (frame data)).
Proof.
  intros Hfit. unfold frame, PutUint32.
  destruct data as [|d data].
  - apply short_prefix; [discriminate | cbn; lia].
  - change (app [?b0; ?b1; ?b2; ?b3] (d :: data))
      with (app [b0; b1; b2; b3] (d :: data)).
    rewrite removelast_app by discriminate.
    apply short_payload.
    rewrite Uint32_PutUint32 by (unfold fits in Hfit; lia).
    pose proof (app_removelast_last d (l := d :: data) ltac:(discriminate)) as E.
    apply (f_equal (@List.length _)) in E. rewrite length_app in E.
    cbn [List.length] in E |- *. lia.
Qed.

End Codec.

Section RestoreFacts.
Context {B : Type} `{!VectorXLitePBClient B} `{!JSON SnapshotChunk}.

(** C8, as the code has it: Restore on a stream that turns malformed (a
    frame cut short inside its length prefix or its payload, or a payload
    that does not decode) after any number of well-formed frames of chunks
    that are not final, that is at a frame the reader gets to, returns an
    error and hands the FSM back as it was: nothing has been sent to the
    backend, whatever the backend is, so ImportSnapshot was not called. *)
Theorem restore_rejects_malformed_stream (f : VxFSM B)
    (datas : list bytes) (chunks : list SnapshotChunk) (rest : bytes) :
  Forall2 decodes datas chunks -> Forall non_final chunks ->
  malformed rest ->
  exists err rc',
    Restore (NewReader (app (stream datas) rest)) f = (Some err, (rc', f)).
Proof.
  intros Hdecs Hnf Hbad. unfold Restore.
  destruct (readSnapshotChunks_malformed datas chunks rest Hdecs Hnf Hbad)
    as (err & rc' & ->).
  now exists err, rc'.
Qed.

(** In particular (scenario S5): the stream the writer produces for a
    sequence of chunks whose last one only is final, with its last byte
    removed, is rejected by Restore, and the backend is not reached. *)
Corollary restore_rejects_truncated_snapshot (f : VxFSM B)
    (init : list SnapshotChunk) (final : SnapshotChunk) (datas : list bytes) :
  Forall non_final init ->
  Forall2 coded (app init [final]) datas ->
  exists err rc',
    Restore (NewReader (removelast (stream datas))) f = (Some err, (rc', f)).
Proof.
  intros Hinit Hcoded.
  apply Forall2_app_inv_l in Hcoded as (datas1 & datas2 & Hcoded1 & Hcoded2 & ->).
  inversion Hcoded2 as [|? data ? ? [_ [Hfit _]] Hnil]; subst.
  inversion Hnil; subst.
  unfold stream. rewrite map_app, concat_app. cbn [map concat].
  rewrite app_nil_r, removelast_app by (unfold frame, PutUint32; discriminate).
  fold (stream datas1). unfold Restore.
  destruct (readSnapshotChunks_malformed datas1 init (removelast (frame data)))
    as (err & rc' & ->);
    auto using coded_decodes, removelast_frame_malformed.
  now exists err, rc'.
Qed.

End RestoreFacts.

Lemma snapshot_frames_round_trip_witness :
  let collector :=
    mkSnapshotCollector (Metadata Fixtures.chunk0)
      [Fixtures.chunk0; Fixtures.chunk1] in
  let datas :=
    [Fixtures.text Fixtures.chunk0_json; Fixtures.text Fixtures.chunk1_json] in
  exists sink : Buffer,
    writeSnapshotToSink NewBuffer collector = (None, sink)
    /\ written sink = stream datas
    /\ readSnapshotChunks (NewReader (written sink))
       = (Ok [Fixtures.chunk0; Fixtures.chunk1], mkReadCloser [] true).
Proof.
  intros collector datas.
  apply (snapshot_frames_round_trip collector [Fixtures.chunk0] Fixtures.chunk1 datas).
  - reflexivity.
  - repeat constructor.
  - reflexivity.
  - repeat constructor; vm_compute; reflexivity.
Defined.

(** The stream of the two chunks with its last byte removed: the frame of
    the final chunk is cut short inside its payload. *)
Lemma restore_rejects_malformed_stream_witness :
  let f := mkVxFSM (BackendClient.mkClient Fixtures.healthy) in
  let cut := removelast (frame (Fixtures.text Fixtures.chunk1_json)) in
  (exists err rc',
     Restore (NewReader (app (stream [Fixtures.text Fixtures.chunk0_json]) cut)) f
     = (Some err, (rc', f)))
  /\ Fixtures.received (BackendClient.pbClient (VectorClient f)) = [].
Proof.
  intros f cut. split; [|reflexivity].
  apply (restore_rejects_malformed_stream f
           [Fixtures.text Fixtures.chunk0_json] [Fixtures.chunk0] cut).
  - repeat constructor; vm_compute; reflexivity.
  - repeat constructor.
  - subst cut.
    match goal with
    | |- malformed ?s =>
        let s' := eval vm_compute in s in change (malformed s')
    end.
    apply short_payload. vm_compute. reflexivity.
Defined.

(** C8 as stated fails: the reader stops at the first final chunk, so a
    frame cut short after it goes unnoticed: Restore returns no error and
    the chunk read is imported into the backend. *)
Lemma bytes_after_final_chunk_are_not_read :
  let f := mkVxFSM (BackendClient.mkClient Fixtures.healthy) in
  let cut := [x00; x00; x00; x05; x7b] in
  let r := Restore (NewReader (app (stream [Fixtures.text Fixtures.chunk1_json]) cut)) f in
  malformed cut
  /\ IsFinal Fixtures.chunk1 = true
  /\ fst r = None
  /\ Fixtures.received (BackendClient.pbClient (VectorClient (snd (snd r))))
     = [ Fixtures.CallImportSnapshot;
         Fixtures.CallSend (mkSnapshotChunkPB Fixtures.chunk1);
         Fixtures.CallCloseAndRecv ].
Proof.
  cbn zeta. split; [|vm_compute; repeat split; reflexivity].
  apply short_payload. vm_compute. reflexivity.
Qed.


(** The same stream, run: the error names the payload read that hit the
    end of the stream, and the backend has received nothing. *)
Example truncated_snapshot_is_rejected :
  let f := mkVxFSM (BackendClient.mkClient Fixtures.healthy) in
  let whole :=
    stream [Fixtures.text Fixtures.chunk0_json; Fixtures.text Fixtures.chunk1_json] in
  Restore (NewReader (removelast whole)) f
  = (Some (Wrap "failed to read chunk: "
             (Wrap "failed to read chunk data: " io_ErrUnexpectedEOF)),
     (mkReadCloser [] true, f))
  /\ fst (Restore (NewReader whole) f) = None
  /\ Fixtures.received
       (BackendClient.pbClient (VectorClient (snd (snd (Restore (NewReader whole) f)))))
     = [ Fixtures.CallImportSnapshot;
         Fixtures.CallSend (mkSnapshotChunkPB Fixtures.chunk0);
         Fixtures.CallSend (mkSnapshotChunkPB Fixtures.chunk1);
         Fixtures.CallCloseAndRecv ].
Proof. vm_compute. repeat split; reflexivity. Qed.

End CodecFacts.

(* ===================================================================== *)
(** * Properties: the redirect interceptor of the client *)
(* ===================================================================== *)

Module ClientFacts.

Import Grpc ClusterClient Vocabulary.

Section Interceptor.
Context {Req Reply : Type}.
Variable invoker :
  nat -> string -> Req -> ClientConn -> list CallOption -> Response Reply.
Variable grpc_Dial : string -> result ClientConn.

#[local] Abbreviation invokeWithRedirect :=
  (invokeWithRedirect invoker grpc_Dial).
#[local] Abbreviation getOrCreateConnection :=
  (getOrCreateConnection grpc_Dial).

(** One call of invokeWithRedirect. *)
Lemma invokeWithRedirect_step (i : RedirectInterceptor) (calls : nat)
    (method : string) (req : Req) (reply : option Reply) (cc : ClientConn)
    (opts : list CallOption) (redirectCount : Z) :
  invokeWithRedirect i calls method req reply cc opts redirectCount
  = if decide (redirectCount >= maxRedirects i) then
      mkOutcome (Some (MaxRedirectsExceeded i)) reply (connCache i) calls
    else
      let r := invoker calls method req cc (app opts [Header_option]) in
      let reply' := match resp_reply r with Some v => Some v | None => reply end in
      if is_redirect r then
        match getOrCreateConnection (connCache i) (leader_of r) with
        | (Err err', cache') =>
            mkOutcome (Some (Wrap ("failed to connect to leader "
                                   +:+ leader_of r +:+ ": ") err'))
              reply' cache' (S calls)
        | (Ok leaderConn, cache') =>
            invokeWithRedirect (mkRedirectInterceptor (maxRedirects i) cache')
              (S calls) method req reply' leaderConn opts (redirectCount + 1)
        end
      else mkOutcome (resp_err r) reply' (connCache i) (S calls).
Proof.
  rewrite invokeWithRedirect_equation_1.
  destruct (Z_ge_dec redirectCount (maxRedirects i)) as [Hge|Hlt];
    destruct (decide (redirectCount >= maxRedirects i)); try contradiction;
    [reflexivity|].
  unfold invokeWithRedirect_unfold_clause_1, is_redirect, leader_of.
  cbn zeta. rewrite removelast_last.
  set (r := invoker calls method req cc (app opts [Header_option])).
  destruct (resp_err r) as [err|]; [|reflexivity].
  destruct (bool_decide _); [|reflexivity]. cbn [andb].
  destruct (Get (resp_header r) "x-leader-addr") as [|a ?]; [reflexivity|].
  destruct (Get (resp_header r) "x-redirect") as [|x ?]; [reflexivity|].
  destruct (String.eqb x "true"); reflexivity.
Qed.

(** The number of invocations made by a call is bounded by the budget that
    is left. *)
Lemma invocations_bounded (k : nat) :
  forall (i : RedirectInterceptor) (calls : nat) (method : string) (req : Req)
         (reply : option Reply) (cc : ClientConn) (opts : list CallOption)
         (redirectCount : Z),
    (Z.to_nat (maxRedirects i - redirectCount) <= k)%nat ->
    (calls
     <= out_calls (invokeWithRedirect i calls method req reply cc opts redirectCount)
     <= calls + Z.to_nat (maxRedirects i - redirectCount))%nat.
Proof.
  induction k as [|k IH]; intros i calls method req reply cc opts rc Hk;
    rewrite invokeWithRedirect_step;
    destruct (decide (rc >= maxRedirects i)) as [Hge|Hlt];
    cbn [out_calls]; try lia.
  cbn zeta. destruct (is_redirect _); [|cbn [out_calls]; lia].
  destruct (getOrCreateConnection _ _) as [[leaderConn|err] cache'];
    [|cbn [out_calls]; lia].
  specialize (IH (mkRedirectInterceptor (maxRedirects i) cache') (S calls)
                method req
                (match resp_reply (invoker calls method req cc
                                     (app opts [Header_option])) with
                 | Some v => Some v
                 | None => reply
                 end) leaderConn opts (rc + 1)).
  cbn [maxRedirects] in IH. lia.
Qed.

Lemma getOrCreateConnection_succeeds (cache : gmap string ClientConn)
    (addr : string) :
  (exists conn, grpc_Dial addr = Ok conn) ->
  exists conn cache', getOrCreateConnection cache addr = (Ok conn, cache').
Proof.
  intros [dialled Hdial]. unfold ClusterClient.getOrCreateConnection.
  destruct (cache !! addr) as [conn|]; [now eexists _, _|].
  rewrite Hdial. now eexists _, _.
Qed.

(** When every answer is a redirect and every leader that an answer names
    can be dialled, the budget is used up to the last hop and the call
    ends with the error that says so. *)
Lemma budget_exhausted (k : nat) :
  (forall calls method req cc opts,
     is_redirect (invoker calls method req cc opts) = true) ->
  (forall calls method req cc opts,
     exists conn,
       grpc_Dial (leader_of (invoker calls method req cc opts)) = Ok conn) ->
  forall (i : RedirectInterceptor) (calls : nat) (method : string) (req : Req)
         (reply : option Reply) (cc : ClientConn) (opts : list CallOption)
         (redirectCount : Z),
    Z.to_nat (maxRedirects i - redirectCount) = k ->
    let o := invokeWithRedirect i calls method req reply cc opts redirectCount in
    out_err o = Some (MaxRedirectsExceeded i) /\ out_calls o = (calls + k)%nat.
Proof.
  intros Hred Hdial.
  induction k as [|k IH]; intros i calls method req reply cc opts rc Hk o;
    subst o; rewrite invokeWithRedirect_step;
    destruct (decide (rc >= maxRedirects i)) as [Hge|Hlt]; try lia.
  - cbn. split; [reflexivity | lia].
  - cbn zeta. rewrite Hred.
    destruct (getOrCreateConnection_succeeds (connCache i)
                (leader_of (invoker calls method req cc (app opts [Header_option])))
                (Hdial _ _ _ _ _)) as (conn & cache' & ->).
    specialize (IH (mkRedirectInterceptor (maxRedirects i) cache') (S calls)
                  method req
                  (match resp_reply (invoker calls method req cc
                                       (app opts [Header_option])) with
                   | Some v => Some v
                   | None => reply
                   end) conn opts (rc + 1)).
    cbn [maxRedirects] in IH. cbn zeta in IH.
    destruct IH as [IHerr IHcalls]; [lia|].
    rewrite IHerr, IHcalls. split; [reflexivity | lia].
Qed.

(** The recursion of the code does what the rule says, with as many
    invocations left as the budget has hops left. *)
Lemma invokeWithRedirect_follows (k : nat) :
  forall (i : RedirectInterceptor) (calls : nat) (method : string) (req : Req)
         (reply : option Reply) (cc : ClientConn) (opts : list CallOption)
         (redirectCount : Z),
    Z.to_nat (maxRedirects i - redirectCount) = k ->
    invokeWithRedirect i calls method req reply cc opts redirectCount
    = follow_redirects invoker grpc_Dial k (MaxRedirectsExceeded i)
        (connCache i) calls method req reply cc opts.
Proof.
  induction k as [|k IH]; intros i calls method req reply cc opts rc Hk;
    rewrite invokeWithRedirect_step;
    destruct (decide (rc >= maxRedirects i)) as [Hge|Hlt]; try lia;
    [reflexivity|].
  cbn [follow_redirects]. cbn zeta.
  destruct (is_redirect _); [|reflexivity].
  unfold ClusterClient.getOrCreateConnection.
  destruct (connCache i !! _) as [conn|].
  - rewrite (IH (mkRedirectInterceptor (maxRedirects i) (connCache i)))
      by (cbn [maxRedirects]; lia).
    reflexivity.
  - destruct (grpc_Dial _) as [conn|err]; [|reflexivity].
    rewrite (IH (mkRedirectInterceptor (maxRedirects i) _))
      by (cbn [maxRedirects]; lia).
    reflexivity.
Qed.

(** C9, as the code has it.  A call through the interceptor is the rule
    [follow_redirects] run with [maxRedirects] invocations left, 3 unless
    configured otherwise: at every hop an answer that is not a redirect
    signal (an error other than FailedPrecondition, no x-leader-addr
    value, or a first x-redirect value other than "true") is returned as
    it is, and a redirect signal is followed to the first x-leader-addr
    value, whatever that value is, over the cached or a newly dialled
    connection, a failed dial ending the call with "failed to connect to
    leader <address>: ...".  So the call always comes to an outcome, after
    at most [maxRedirects] invocations.  When every answer is a redirect
    signal and every leader named can be dialled, the call makes exactly
    [maxRedirects] invocations and ends with the error "max redirects (n)
    exceeded". *)
Theorem redirects_are_selective_and_bounded (i : RedirectInterceptor)
    (method : string) (req : Req) (reply : option Reply) (cc : ClientConn)
    (opts : list CallOption) :
  let o := Unary invoker grpc_Dial i method req reply cc opts in
  let first := invoker 0%nat method req cc (app opts [Header_option]) in
  o = follow_redirects invoker grpc_Dial (Z.to_nat (maxRedirects i))
        (MaxRedirectsExceeded i) (connCache i) 0 method req reply cc opts
  /\ (out_calls o <= Z.to_nat (maxRedirects i))%nat
  /\ (forall n, maxRedirects (NewRedirectInterceptor n) = if n <=? 0 then 3 else n)
  /\ (0 < maxRedirects i -> is_redirect first = false ->
      out_err o = resp_err first /\ out_calls o = 1%nat
      /\ out_cache o = connCache i)
  /\ ((forall calls method req cc opts,
         is_redirect (invoker calls method req cc opts) = true) ->
      (forall calls method req cc opts,
         exists conn,
           grpc_Dial (leader_of (invoker calls method req cc opts)) = Ok conn) ->
      out_err o = Some (MaxRedirectsExceeded i)
      /\ out_calls o = Z.to_nat (maxRedirects i)).
Proof.
  intros o first. subst o first. unfold Unary.
  split; [|split; [|split; [|split]]].
  - rewrite (invokeWithRedirect_follows (Z.to_nat (maxRedirects i - 0)))
      by reflexivity.
    now rewrite Z.sub_0_r.
  - pose proof (invocations_bounded (Z.to_nat (maxRedirects i - 0)) i 0%nat
                  method req reply cc opts 0 (Nat.le_refl _)) as [_ Hle].
    now rewrite Z.sub_0_r in Hle.
  - reflexivity.
  - intros Hpos Hfirst. rewrite invokeWithRedirect_step.
    destruct (decide (0 >= maxRedirects i)); [lia|].
    cbn zeta. rewrite Hfirst. now repeat split.
  - intros Hred Hdial.
    destruct (budget_exhausted (Z.to_nat (maxRedirects i - 0)) Hred Hdial i
                0%nat method req reply cc opts 0 eq_refl) as [Herr Hcalls].
    rewrite Z.sub_0_r in Hcalls. now split.
Qed.

End Interceptor.

(** A follower that keeps redirecting to 127.0.0.1:5002, a cluster without
    leader, and a healthy cluster whose leader serves the retried call. *)
Lemma redirects_are_selective_and_bounded_witness :
  let i := NewRedirectInterceptor 0 in
  let cc := mkClientConn "127.0.0.1:5012" in
  let m := "/vectorxlite.cluster.ClusterService/Insert" in
  let stuck := Unary Fixtures.always_redirecting Fixtures.dial i m "req" None cc [] in
  let lost := Unary Fixtures.leaderless Fixtures.dial i m "req" None cc [] in
  let led := Unary Fixtures.healthy_cluster Fixtures.dial i m "req" None cc [] in
  (out_err stuck = Some (errors_New "max redirects (3) exceeded")
   /\ out_calls stuck = 3%nat)
  /\ (out_err lost = resp_err Fixtures.unavailable /\ out_calls lost = 1%nat
      /\ out_cache lost = ∅)
  /\ led = mkOutcome None (Some 7%nat)
             {[ "127.0.0.1:5002" := mkClientConn "127.0.0.1:5002" ]} 2.
Proof.
  intros i cc m stuck lost led. split; [|split].
  - apply (redirects_are_selective_and_bounded Fixtures.always_redirecting
             Fixtures.dial i m "req" None cc []).
    + reflexivity.
    + intros calls method req cc' opts.
      now exists (mkClientConn "127.0.0.1:5002").
  - apply (redirects_are_selective_and_bounded Fixtures.leaderless
             Fixtures.dial i m "req" None cc []); reflexivity.
  - subst led.
    rewrite (proj1 (redirects_are_selective_and_bounded Fixtures.healthy_cluster
                      Fixtures.dial i m "req" None cc [])).
    reflexivity.
Defined.

(** C9 as stated fails: an answer whose x-leader-addr value is the empty
    string is taken for a redirect all the same.  The interceptor asks for
    a connection to the empty address; [grpc.Dial] refuses it, and the call
    ends with "failed to connect to leader : ..." in place of the error of
    the answer, which the specification has returned unchanged.  Whatever
    dialling the empty address gives, the error of the answer does not
    come back. *)
Lemma empty_leader_address_is_dialled :
  let i := NewRedirectInterceptor 3 in
  let cc := mkClientConn "127.0.0.1:5012" in
  let m := "/vectorxlite.cluster.ClusterService/Insert" in
  let first := Fixtures.names_no_address 0%nat m "req" cc [Header_option] in
  let o := Unary Fixtures.names_no_address Fixtures.dial i m "req" None cc [] in
  Get (resp_header first) "x-leader-addr" = [""]
  /\ resp_err first
     = Some (status_Errorf FailedPrecondition "not leader, redirect to: ")
  /\ out_err o
     = Some (Wrap "failed to connect to leader : " Fixtures.empty_target)
  /\ out_err o <> resp_err first
  /\ out_calls o = 1%nat
  /\ (forall dial,
        out_err (Unary Fixtures.names_no_address dial i m "req" None cc [])
        <> resp_err first).
Proof.
  cbn zeta. repeat split; try (vm_compute; reflexivity); try discriminate.
  intros dial. unfold Unary.
  rewrite (invokeWithRedirect_follows Fixtures.names_no_address dial 3)
    by reflexivity.
  cbn [follow_redirects]. cbn zeta.
  change (is_redirect
            (Fixtures.names_no_address 0%nat
               "/vectorxlite.cluster.ClusterService/Insert" "req"
               (mkClientConn "127.0.0.1:5012") (app [] [Header_option])))
    with true.
  change (leader_of
            (Fixtures.names_no_address 0%nat
               "/vectorxlite.cluster.ClusterService/Insert" "req"
               (mkClientConn "127.0.0.1:5012") (app [] [Header_option])))
    with "".
  cbv iota. change (connCache (NewRedirectInterceptor 3)) with
    (∅ : gmap string ClientConn).
  rewrite lookup_empty.
  destruct (dial "") as [conn|err]; discriminate.
Qed.

(** A write sent to a follower of a healthy cluster: one redirect, then
    the leader serves; the connection to the leader is kept. *)
Example write_to_follower_is_redirected :
  let o :=
    Unary Fixtures.healthy_cluster Fixtures.dial (NewRedirectInterceptor 0)
      "/vectorxlite.cluster.ClusterService/Insert" "req" None
      (mkClientConn "127.0.0.1:5012") [] in
  out_err o = None /\ out_reply o = Some 7%nat /\ out_calls o = 2%nat
  /\ out_cache o !! "127.0.0.1:5002" = Some (mkClientConn "127.0.0.1:5002").
Proof. vm_compute. repeat split; reflexivity. Qed.

End ClientFacts.

(* ===================================================================== *)
(** * Further properties: the address derivation *)
(* ===================================================================== *)

Module AddressExtras.

Import Server Vocabulary AddressFacts NodeMain.

#[local] Arguments String.append !_ _ / : simpl nomatch.

Lemma append_last_inj (a b : string) (x y : ascii) :
  a +:+ String x "" = b +:+ String y "" -> a = b /\ x = y.
Proof.
  revert b. induction a as [|c a IH]; intros [|d b]; cbn; intros [=]; subst.
  - now split.
  - now destruct b.
  - now destruct a.
  - destruct (IH b) as [-> ->]; [assumption | now split].
Qed.

(** A string splits at its last colon in one way only. *)
Lemma split_last_colon_unique (h h' p p' : string) :
  colon_free p -> colon_free p' ->
  h +:+ ":" +:+ p = h' +:+ ":" +:+ p' -> h = h' /\ p = p'.
Proof.
  intros Hp Hp' E.
  assert (len h = len h') as Hlen.
  { pose proof (lastIndexFrom_split h p 0 (Z.le_refl 0) Hp) as H1.
    pose proof (lastIndexFrom_split h' p' 0 (Z.le_refl 0) Hp') as H2.
    rewrite E in H1. lia. }
  split.
  - rewrite <- (slice_to_prefix h (":" +:+ p)), <- (slice_to_prefix h' (":" +:+ p')).
    now rewrite E, Hlen.
  - rewrite <- (slice_from_suffix h p), <- (slice_from_suffix h' p').
    now rewrite E, Hlen.
Qed.

(** An address the derivation accepts has the form it asks for. *)
Lemma convert_ok_inv (raftAddr clusterAddr : string) :
  convertRaftToClusterAddr raftAddr = Ok clusterAddr ->
  exists host r,
    colon_free r
    /\ raftAddr = host +:+ ":" +:+ r +:+ "1"
    /\ clusterAddr = host +:+ ":" +:+ r +:+ "2".
Proof.
  intros Hok.
  destruct (split_last_colon raftAddr) as [Hfree | (h & p & -> & Hp)].
  { rewrite convert_no_colon in Hok by assumption. discriminate. }
  rewrite convert_at_colon in Hok by assumption.
  destruct (decide (p = "")) as [->|Hne]; [discriminate|].
  destruct (last_char p Hne) as (r & c & ->).
  rewrite byte_at_last in Hok.
  destruct (Ascii.eqb_spec c "1") as [->|Hc].
  2:{ rewrite orb_true_r in Hok. discriminate. }
  destruct (len (r +:+ "1") =? 0) eqn:E; [discriminate|].
  cbn [negb orb] in Hok. injection Hok as <-.
  apply colon_free_append in Hp as [Hr _].
  exists h, r. repeat split; [assumption|].
  replace (len (r +:+ "1") - 1) with (len r).
  2:{ unfold len. rewrite length_append. cbn. lia. }
  now rewrite slice_to_prefix.
Qed.

(** X1: the derivation succeeds exactly on the addresses whose text after
    the last colon ends in '1', and then replaces that '1' by '2' and
    nothing else. *)
Theorem convert_succeeds_exactly (raftAddr clusterAddr : string) :
  convertRaftToClusterAddr raftAddr = Ok clusterAddr <->
  exists host r,
    colon_free r
    /\ raftAddr = host +:+ ":" +:+ r +:+ "1"
    /\ clusterAddr = host +:+ ":" +:+ r +:+ "2".
Proof.
  split.
  - apply convert_ok_inv.
  - intros (host & r & Hr & -> & ->). now apply convert_ok.
Qed.

Lemma convert_succeeds_exactly_witness :
  convertRaftToClusterAddr "10.0.0.7:6001" = Ok "10.0.0.7:6002".
Proof.
  apply (proj2 (convert_succeeds_exactly "10.0.0.7:6001" "10.0.0.7:6002")).
  exists "10.0.0.7", "600". cbn. repeat split; discriminate.
Defined.

(** X2: two consensus addresses with the same coordination address are
    the same address. *)
Theorem convert_injective (a b clusterAddr : string) :
  convertRaftToClusterAddr a = Ok clusterAddr ->
  convertRaftToClusterAddr b = Ok clusterAddr ->
  a = b.
Proof.
  intros Ha Hb.
  apply convert_ok_inv in Ha as (h & r & Hr & -> & ->).
  apply convert_ok_inv in Hb as (h' & r' & Hr' & -> & E).
  assert (forall s, colon_free s -> colon_free (s +:+ "2")) as Hfree.
  { intros s Hs. apply colon_free_append. split; [assumption|].
    cbn. split; [discriminate | exact I]. }
  apply split_last_colon_unique in E as [-> E]; auto.
  apply append_last_inj in E as [-> _]. reflexivity.
Qed.

Lemma convert_injective_witness :
  "127.0.0.1:5001" = "127.0.0.1:5001".
Proof.
  exact (convert_injective "127.0.0.1:5001" "127.0.0.1:5001" "127.0.0.1:5002"
           eq_refl eq_refl).
Defined.

(** X3: what the derivation returns is never accepted by the derivation
    again: a coordination address is not taken for a consensus address. *)
Theorem convert_rejects_its_result (raftAddr clusterAddr : string) :
  convertRaftToClusterAddr raftAddr = Ok clusterAddr ->
  convertRaftToClusterAddr clusterAddr
  = Err (errors_New ("raft address must end with '1': " +:+ clusterAddr)).
Proof.
  intros Hok.
  apply convert_ok_inv in Hok as (h & r & Hr & -> & ->).
  apply convert_bad_port.
  - apply colon_free_append. split; [assumption|].
    cbn. split; [discriminate | exact I].
  - intros r' E. change "1" with (String "1"%char "") in E.
    change "2" with (String "2"%char "") in E.
    apply append_last_inj in E as [_ E]. discriminate.
Qed.

Lemma convert_rejects_its_result_witness :
  convertRaftToClusterAddr "127.0.0.1:5002"
  = Err (errors_New "raft address must end with '1': 127.0.0.1:5002").
Proof.
  exact (convert_rejects_its_result "127.0.0.1:5001" "127.0.0.1:5002" eq_refl).
Defined.

(** X4: whatever base port a node is started with, the coordination address
    derived from its consensus address is the loopback host followed by
    the address its cluster server listens on. *)
Theorem node_addresses_agree (basePort : string) :
  convertRaftToClusterAddr (raftAddr basePort)
  = Ok ("127.0.0.1" +:+ clusterAddr basePort).
Proof.
  unfold raftAddr, clusterAddr, raftPort, clusterPort.
  destruct (split_last_colon basePort) as [Hfree | (h & p & -> & Hp)].
  - exact (convert_ok "127.0.0.1" basePort Hfree).
  - pose proof (convert_ok ("127.0.0.1:" +:+ h) p Hp) as E.
    rewrite !append_assoc in E |- *. cbn [String.append] in E |- *.
    rewrite !append_assoc. exact E.
Qed.

End AddressExtras.

(* ===================================================================== *)
(** * Further properties: the filter, the service and the callbacks *)
(* ===================================================================== *)

Module ServerExtras.

Import Raft Grpc ClusterPB Server Vocabulary AddressFacts ServerFacts.
Import (hints) Node Fixtures.

Section Filter.
Context {N : Type} `{!ClusterNode N}.
Context {Req Resp : Type}.

(** X5: the filter does one of two things with a call.  It hands it to the
    handler and returns what the handler returns, the stream untouched; or,
    for a write on a node that is not the leader only, it returns no
    response and an error with code Unavailable, Internal or
    FailedPrecondition, leaves the node as it was (it makes no consensus
    call and does not run the handler), and touches the response header
    in the FailedPrecondition case only. *)
Theorem filter_forwards_or_rejects (ctx : ServerStream) (req : Req)
    (m : string) (handler : Req -> N -> reply Resp * N) (n : N) :
  Unary ctx req m handler n = (let '(r, n') := handler req n in (r, ctx, n'))
  \/
  (isWriteOperation m = true /\ State n <> Raft.Leader /\
   exists c msg ctx',
     Unary ctx req m handler n = ((None, Some (status_Errorf c msg)), ctx', n)
     /\ (c = Unavailable \/ c = Internal \/ c = FailedPrecondition)
     /\ (c <> FailedPrecondition -> ctx' = ctx)).
Proof.
  destruct (isWriteOperation m) eqn:Hw.
  2:{ left. now apply Unary_passes_non_write. }
  destruct (decide (State n = Raft.Leader)) as [Hl|Hl].
  { left. now apply Unary_passes_on_leader. }
  right. split; [reflexivity|]. split; [assumption|].
  unfold Unary. rewrite Hw, not_leader by assumption.
  destruct (String.eqb (Leader n) ""); [eexists _, _, _; eauto|].
  destruct (convertRaftToClusterAddr (Leader n)); [|eexists _, _, _; eauto].
  destruct (SetHeader ctx _) as [[err|] ctx'] eqn:E.
  - unfold SetHeader in E. destruct (has_stream ctx); [discriminate|].
    injection E as _ <-. eexists _, _, _; eauto.
  - eexists _, _, _. split; [reflexivity|]. split; [auto | congruence].
Qed.

End Filter.

Section Service.
Context {N : Type} `{!ClusterNode N}.

(** X6: the leader id that JoinCluster reports is always the empty string
    for a server made by NewClusterServer, which leaves the node id
    unset. *)
Theorem join_reports_no_leader_id (cfg : ClusterServerConfig N)
    (req : JoinClusterRequest) (n : N) (resp : JoinClusterResponse) :
  fst (fst (JoinCluster (NewClusterServer cfg) req n)) = Some resp ->
  join_LeaderId resp = "".
Proof.
  unfold JoinCluster. destruct (AddVoter _ _ _ _ _) as [[err|] n'];
    cbn; intros [= <-]; reflexivity.
Qed.

(** The id that findLeaderID returns is the id of the first server at the
    leader address. *)
Lemma findLeaderID_find (servers : list Server) (leaderAddr : string) :
  findLeaderID servers leaderAddr
  = match List.find (fun s => String.eqb (Address s) leaderAddr) servers with
    | Some s => ID s
    | None => ""
    end.
Proof.
  induction servers as [|s servers IH]; [reflexivity|].
  cbn. now destruct (String.eqb (Address s) leaderAddr).
Qed.

(** X7: when the configuration can be read, GetClusterInfo lists the
    servers of the configuration in their order, with their ids and
    consensus addresses; a node is labelled leader exactly when its address
    is the leader address Raft reports, every other one follower; and the
    leader id is the id of the first server at that address, or empty when
    there is none. *)
Theorem cluster_info_mirrors_configuration (s : ClusterServer N) (n : N)
    (config : Configuration) :
  GetConfiguration n = Ok config ->
  exists resp,
    GetClusterInfo s n = (Some resp, None)
    /\ map NodeId (Nodes resp) = map ID (Servers config)
    /\ map Addr (Nodes resp) = map Address (Servers config)
    /\ Forall (fun node =>
                 (Addr node = Leader n -> node_State node = "leader")
                 /\ (Addr node <> Leader n -> node_State node = "follower"))
              (Nodes resp)
    /\ LeaderId resp
       = match List.find (fun s => String.eqb (Address s) (Leader n))
                 (Servers config) with
         | Some s => ID s
         | None => ""
         end
    /\ info_State resp = RaftState_String (State n).
Proof.
  intros Hcfg. unfold GetClusterInfo, getLeaderAddr. rewrite Hcfg.
  eexists. split; [reflexivity|]. cbn [Nodes LeaderId info_State].
  rewrite findLeaderID_find.
  repeat split.
  - now rewrite map_map.
  - now rewrite map_map.
  - apply Forall_map. apply Forall_forall. intros server _. cbn.
    destruct (String.eqb_spec (Address server) (Leader n)); split; congruence.
Qed.

End Service.

Lemma join_reports_no_leader_id_witness :
  let n := Fixtures.node Raft.Leader "127.0.0.1:5001" in
  exists resp,
    fst (fst (JoinCluster Node.clusterServer
                (mkJoinClusterRequest "node4" "127.0.0.1:5031") n)) = Some resp
    /\ join_Success resp = true
    /\ join_LeaderId resp = "".
Proof.
  intros n. eexists. split; [reflexivity|]. split; [reflexivity|].
  apply (join_reports_no_leader_id Node.serverCfg
           (mkJoinClusterRequest "node4" "127.0.0.1:5031") n).
  reflexivity.
Defined.

Lemma cluster_info_mirrors_configuration_witness :
  let n := Fixtures.node Raft.Follower "127.0.0.1:5001" in
  exists resp,
    GetClusterInfo Node.clusterServer n = (Some resp, None)
    /\ map NodeId (Nodes resp) = ["node1"; "node2"; "node3"]
    /\ map node_State (Nodes resp) = ["leader"; "follower"; "follower"]
    /\ LeaderId resp = "node1".
Proof.
  intros n.
  assert (GetConfiguration n = Ok (mkConfiguration Fixtures.three_servers))
    as Hcfg by reflexivity.
  destruct (cluster_info_mirrors_configuration Node.clusterServer n
              (mkConfiguration Fixtures.three_servers) Hcfg)
    as (resp & E & Hids & _ & _ & Hleader & _).
  exists resp. split; [exact E|]. split; [exact Hids|].
  split; [|exact Hleader].
  injection E as <-. reflexivity.
Defined.

End ServerExtras.

(* ===================================================================== *)
(** * Further properties: the write callbacks of a node *)
(* ===================================================================== *)

Module NodeExtras.

Import Raft Grpc ClusterPB Server Consensus Node.
Import (hints) Fixtures.

Section Callbacks.
Context {R : Type} `{!RaftLib R}.
Context {B : Type} `{!VectorXLitePBClient B}.
Context `{!JSON Command} `{!JSON CollectionConfig} `{!JSON InsertPoint}.
Implicit Types (n : VxRaftNode R B).

(** X8: a request that does not pass validation never reaches Raft: an
    Insert without a collection name or without a vector, and a
    CreateCollection without a collection name or with dimension 0, are
    answered with success false and the node is left as it was. *)
Theorem invalid_writes_stop_before_raft n :
  (forall req : InsertRequest,
     in_CollectionName req = "" \/ in_Vector req = [] ->
     exists err,
       Insert clusterServer req n
       = ((Some (mkWriteResponse false
                   ("failed to build insert request: " +:+ Error err)),
           Some (Wrap "failed to build insert request: " err)), n))
  /\
  (forall req : CreateCollectionRequest,
     cc_CollectionName req = "" \/ cc_VectorDimension req = 0 ->
     exists err,
       CreateCollection clusterServer req n
       = ((Some (mkWriteResponse false
                   ("failed to build collection config: " +:+ Error err)),
           Some (Wrap "failed to build collection config: " err)), n)).
Proof.
  split; intros req Hbad.
  - unfold Insert, write_handler, clusterServer, NewClusterServer, serverCfg.
    cbn [onInsert Server.OnInsert]. unfold OnInsert, InsertPoint_Build.
    cbn [ip_CollectionName ip_Vector].
    destruct (String.eqb_spec (in_CollectionName req) "") as [_|Hname];
      [now eexists|].
    destruct Hbad as [Hbad|Hbad]; [contradiction|]. rewrite Hbad.
    now eexists.
  - unfold CreateCollection, write_handler, clusterServer, NewClusterServer,
      serverCfg.
    cbn [onCreateCollection Server.OnCreateCollection].
    unfold OnCreateCollection, CollectionConfig_Build.
    cbn [cfg_CollectionName cfg_VectorDimension].
    destruct (String.eqb_spec (cc_CollectionName req) "") as [_|Hname];
      [now eexists|].
    destruct Hbad as [Hbad|Hbad]; [contradiction|]. rewrite Hbad.
    now eexists.
Qed.

(** X9: a valid Insert whose point and command serialize is submitted to
    Raft once, as the command of type Insert around the serialized point,
    with a deadline of five seconds; the handler answers success when the
    submission returns no error, and otherwise success false with the
    error marked as a failed Raft apply. *)
Theorem insert_is_sequenced_through_raft n (req : InsertRequest)
    (payload comm : bytes) :
  in_CollectionName req <> "" -> in_Vector req <> [] ->
  json_Marshal (mkInsertPoint (in_CollectionName req) (in_Id req)
                  (in_Vector req) (in_PayloadInsertQuery req)) = Ok payload ->
  json_Marshal (mkCommand CmdInsert payload) = Ok comm ->
  Insert clusterServer req n
  = match Server.Apply comm 5000000000 n with
    | (None, n') => ((Some (mkWriteResponse true "inserted successfully"), None), n')
    | (Some err, n') =>
        ((Some (mkWriteResponse false ("raft apply failed: " +:+ Error err)),
          Some (Wrap "raft apply failed: " err)), n')
    end.
Proof.
  intros Hname Hvec Hp Hc.
  unfold Insert, write_handler, clusterServer, NewClusterServer, serverCfg.
  cbn [onInsert Server.OnInsert]. unfold OnInsert, InsertPoint_Build.
  cbn [ip_CollectionName ip_Vector].
  destruct (String.eqb_spec (in_CollectionName req) ""); [contradiction|].
  destruct (in_Vector req) as [|v vs] eqn:Ev; [contradiction|].
  cbn [List.length Nat.eqb]. rewrite Hp, Hc.
  change (5 * time_Second) with 5000000000.
  now destruct (Server.Apply comm 5000000000 n) as [[err|] n'].
Qed.

(** X10: a valid CreateCollection is submitted to Raft once, as the
    command of type CreateCollection around the serialized configuration,
    with a deadline of five seconds.  The configuration that is serialized
    always has the cosine distance and an empty index file path: the
    distance of the request is not used. *)
Theorem create_is_sequenced_with_cosine_distance n
    (req : CreateCollectionRequest) (payload comm : bytes) :
  cc_CollectionName req <> "" -> cc_VectorDimension req <> 0 ->
  json_Marshal (mkCollectionConfig (cc_CollectionName req) DistanceCosine
                  (cc_VectorDimension req) (cc_PayloadTableSchema req) "")
  = Ok payload ->
  json_Marshal (mkCommand CmdCreateCollection payload) = Ok comm ->
  CreateCollection clusterServer req n
  = match Server.Apply comm 5000000000 n with
    | (None, n') =>
        ((Some (mkWriteResponse true "collection created successfully"), None),
         n')
    | (Some err, n') =>
        ((Some (mkWriteResponse false ("raft apply failed: " +:+ Error err)),
          Some (Wrap "raft apply failed: " err)), n')
    end.
Proof.
  intros Hname Hdim Hp Hc.
  unfold CreateCollection, write_handler, clusterServer, NewClusterServer,
    serverCfg.
  cbn [onCreateCollection Server.OnCreateCollection].
  unfold OnCreateCollection, CollectionConfig_Build.
  cbn [cfg_CollectionName cfg_VectorDimension].
  destruct (String.eqb_spec (cc_CollectionName req) ""); [contradiction|].
  destruct (Z.eqb_spec (cc_VectorDimension req) 0); [contradiction|].
  rewrite Hp, Hc. change (5 * time_Second) with 5000000000.
  now destruct (Server.Apply comm 5000000000 n) as [[err|] n'].
Qed.

End Callbacks.

Lemma invalid_writes_stop_before_raft_witness :
  let n := Fixtures.node Raft.Leader "127.0.0.1:5011" in
  (exists err,
     Insert clusterServer (mkInsertRequest "users" 4 [] "") n
     = ((Some (mkWriteResponse false
                 ("failed to build insert request: " +:+ Error err)),
         Some (Wrap "failed to build insert request: " err)), n))
  /\ (exists err,
        CreateCollection clusterServer
          (mkCreateCollectionRequest "" "Cosine" 4 "") n
        = ((Some (mkWriteResponse false
                    ("failed to build collection config: " +:+ Error err)),
            Some (Wrap "failed to build collection config: " err)), n)).
Proof.
  intros n. split.
  - exact (proj1 (invalid_writes_stop_before_raft n)
             (mkInsertRequest "users" 4 [] "") (or_intror eq_refl)).
  - exact (proj2 (invalid_writes_stop_before_raft n)
             (mkCreateCollectionRequest "" "Cosine" 4 "") (or_introl eq_refl)).
Defined.

(** A request for the Euclidean distance proposes the configuration with
    the cosine distance. *)
Lemma create_is_sequenced_with_cosine_distance_witness :
  let n := Fixtures.node Raft.Leader "127.0.0.1:5011" in
  let req := mkCreateCollectionRequest "users" "Euclidean" 2
               "create table users(rowid integer primary key, name text)" in
  Fixtures.proposed (raft (snd (CreateCollection clusterServer req n)))
  = [ (Fixtures.text (Fixtures.command_json CmdCreateCollection
                        Fixtures.users_cfg_json),
       5000000000) ].
Proof.
  intros n req.
  rewrite (create_is_sequenced_with_cosine_distance n req
             (Fixtures.text Fixtures.users_cfg_json)
             (Fixtures.text (Fixtures.command_json CmdCreateCollection
                               Fixtures.users_cfg_json)));
    [reflexivity | discriminate | discriminate | reflexivity | reflexivity].
Defined.

Lemma insert_is_sequenced_through_raft_witness :
  let n := Fixtures.node Raft.Leader "127.0.0.1:5011" in
  let req := mkInsertRequest "users" 1 [1065353216; 1073741824]
               "insert into users(name) values ('Alice')" in
  Fixtures.proposed (raft (snd (Insert clusterServer req n)))
  = [ (Fixtures.text (Fixtures.command_json CmdInsert Fixtures.users_1_json),
       5000000000) ].
Proof.
  intros n req.
  rewrite (insert_is_sequenced_through_raft n req
             (Fixtures.text Fixtures.users_1_json)
             (Fixtures.text (Fixtures.command_json CmdInsert Fixtures.users_1_json)));
    [reflexivity | discriminate | discriminate | reflexivity | reflexivity].
Defined.

End NodeExtras.

(* ===================================================================== *)
(** * Further properties: the FSM *)
(* ===================================================================== *)

Module FsmExtras.

Import Consensus FsmFacts.

#[local] Existing Instance Fixtures.Recorder_backend.

Section Apply.
Context {B : Type} `{!VectorXLitePBClient B}.
Context `{!JSON Command} `{!JSON CollectionConfig} `{!JSON InsertPoint}.
Implicit Types (f : VxFSM B) (data payload : bytes).

(** X11: the only error Apply ever puts in its result is the decoding
    error of the payload of a CreateCollection command, and then the
    backend has not been called. *)
Theorem apply_error_is_a_create_payload_error data f (r : ApplyResult)
    (f' : VxFSM B) (e : error) :
  Apply data f = (Return r, f') -> res_Error r = Some e ->
  exists payload,
    json_Unmarshal data = Ok (mkCommand CmdCreateCollection payload)
    /\ json_Unmarshal (A := CollectionConfig) payload = Err e
    /\ f' = f.
Proof.
  unfold Apply. destruct (json_Unmarshal data) as [[t payload]|err]; [|discriminate].
  cbn [Type_ Payload]. destruct (Z.eqb_spec t CmdCreateCollection) as [->|_].
  - unfold applyCreateCollection.
    destruct (json_Unmarshal payload) as [cfg|err] eqn:Ep.
    + destruct (BackendClient.CreateCollection _ _). intros [= <- <-]. discriminate.
    + intros [= <- <-] [= <-]. now exists payload.
  - destruct (t =? CmdInsert).
    + unfold applyInsert. destruct (json_Unmarshal payload) as [p|err];
        [|discriminate].
      destruct (BackendClient.Insert _ _). intros [= <- <-]. discriminate.
    + intros [= <- <-]. discriminate.
Qed.

Lemma apply_fatal_leaves_backend data f (msg : string) :
  fst (Apply data f) = Fatal msg -> snd (Apply data f) = f.
Proof.
  unfold Apply. destruct (json_Unmarshal data) as [[t payload]|err]; [|reflexivity].
  cbn [Type_ Payload]. destruct (t =? CmdCreateCollection).
  { unfold applyCreateCollection. destruct (json_Unmarshal payload); [|discriminate].
    now destruct (BackendClient.CreateCollection _ _). }
  destruct (t =? CmdInsert); [|discriminate].
  unfold applyInsert. destruct (json_Unmarshal payload); [|reflexivity].
  now destruct (BackendClient.Insert _ _).
Qed.

(** X12: Apply ends the process exactly when the entry does not decode to
    a command, or decodes to an Insert whose payload does not decode to a
    point; the backend has not been called by then. *)
Theorem apply_halts_on_undecodable_entries data f :
  ((exists msg, fst (Apply data f) = Fatal msg)
   <->
   ((exists err, json_Unmarshal (A := Command) data = Err err)
    \/ exists payload err,
         json_Unmarshal data = Ok (mkCommand CmdInsert payload)
         /\ json_Unmarshal (A := InsertPoint) payload = Err err))
  /\ (forall msg, fst (Apply data f) = Fatal msg -> snd (Apply data f) = f).
Proof.
  split; [|apply apply_fatal_leaves_backend].
  unfold Apply. split.
  - intros [msg Hmsg].
    destruct (json_Unmarshal data) as [[t payload]|err]; [|left; now eexists].
    right. cbn [Type_ Payload] in Hmsg.
    destruct (Z.eqb_spec t CmdCreateCollection) as [->|_].
    { unfold applyCreateCollection in Hmsg.
      destruct (json_Unmarshal payload); [|discriminate].
      now destruct (BackendClient.CreateCollection _ _). }
    destruct (Z.eqb_spec t CmdInsert) as [->|_]; [|discriminate].
    unfold applyInsert in Hmsg.
    destruct (json_Unmarshal payload) as [p|err] eqn:E;
      [|exists payload, err; split; [reflexivity | exact E]].
    now destruct (BackendClient.Insert _ _).
  - intros [[err ->] | (payload & err & -> & Hp)]; [now eexists|].
    cbn [Type_ Payload]. change (CmdInsert =? CmdCreateCollection) with false.
    change (CmdInsert =? CmdInsert) with true. cbn iota.
    unfold applyInsert. rewrite Hp. now eexists.
Qed.

End Apply.

Section OneCall.
Context `{!JSON Command} `{!JSON CollectionConfig} `{!JSON InsertPoint}.

(** X13: applying an entry sends at most one call to the backend, a
    CreateCollection or an Insert, whatever the entry and the codec are:
    on the recording backend, what has been received grows by nothing or
    by that one call. *)
Theorem apply_makes_at_most_one_call (data : bytes)
    (f : VxFSM Fixtures.Recorder) :
  let before := BackendClient.pbClient (VectorClient f) in
  let after := BackendClient.pbClient (VectorClient (snd (Apply data f))) in
  Fixtures.failing after = Fixtures.failing before
  /\ (Fixtures.received after = Fixtures.received before
      \/ (exists cfg, Fixtures.received after
                      = app (Fixtures.received before)
                          [Fixtures.CallCreateCollection cfg])
      \/ (exists p, Fixtures.received after
                    = app (Fixtures.received before) [Fixtures.CallInsert p])).
Proof.
  destruct f as [[b]]. cbn zeta. unfold Apply.
  destruct (json_Unmarshal data) as [[t payload]|err]; [|auto].
  cbn [Type_ Payload]. destruct (t =? CmdCreateCollection).
  { unfold applyCreateCollection.
    destruct (json_Unmarshal payload) as [cfg|err]; [|auto].
    cbn. split; [reflexivity|]. right. left. now eexists. }
  destruct (t =? CmdInsert); [|auto].
  unfold applyInsert. destruct (json_Unmarshal payload) as [p|err]; [|auto].
  cbn. split; [reflexivity|]. right. right. now eexists.
Qed.

End OneCall.

Section Witnesses.
Import (hints) MoreFixtures.

Lemma apply_error_is_a_create_payload_error_witness :
  let f := mkVxFSM (BackendClient.mkClient Fixtures.healthy) in
  let data := Fixtures.text (Fixtures.command_json CmdCreateCollection
                               MoreFixtures.bad_cfg_json) in
  let e := MoreFixtures.type_error "CollectionConfig.CollectionName" "string" in
  Apply data f = (Return (mkApplyResult None (Some e)), f)
  /\ exists payload,
       json_Unmarshal data = Ok (mkCommand CmdCreateCollection payload)
       /\ json_Unmarshal (A := CollectionConfig) payload = Err e
       /\ f = f.
Proof.
  intros f data e.
  assert (Apply data f = (Return (mkApplyResult None (Some e)), f)) as Happly
    by reflexivity.
  split; [exact Happly|].
  exact (apply_error_is_a_create_payload_error data f _ f e Happly eq_refl).
Defined.

Lemma apply_halts_on_undecodable_entries_witness :
  let f := mkVxFSM (BackendClient.mkClient Fixtures.healthy) in
  (exists msg,
     fst (Apply (Fixtures.text (Fixtures.command_json CmdInsert
                                  MoreFixtures.bad_point_json)) f) = Fatal msg)
  /\ (exists msg, fst (Apply (Fixtures.text "not json") f) = Fatal msg)
  /\ snd (Apply (Fixtures.text "not json") f) = f.
Proof.
  intros f. split; [|split].
  - apply (proj2 (proj1 (apply_halts_on_undecodable_entries _ f))).
    right. eexists _, _. split; reflexivity.
  - apply (proj2 (proj1 (apply_halts_on_undecodable_entries _ f))).
    left. now eexists.
  - eapply (proj2 (apply_halts_on_undecodable_entries _ f)). reflexivity.
Defined.

End Witnesses.

End FsmExtras.

(* ===================================================================== *)
(** * Further properties: the snapshot codec *)
(* ===================================================================== *)

Module CodecExtras.

Import Consensus Vocabulary CodecFacts.

#[local] Existing Instance Fixtures.Recorder_backend.

(** ** The length prefix, both ways *)

Lemma byte_of_Z_of_byte (b : byte) : byte_of_Z (Z_of_byte b) = b.
Proof.
  unfold byte_of_Z. rewrite Z.mod_small by apply Z_of_byte_range.
  unfold Z_of_byte. now rewrite N2Z.id, Byte.of_to_N.
Qed.

Lemma byte_of_Z_mod (z : Z) : byte_of_Z (z mod 256) = byte_of_Z z.
Proof. unfold byte_of_Z. now rewrite Z.mod_mod. Qed.

Lemma byte_bits_high (b : byte) (m : Z) :
  8 <= m -> Z.testbit (Z_of_byte b) m = false.
Proof.
  intros Hm. pose proof (Z_of_byte_range b).
  rewrite <- (Z.mod_small (Z_of_byte b) (2 ^ 8)) by (change (2 ^ 8) with 256; lia).
  rewrite Z.testbit_mod_pow2 by lia.
  destruct (Z.ltb_spec m 8); [lia | reflexivity].
Qed.

(** The bits of the number four bytes stand for. *)
Lemma Uint32_bits (b0 b1 b2 b3 : byte) (n : Z) :
  0 <= n ->
  Z.testbit (Uint32 b0 b1 b2 b3) n
  = if n <? 8 then Z.testbit (Z_of_byte b3) n
    else if n <? 16 then Z.testbit (Z_of_byte b2) (n - 8)
    else if n <? 24 then Z.testbit (Z_of_byte b1) (n - 16)
    else if n <? 32 then Z.testbit (Z_of_byte b0) (n - 24)
    else false.
Proof.
  intros Hn. unfold Uint32.
  rewrite !Z.lor_spec, !Z.shiftl_spec by lia.
  destruct (Z.ltb_spec n 8), (Z.ltb_spec n 16), (Z.ltb_spec n 24),
           (Z.ltb_spec n 32); try lia;
    repeat match goal with
           | |- context [Z.testbit (Z_of_byte ?b) ?m] =>
               first [ rewrite (Z.testbit_neg_r (Z_of_byte b) m) by lia
                     | rewrite (byte_bits_high b m) by lia ]
           end;
    rewrite ?orb_false_r; reflexivity.
Qed.

Lemma Uint32_range (b0 b1 b2 b3 : byte) : 0 <= Uint32 b0 b1 b2 b3 < 2 ^ 32.
Proof.
  assert (Uint32 b0 b1 b2 b3 mod 2 ^ 32 = Uint32 b0 b1 b2 b3) as E.
  { apply Z.bits_inj'. intros n Hn.
    rewrite Z.testbit_mod_pow2 by lia. rewrite Uint32_bits by assumption.
    destruct (Z.ltb_spec n 32); [reflexivity|].
    destruct (Z.ltb_spec n 8), (Z.ltb_spec n 16), (Z.ltb_spec n 24);
      try lia; reflexivity. }
  rewrite <- E. apply Z.mod_pos_bound. lia.
Qed.

Lemma Uint32_byte (b0 b1 b2 b3 b : byte) (k : Z) :
  (k = 0 /\ b = b3) \/ (k = 8 /\ b = b2) \/ (k = 16 /\ b = b1)
  \/ (k = 24 /\ b = b0) ->
  byte_of_Z (Z.shiftr (Uint32 b0 b1 b2 b3) k) = b.
Proof.
  intros Hk. rewrite <- byte_of_Z_mod, <- (byte_of_Z_of_byte b). f_equal.
  pose proof (Z_of_byte_range b) as Hb.
  rewrite <- (Z.mod_small (Z_of_byte b) 256) by lia.
  change 256 with (2 ^ 8). apply Z.bits_inj'. intros n Hn.
  rewrite !Z.testbit_mod_pow2 by lia.
  destruct (Z.ltb_spec n 8); [|reflexivity]. cbn [andb].
  rewrite Z.shiftr_spec, Uint32_bits by lia.
  destruct Hk as [[-> ->] | [[-> ->] | [[-> ->] | [-> ->]]]];
    destruct (Z.ltb_spec (n + 0) 8), (Z.ltb_spec (n + 8) 8),
             (Z.ltb_spec (n + 8) 16), (Z.ltb_spec (n + 16) 8),
             (Z.ltb_spec (n + 16) 16), (Z.ltb_spec (n + 16) 24),
             (Z.ltb_spec (n + 24) 8), (Z.ltb_spec (n + 24) 16),
             (Z.ltb_spec (n + 24) 24), (Z.ltb_spec (n + 24) 32);
    try lia; f_equal; lia.
Qed.

(** Writing the number that four bytes stand for gives the four bytes
    back. *)
Lemma PutUint32_Uint32 (b0 b1 b2 b3 : byte) :
  PutUint32 (Uint32 b0 b1 b2 b3) = [b0; b1; b2; b3].
Proof.
  unfold PutUint32.
  rewrite <- (Z.shiftr_0_r (Uint32 b0 b1 b2 b3)) at 4.
  rewrite !(Uint32_byte b0 b1 b2 b3 _ 24), !(Uint32_byte b0 b1 b2 b3 _ 16),
          !(Uint32_byte b0 b1 b2 b3 _ 8), !(Uint32_byte b0 b1 b2 b3 _ 0)
    by intuition.
  reflexivity.
Qed.

(** Reading no more than the head of the stream holds. *)
Lemma ReadFull_head (n : nat) (d rest : bytes) (c : bool) :
  (n <= List.length d)%nat ->
  ReadFull n (mkReadCloser (app d rest) c)
  = (Ok (firstn n d), mkReadCloser (app (skipn n d) rest) c).
Proof.
  intros Hn.
  pose proof (ReadFull_exact (firstn n d) (app (skipn n d) rest) c) as H.
  rewrite length_firstn, Nat.min_l in H by exact Hn.
  now rewrite app_assoc, firstn_skipn in H.
Qed.

(** ** Reading *)

Section Reading.
Context {B : Type} `{!VectorXLitePBClient B} `{!JSON SnapshotChunk}.
Implicit Types (chunk : SnapshotChunk) (chunks : list SnapshotChunk).

(** X14: Restore on an empty snapshot stream reads no chunk, closes the
    reader and fails with the client's "no chunks to import"; the backend
    is not called. *)
Theorem restore_of_empty_stream (f : VxFSM B) :
  Restore (NewReader []) f
  = (Some (errors_New "no chunks to import"), (mkReadCloser [] true, f)).
Proof.
  unfold Restore, readSnapshotChunks, NewReader. rewrite readLoop_eof.
  cbn. now destruct f as [[b]].
Qed.

(** X15: the reader stops at the first final chunk: whatever bytes follow
    its frame, well-formed or not, readSnapshotChunks returns the chunks up
    to the final one and leaves the rest of the stream unread in the closed
    reader. *)
Theorem reader_stops_at_final_chunk (datas : list bytes) chunks
    (data : bytes) chunk (rest : bytes) :
  Forall2 decodes datas chunks -> Forall non_final chunks ->
  decodes data chunk -> IsFinal chunk = true ->
  readSnapshotChunks (NewReader (app (stream datas) (app (frame data) rest)))
  = (Ok (app chunks [chunk]), mkReadCloser rest true).
Proof.
  intros Hdecs Hnf Hdec Hfinal. unfold readSnapshotChunks, NewReader.
  now rewrite (readLoop_final datas chunks data chunk rest false [])
    by assumption.
Qed.

(** X16: a final chunk is not required: a stream that ends at a frame
    boundary after chunks none of which is final is read without error, and
    Restore hands exactly those chunks to ImportSnapshot and returns its
    verdict. *)
Theorem restore_accepts_stream_without_final_chunk (f : VxFSM B)
    (datas : list bytes) chunks :
  Forall2 decodes datas chunks -> Forall non_final chunks ->
  readSnapshotChunks (NewReader (stream datas))
  = (Ok chunks, mkReadCloser [] true)
  /\ Restore (NewReader (stream datas)) f
     = (let '(r, c) := BackendClient.ImportSnapshot chunks (VectorClient f) in
        (match r with Err err => Some err | Ok _ => None end,
         (mkReadCloser [] true, mkVxFSM c))).
Proof.
  intros Hdecs Hnf.
  assert (readSnapshotChunks (NewReader (stream datas))
          = (Ok chunks, mkReadCloser [] true)) as E.
  { unfold readSnapshotChunks, NewReader.
    rewrite <- (app_nil_r (stream datas)).
    rewrite (readLoop_frames datas chunks) by assumption.
    now rewrite readLoop_eof. }
  split; [exact E|]. unfold Restore. rewrite E.
  now destruct (BackendClient.ImportSnapshot chunks (VectorClient f)) as [[r|e] c].
Qed.

End Reading.

(** ** Frames *)

Section Frames.
Context `{!JSON SnapshotChunk}.
Implicit Types (chunk : SnapshotChunk).

(** X17: what readChunk accepts is a frame: when it returns a chunk, the
    bytes it consumed are the four bytes of a length, most significant
    first, followed by exactly that many bytes of payload, the payload
    decodes to the chunk, and the rest of the stream is left for the next
    read. *)
Theorem read_chunk_consumes_one_frame (s : bytes) (c : bool) chunk
    (rc' : ReadCloser) :
  readChunk (mkReadCloser s c) = (Ok chunk, rc') ->
  exists data,
    s = app (frame data) (pending rc')
    /\ decodes data chunk
    /\ closed rc' = c.
Proof.
  unfold readChunk, Read_uint32.
  destruct s as [|b0 [|b1 [|b2 [|b3 tail]]]]; try discriminate.
  change (b0 :: b1 :: b2 :: b3 :: tail) with (app [b0; b1; b2; b3] tail).
  change 4%nat with (List.length [b0; b1; b2; b3]). rewrite ReadFull_exact.
  pose proof (Uint32_range b0 b1 b2 b3) as Hrange.
  destruct (ReadFull _ _) as [[data|err] r2] eqn:E; [|discriminate].
  destruct (json_Unmarshal data) as [chunk'|err] eqn:Hdec; [|discriminate].
  intros [= <- <-]. exists data.
  assert (tail = app data (pending r2) /\ closed r2 = c
          /\ List.length data = Z.to_nat (Uint32 b0 b1 b2 b3))
    as (-> & Hc & Hlen).
  { revert E. unfold ReadFull. cbn [pending closed].
    destruct (Z.to_nat (Uint32 b0 b1 b2 b3)) as [|n] eqn:En.
    - intros [= <- <-]. now repeat split.
    - destruct tail as [|t tail]; [discriminate|].
      destruct (Nat.ltb_spec (List.length (t :: tail)) (S n)); [discriminate|].
      intros [= <- <-]. cbn [pending closed app List.length] in *.
      rewrite firstn_skipn, length_firstn. repeat split. lia. }
  split; [|split; [split|]]; try assumption.
  - unfold frame. rewrite Hlen, Z2Nat.id by lia.
    now rewrite PutUint32_Uint32.
  - unfold fits. lia.
Qed.

(** X18: the length prefix of a frame is the length of the payload modulo
    2^32.  A payload of 2^32 bytes or more is written whole behind a prefix
    that has wrapped around, and the reader then takes the first bytes of
    the payload, as many as the prefix says, for the whole payload and
    leaves the others in the stream. *)
Theorem length_prefix_wraps (w : Buffer) chunk (data rest : bytes) (c : bool) :
  json_Marshal chunk = Ok data ->
  let prefix := PutUint32 (Z.of_nat (List.length data) mod 2 ^ 32) in
  let n := Z.to_nat (Z.of_nat (List.length data) mod 2 ^ 32) in
  writeChunk w chunk
  = (None, mkBuffer (app (written w) (app prefix data)) (sink_closed w)
             (sink_cancelled w))
  /\ readChunk (mkReadCloser (app prefix (app data rest)) c)
     = (match json_Unmarshal (firstn n data) with
        | Ok read => Ok read
        | Err err => Err (Wrap "failed to unmarshal chunk: " err)
        end, mkReadCloser (app (skipn n data) rest) c).
Proof.
  intros Hm prefix n. subst prefix n.
  pose proof (Z.mod_pos_bound (Z.of_nat (List.length data)) (2 ^ 32) eq_refl)
    as Hrange.
  split.
  - unfold writeChunk, Write_uint32, uint32. rewrite Hm. cbn.
    now rewrite <- app_assoc.
  - unfold readChunk. rewrite Read_uint32_prefix by exact Hrange.
    rewrite ReadFull_head.
    + now destruct (json_Unmarshal _).
    + pose proof (Z.mod_le (Z.of_nat (List.length data)) (2 ^ 32)
                    ltac:(lia) eq_refl).
      lia.
Qed.

End Frames.

(** ** Writing *)

Section Writing.
Context `{!JSON SnapshotChunk}.
Implicit Types (chunk : SnapshotChunk) (chunks : list SnapshotChunk).


(** Writing a list of chunks is writing its first part and, if that went
    well, the rest, counted on from there. *)
Lemma writeChunksFrom_split {Sink} `{!SnapshotSink Sink} chunks rest :
  forall (i : Z) (w : Sink),
    writeChunksFrom i (app chunks rest) w
    = match writeChunksFrom i chunks w with
      | (Some err, w') => (Some err, w')
      | (None, w') => writeChunksFrom (i + Z.of_nat (List.length chunks)) rest w'
      end.
Proof.
  induction chunks as [|chunk chunks IH]; intros i w.
  - cbn [app writeChunksFrom List.length]. now rewrite Z.add_0_r.
  - cbn [app writeChunksFrom List.length].
    destruct (writeChunk w chunk) as [[err|] w']; [reflexivity|].
    rewrite IH.
    replace (i + Z.of_nat (S (List.length chunks)))
      with (i + 1 + Z.of_nat (List.length chunks)) by lia.
    reflexivity.
Qed.

(** X20: when the sink refuses a write, Persist stops at that chunk: what
    the chunks before it and the failed write left in the sink stays
    there, no later chunk is written, the sink is cancelled and not
    closed, and the error is that of the write inside "failed to write
    chunk <index>: ", with the index counted from 0 and the step that
    failed named: the length prefix or the chunk data. *)
Theorem persist_cancels_at_first_failed_write {Sink} `{!SnapshotSink Sink}
    (collector : SnapshotCollector) (before after : list SnapshotChunk)
    (bad : SnapshotChunk) (data : bytes) (sink sink1 sink2 : Sink)
    (err : error) :
  Chunks collector = app before (bad :: after) ->
  writeChunksFrom 0 before sink = (None, sink1) ->
  json_Marshal bad = Ok data ->
  writeChunk sink1 bad = (Some err, sink2) ->
  Persist collector sink
  = (Some (Wrap ("failed to write chunk "
                 +:+ pretty (Z.of_nat (List.length before)) +:+ ": ") err),
     snd (sink_Cancel sink2))
  /\ exists cause,
       (err = Wrap "failed to write length prefix: " cause
        /\ Write_uint32 (uint32 (Z.of_nat (List.length data))) sink1
           = (Some cause, sink2))
       \/ (err = Wrap "failed to write chunk data: " cause
           /\ exists sink', Write_uint32 (uint32 (Z.of_nat (List.length data))) sink1
                            = (None, sink')
                            /\ sink_Write data sink' = (Some cause, sink2)).
Proof.
  intros Hchunks Hbefore Hm Hbad. split.
  - unfold Persist, writeSnapshotToSink.
    rewrite Hchunks, writeChunksFrom_split, Hbefore.
    cbn [writeChunksFrom]. rewrite Hbad. cbn [Z.add].
    now destruct (sink_Cancel sink2).
  - revert Hbad. unfold writeChunk. rewrite Hm.
    destruct (Write_uint32 _ sink1) as [[cause|] sink'] eqn:Hprefix.
    + intros [= <- <-]. exists cause. now left.
    + destruct (sink_Write data sink') as [[cause|] sink''] eqn:Hdata;
        [|discriminate].
      intros [= <- <-]. exists cause. right. split; [reflexivity|].
      now exists sink'.
Qed.

End Writing.

(** ** Importing *)

Section Importing.
Import BackendClient Fixtures.

Lemma sendAll_healthy (chunks : list SnapshotChunk) (calls : list Call) :
  sendAll chunks (mkRecorder None calls)
  = (None, mkRecorder None
             (app calls (map (fun c => CallSend (convertTypeChunkToPb c)) chunks))).
Proof.
  revert calls. induction chunks as [|chunk chunks IH]; intros calls.
  - cbn. now rewrite app_nil_r.
  - cbn [sendAll stream_Send Recorder_backend record failing received].
    rewrite IH. cbn [map]. now rewrite <- app_assoc.
Qed.

(** X21: against a backend that accepts every call, ImportSnapshot of a
    list of chunks that is not empty opens the stream once, sends every
    chunk once and in order, then closes the stream, and returns the
    response of the backend; against a backend that refuses its calls, it
    stops when the stream cannot be opened and sends no chunk. *)
Theorem import_sends_chunks_in_order (chunks : list SnapshotChunk)
    (calls : list Call) :
  chunks <> [] ->
  (exists resp,
     ImportSnapshot chunks (mkClient (mkRecorder None calls))
     = (Ok resp,
        mkClient (mkRecorder None
          (app calls
             (app (CallImportSnapshot
                   :: map (fun c => CallSend (convertTypeChunkToPb c)) chunks)
                  [CallCloseAndRecv])))))
  /\ (forall err,
        ImportSnapshot chunks (mkClient (mkRecorder (Some err) calls))
        = (Err err,
           mkClient (mkRecorder (Some err) (app calls [CallImportSnapshot])))).
Proof.
  intros Hne. destruct chunks as [|chunk chunks]; [congruence|]. split.
  - eexists. unfold ImportSnapshot.
    cbn [List.length Nat.eqb pbClient rpc_ImportSnapshot Recorder_backend
         record failing received].
    rewrite sendAll_healthy.
    cbn [stream_CloseAndRecv Recorder_backend failing received].
    rewrite <- !app_assoc. reflexivity.
  - intros err. reflexivity.
Qed.

End Importing.

(** ** The collector *)

(** X22: a collector filled chunk by chunk, as ExportSnapshotSync fills
    it, holds the chunks in the order they came in, after those it had; its
    metadata is that of the last chunk that carried one; and it is complete
    exactly when the last chunk it holds is final. *)
Theorem collector_keeps_the_chunks_in_order (chunks : list SnapshotChunk)
    (c : SnapshotCollector) :
  let c' := fold_left AddChunk chunks c in
  Chunks c' = app (Chunks c) chunks
  /\ col_Metadata c'
     = match last (omap Metadata chunks) with
       | Some m => Some m
       | None => col_Metadata c
       end
  /\ IsComplete c'
     = match last chunks with
       | Some chunk => IsFinal chunk
       | None => IsComplete c
       end.
Proof.
  cbn zeta. revert c.
  induction chunks as [|chunk chunks IH]; intros c.
  - cbn. now rewrite app_nil_r.
  - cbn [fold_left]. destruct (IH (AddChunk c chunk)) as (E1 & E2 & E3).
    split; [|split].
    + rewrite E1. cbn [AddChunk Chunks]. now rewrite <- app_assoc.
    + rewrite E2. cbn [omap list_omap AddChunk col_Metadata].
      destruct (Metadata chunk) as [m|]; [|reflexivity].
      rewrite last_cons. now destruct (last (omap Metadata chunks)).
    + rewrite E3, last_cons. destruct (last chunks); [reflexivity|].
      unfold IsComplete, AddChunk. cbn [Chunks]. now rewrite last_snoc.
Qed.

(** X23: the total a collector reports is the sum of the sizes of the file
    data of its chunks, a chunk without file data counting for nothing,
    reduced modulo 2^64 as the unsigned 64-bit counter of the code is. *)
Theorem total_bytes_is_the_sum_of_file_data (c : SnapshotCollector) :
  CollectorTotals.GetTotalBytes c
  = foldr Z.add 0
      (map (fun chunk =>
              match File chunk with
              | Some fc => Z.of_nat (List.length (Data fc))
              | None => 0
              end) (Chunks c))
    mod 2 ^ 64.
Proof.
  unfold CollectorTotals.GetTotalBytes.
  enough (forall chunks acc, 0 <= acc < 2 ^ 64 ->
            fold_left
              (fun total chunk =>
                 match File chunk with
                 | Some fc =>
                     CollectorTotals.uint64
                       (total + CollectorTotals.uint64
                                  (Z.of_nat (List.length (Data fc))))
                 | None => total
                 end) chunks acc
            = (acc + foldr Z.add 0
                       (map (fun chunk =>
                               match File chunk with
                               | Some fc => Z.of_nat (List.length (Data fc))
                               | None => 0
                               end) chunks)) mod 2 ^ 64) as H
    by (apply (H (Chunks c) 0); lia).
  induction chunks as [|chunk chunks IH]; intros acc Hacc.
  - cbn. rewrite Z.add_0_r. symmetry. now apply Z.mod_small.
  - cbn [fold_left map foldr]. destruct (File chunk) as [fc|].
    + rewrite IH by (apply Z.mod_pos_bound; lia).
      unfold CollectorTotals.uint64.
      rewrite Zplus_mod_idemp_r, Zplus_mod_idemp_l. f_equal. lia.
    + rewrite IH by assumption. f_equal.
Qed.

(** ** The properties at the two chunks of the fixtures *)

Section Witnesses.

#[local] Existing Instance Fixtures.SnapshotChunk_JSON.
#[local] Existing Instance BoundedSink.Bounded_sink.

Lemma read_chunk_consumes_one_frame_witness :
  exists data,
    app (frame (Fixtures.text Fixtures.chunk1_json)) [x00]
    = app (frame data) [x00]
    /\ decodes data Fixtures.chunk1
    /\ false = false.
Proof.
  apply (read_chunk_consumes_one_frame
           (app (frame (Fixtures.text Fixtures.chunk1_json)) [x00]) false
           Fixtures.chunk1 (mkReadCloser [x00] false)).
  vm_compute. reflexivity.
Defined.

Lemma length_prefix_wraps_witness :
  let data := Fixtures.text Fixtures.chunk1_json in
  writeChunk NewBuffer Fixtures.chunk1
  = (None, mkBuffer (frame data) false false)
  /\ readChunk (mkReadCloser (app (frame data) [x00]) false)
     = (Ok Fixtures.chunk1, mkReadCloser [x00] false).
Proof.
  intros data.
  assert (json_Marshal Fixtures.chunk1 = Ok data) as Hm by reflexivity.
  destruct (length_prefix_wraps NewBuffer Fixtures.chunk1 data [x00] false Hm)
    as [Hw Hr].
  split.
  - rewrite Hw. vm_compute. reflexivity.
  - unfold frame. rewrite <- app_assoc.
    etrans; [exact Hr|]. vm_compute. reflexivity.
Defined.

Lemma reader_stops_at_final_chunk_witness :
  readSnapshotChunks
    (NewReader (app (stream [Fixtures.text Fixtures.chunk0_json])
                  (app (frame (Fixtures.text Fixtures.chunk1_json))
                     [x00; x00; x00; x05; x7b])))
  = (Ok [Fixtures.chunk0; Fixtures.chunk1],
     mkReadCloser [x00; x00; x00; x05; x7b] true).
Proof.
  apply (reader_stops_at_final_chunk [Fixtures.text Fixtures.chunk0_json]
           [Fixtures.chunk0] (Fixtures.text Fixtures.chunk1_json)
           Fixtures.chunk1 [x00; x00; x00; x05; x7b]).
  - repeat constructor; vm_compute; reflexivity.
  - repeat constructor.
  - split; vm_compute; reflexivity.
  - reflexivity.
Defined.

Lemma restore_accepts_stream_without_final_chunk_witness :
  let f := mkVxFSM (BackendClient.mkClient Fixtures.healthy) in
  let r := Restore (NewReader (stream [Fixtures.text Fixtures.chunk0_json])) f in
  IsFinal Fixtures.chunk0 = false
  /\ fst r = None
  /\ Fixtures.received (BackendClient.pbClient (VectorClient (snd (snd r))))
     = [ Fixtures.CallImportSnapshot;
         Fixtures.CallSend (mkSnapshotChunkPB Fixtures.chunk0);
         Fixtures.CallCloseAndRecv ].
Proof.
  intros f r. split; [reflexivity|]. subst r.
  rewrite (proj2 (restore_accepts_stream_without_final_chunk f
                    [Fixtures.text Fixtures.chunk0_json] [Fixtures.chunk0]
                    ltac:(repeat constructor; vm_compute; reflexivity)
                    ltac:(repeat constructor))).
  split; reflexivity.
Defined.


(** A sink with room for the frame of the first chunk and the length
    prefix of the second, and not for the data of the second. *)
Lemma persist_cancels_at_first_failed_write_witness :
  let frame0 := frame (Fixtures.text Fixtures.chunk0_json) in
  let data1 := Fixtures.text Fixtures.chunk1_json in
  let prefix1 := PutUint32 (Z.of_nat (List.length data1)) in
  Persist (mkSnapshotCollector None [Fixtures.chunk0; Fixtures.chunk1])
    (BoundedSink.mkBounded (List.length frame0 + 4) [] false false)
  = (Some (Wrap "failed to write chunk 1: "
             (Wrap "failed to write chunk data: " BoundedSink.no_space)),
     BoundedSink.mkBounded 0 (app frame0 prefix1) false true).
Proof.
  intros frame0 data1 prefix1.
  assert (writeChunksFrom 0 [Fixtures.chunk0]
            (BoundedSink.mkBounded (List.length frame0 + 4) [] false false)
          = (None, BoundedSink.mkBounded 4 frame0 false false)) as Hbefore
    by (vm_compute; reflexivity).
  assert (json_Marshal Fixtures.chunk1 = Ok data1) as Hm by reflexivity.
  assert (writeChunk (BoundedSink.mkBounded 4 frame0 false false) Fixtures.chunk1
          = (Some (Wrap "failed to write chunk data: " BoundedSink.no_space),
             BoundedSink.mkBounded 0 (app frame0 prefix1) false false)) as Hbad
    by (vm_compute; reflexivity).
  exact (proj1 (persist_cancels_at_first_failed_write
                  (mkSnapshotCollector None [Fixtures.chunk0; Fixtures.chunk1])
                  [Fixtures.chunk0] [] Fixtures.chunk1 data1 _ _ _ _
                  eq_refl Hbefore Hm Hbad)).
Defined.

Lemma import_sends_chunks_in_order_witness :
  exists resp,
    BackendClient.ImportSnapshot [Fixtures.chunk0; Fixtures.chunk1]
      (BackendClient.mkClient Fixtures.healthy)
    = (Ok resp,
       BackendClient.mkClient
         (Fixtures.mkRecorder None
            [ Fixtures.CallImportSnapshot;
              Fixtures.CallSend (mkSnapshotChunkPB Fixtures.chunk0);
              Fixtures.CallSend (mkSnapshotChunkPB Fixtures.chunk1);
              Fixtures.CallCloseAndRecv ])).
Proof.
  apply (proj1 (import_sends_chunks_in_order
                  [Fixtures.chunk0; Fixtures.chunk1] [] ltac:(discriminate))).
Defined.

End Witnesses.

End CodecExtras.

(* ===================================================================== *)
(** * Further properties: the redirect interceptor of the client *)
(* ===================================================================== *)

Module ClientExtras.

Import Grpc ClusterClient Vocabulary ClientFacts.

Section Connections.
Variable grpc_Dial : string -> result ClientConn.

#[local] Abbreviation getOrCreateConnection :=
  (getOrCreateConnection grpc_Dial).

(** What getOrCreateConnection did, read off its result. *)
Lemma getOrCreateConnection_ok (cache cache' : gmap string ClientConn)
    (addr : string) (conn : ClientConn) :
  getOrCreateConnection cache addr = (Ok conn, cache') ->
  (cache !! addr = Some conn /\ cache' = cache)
  \/ (cache !! addr = None /\ grpc_Dial addr = Ok conn
      /\ cache' = <[addr := conn]> cache).
Proof.
  unfold ClusterClient.getOrCreateConnection.
  destruct (cache !! addr) as [c|] eqn:E.
  - intros [= <- <-]. now left.
  - destruct (grpc_Dial addr) as [c|e]; [|discriminate].
    intros [= <- <-]. now right.
Qed.

Lemma getOrCreateConnection_err (cache cache' : gmap string ClientConn)
    (addr : string) (err : error) :
  getOrCreateConnection cache addr = (Err err, cache') ->
  cache !! addr = None /\ grpc_Dial addr = Err err /\ cache' = cache.
Proof.
  unfold ClusterClient.getOrCreateConnection.
  destruct (cache !! addr) as [c|] eqn:E; [discriminate|].
  destruct (grpc_Dial addr) as [c|e]; [discriminate|].
  now intros [= <- <-].
Qed.

(** X24: a connection that getOrCreateConnection has returned for an
    address is the one every later request for that address returns,
    without dialling (whatever dialling would give) and without changing
    the cache; the connections to the other addresses are as they were. *)
Theorem connection_is_cached_and_reused (cache cache' : gmap string ClientConn)
    (addr : string) (conn : ClientConn) :
  getOrCreateConnection cache addr = (Ok conn, cache') ->
  (forall dial', ClusterClient.getOrCreateConnection dial' cache' addr
                 = (Ok conn, cache'))
  /\ (forall a, a <> addr -> cache' !! a = cache !! a).
Proof.
  intros H. apply getOrCreateConnection_ok in H
    as [[Hin ->] | (Hout & Hdial & ->)]; split.
  - intros dial'. unfold ClusterClient.getOrCreateConnection. now rewrite Hin.
  - reflexivity.
  - intros dial'. unfold ClusterClient.getOrCreateConnection.
    now rewrite lookup_insert_eq.
  - intros a Ha. now rewrite lookup_insert_ne.
Qed.

End Connections.

Section Interceptor.
Context {Req Reply : Type}.
Variable invoker :
  nat -> string -> Req -> ClientConn -> list CallOption -> Response Reply.
Variable grpc_Dial : string -> result ClientConn.

#[local] Abbreviation invokeWithRedirect :=
  (invokeWithRedirect invoker grpc_Dial).

(** The connections a call leaves in the cache: those it found there, and
    for other addresses what dialling them returned. *)
Lemma cache_grows (k : nat) :
  forall (i : RedirectInterceptor) (calls : nat) (method : string) (req : Req)
         (reply : option Reply) (cc : ClientConn) (opts : list CallOption)
         (redirectCount : Z),
    (Z.to_nat (maxRedirects i - redirectCount) <= k)%nat ->
    let o := invokeWithRedirect i calls method req reply cc opts redirectCount in
    connCache i ⊆ out_cache o
    /\ (forall a conn, out_cache o !! a = Some conn ->
          connCache i !! a = Some conn \/ grpc_Dial a = Ok conn).
Proof.
  induction k as [|k IH]; intros i calls method req reply cc opts rc Hk o;
    subst o; rewrite invokeWithRedirect_step;
    destruct (decide (rc >= maxRedirects i)) as [Hge|Hlt];
    cbn [out_cache]; try (split; [reflexivity | now left]); try lia.
  cbn zeta. destruct (is_redirect _); [|split; [reflexivity | now left]].
  destruct (ClusterClient.getOrCreateConnection _ _ _)
    as [[leaderConn|err] cache'] eqn:E.
  - specialize (IH (mkRedirectInterceptor (maxRedirects i) cache') (S calls)
                  method req
                  (match resp_reply (invoker calls method req cc
                                       (app opts [Header_option])) with
                   | Some v => Some v
                   | None => reply
                   end) leaderConn opts (rc + 1)).
    cbn [maxRedirects connCache] in IH. cbn zeta in IH.
    destruct IH as [IHsub IHnew]; [lia|].
    apply getOrCreateConnection_ok in E as [[Hin ->] | (Hout & Hdial & ->)].
    + split; assumption.
    + split.
      * etrans; [|exact IHsub]. now apply insert_subseteq.
      * intros a conn Ha. destruct (IHnew a conn Ha) as [Hc|Hd]; [|now right].
        destruct (decide (a = leader_of (invoker calls method req cc
                                           (app opts [Header_option]))))
          as [->|Hne].
        -- rewrite lookup_insert_eq in Hc. injection Hc as <-. now right.
        -- rewrite lookup_insert_ne in Hc by congruence. now left.
  - apply getOrCreateConnection_err in E as (_ & _ & ->).
    cbn [out_cache]. split; [reflexivity | now left].
Qed.

(** X25: a call through the interceptor never drops or replaces a cached
    connection: the cache it leaves extends the one it found, and every
    connection it added is the one grpc.Dial returned for its address. *)
Theorem cache_only_grows (i : RedirectInterceptor) (method : string)
    (req : Req) (reply : option Reply) (cc : ClientConn)
    (opts : list CallOption) :
  let o := Unary invoker grpc_Dial i method req reply cc opts in
  connCache i ⊆ out_cache o
  /\ (forall a conn, out_cache o !! a = Some conn ->
        connCache i !! a = Some conn \/ grpc_Dial a = Ok conn).
Proof.
  exact (cache_grows (Z.to_nat (maxRedirects i - 0)) i 0%nat method req reply
           cc opts 0 (Nat.le_refl _)).
Qed.

(** How a call ends, by induction on the budget that is left. *)
Lemma outcome_classified (k : nat) :
  forall (i : RedirectInterceptor) (calls : nat) (method : string) (req : Req)
         (reply : option Reply) (cc : ClientConn) (opts : list CallOption)
         (redirectCount : Z),
    (Z.to_nat (maxRedirects i - redirectCount) <= k)%nat ->
    let o := invokeWithRedirect i calls method req reply cc opts redirectCount in
    out_err o = Some (MaxRedirectsExceeded i)
    \/ (exists a err,
          grpc_Dial a = Err err
          /\ out_err o = Some (Wrap ("failed to connect to leader "
                                     +:+ a +:+ ": ") err))
    \/ (exists n cc',
          let r := invoker n method req cc' (app opts [Header_option]) in
          is_redirect r = false /\ out_err o = resp_err r
          /\ out_calls o = S n).
Proof.
  induction k as [|k IH]; intros i calls method req reply cc opts rc Hk o;
    subst o; rewrite invokeWithRedirect_step;
    destruct (decide (rc >= maxRedirects i)) as [Hge|Hlt];
    try (now left); try lia.
  cbn zeta. destruct (is_redirect _) eqn:Hr.
  2:{ right. right. exists calls, cc. cbn zeta. now rewrite Hr. }
  destruct (ClusterClient.getOrCreateConnection _ _ _)
    as [[leaderConn|err] cache'] eqn:E.
  - specialize (IH (mkRedirectInterceptor (maxRedirects i) cache') (S calls)
                  method req
                  (match resp_reply (invoker calls method req cc
                                       (app opts [Header_option])) with
                   | Some v => Some v
                   | None => reply
                   end) leaderConn opts (rc + 1)).
    cbn [maxRedirects] in IH. apply IH. lia.
  - apply getOrCreateConnection_err in E as (_ & Hdial & _).
    right. left. eexists _, _. split; [exact Hdial | reflexivity].
Qed.

(** X26: the interceptor never hands a redirect signal back to the caller.
    A call ends in one of three ways: with the error "max redirects (n)
    exceeded"; with "failed to connect to leader <addr>: ..." around the
    error of a failed grpc.Dial of that address; or with the error (or
    success) of its last invocation, which was not a redirect signal.
    Every invocation is made for the caller's method and request, with the
    caller's options followed by one header option. *)
Theorem call_never_returns_a_redirect (i : RedirectInterceptor)
    (method : string) (req : Req) (reply : option Reply) (cc : ClientConn)
    (opts : list CallOption) :
  let o := Unary invoker grpc_Dial i method req reply cc opts in
  out_err o = Some (MaxRedirectsExceeded i)
  \/ (exists a err,
        grpc_Dial a = Err err
        /\ out_err o = Some (Wrap ("failed to connect to leader "
                                   +:+ a +:+ ": ") err))
  \/ (exists n cc',
        let r := invoker n method req cc' (app opts [Header_option]) in
        is_redirect r = false /\ out_err o = resp_err r /\ out_calls o = S n).
Proof.
  exact (outcome_classified (Z.to_nat (maxRedirects i - 0)) i 0%nat method req
           reply cc opts 0 (Nat.le_refl _)).
Qed.

(** X27: a redirect to a leader that is not in the cache and cannot be
    dialled ends the call at once: the error of grpc.Dial comes back
    wrapped with the address, after the one invocation, with the cache as
    it was and whatever reply the invocation wrote. *)
Theorem unreachable_leader_ends_the_call (i : RedirectInterceptor)
    (method : string) (req : Req) (reply : option Reply) (cc : ClientConn)
    (opts : list CallOption) (err : error) :
  let first := invoker 0%nat method req cc (app opts [Header_option]) in
  0 < maxRedirects i ->
  is_redirect first = true ->
  connCache i !! leader_of first = None ->
  grpc_Dial (leader_of first) = Err err ->
  Unary invoker grpc_Dial i method req reply cc opts
  = mkOutcome
      (Some (Wrap ("failed to connect to leader " +:+ leader_of first +:+ ": ")
               err))
      (match resp_reply first with Some v => Some v | None => reply end)
      (connCache i) 1.
Proof.
  intros first Hpos Hred Hmiss Hdial. subst first. unfold Unary.
  rewrite invokeWithRedirect_step.
  destruct (decide (0 >= maxRedirects i)); [lia|].
  cbn zeta. rewrite Hred. unfold ClusterClient.getOrCreateConnection.
  now rewrite Hmiss, Hdial.
Qed.

(** X28: an interceptor made by NewRedirectInterceptor, whatever budget
    was asked for, invokes the call at least once and at most as often as
    its budget says, 3 when the budget asked for was not positive; and
    every connection in the cache it leaves was dialled for its address. *)
Theorem new_interceptor_invokes_at_least_once (n : Z) (method : string)
    (req : Req) (reply : option Reply) (cc : ClientConn)
    (opts : list CallOption) :
  let o := Unary invoker grpc_Dial (NewRedirectInterceptor n) method req reply
             cc opts in
  (1 <= out_calls o <= Z.to_nat (if (n <=? 0)%Z then 3%Z else n))%nat
  /\ (forall a conn, out_cache o !! a = Some conn -> grpc_Dial a = Ok conn).
Proof.
  cbn zeta. split.
  - pose proof (invocations_bounded invoker grpc_Dial
                  (Z.to_nat (maxRedirects (NewRedirectInterceptor n) - 0))
                  (NewRedirectInterceptor n) 0%nat method req reply cc opts 0
                  (Nat.le_refl _)) as [_ Hle].
    split; [|unfold NewRedirectInterceptor in Hle; cbn [maxRedirects] in Hle;
             rewrite Z.sub_0_r in Hle; exact Hle].
    unfold Unary. rewrite invokeWithRedirect_step.
    destruct (decide (0 >= maxRedirects (NewRedirectInterceptor n))) as [Hge|_].
    { unfold NewRedirectInterceptor in Hge. cbn [maxRedirects] in Hge.
      destruct (Z.leb_spec n 0); lia. }
    cbn zeta. destruct (is_redirect _); [|cbn; lia].
    destruct (ClusterClient.getOrCreateConnection _ _ _)
      as [[leaderConn|err] cache']; [|cbn; lia].
    match goal with
    | |- (1 <= out_calls (ClusterClient.invokeWithRedirect _ _ ?i' ?c ?m ?r ?rp
                            ?cc' ?o ?rc))%nat =>
        pose proof (invocations_bounded invoker grpc_Dial
                      (Z.to_nat (maxRedirects i' - rc)) i' c m r rp cc' o rc
                      (Nat.le_refl _)) as [Hge _]
    end.
    lia.
  - intros a conn Ha.
    destruct (cache_grows (Z.to_nat (maxRedirects (NewRedirectInterceptor n) - 0))
                (NewRedirectInterceptor n) 0%nat method req reply cc opts 0
                (Nat.le_refl _)) as [_ Hnew].
    destruct (Hnew a conn Ha) as [Hc|Hd]; [|exact Hd].
    unfold NewRedirectInterceptor in Hc. cbn [connCache] in Hc.
    now rewrite lookup_empty in Hc.
Qed.

End Interceptor.

Lemma connection_is_cached_and_reused_witness :
  let leader := "127.0.0.1:5002" in
  let cache' := <[leader := mkClientConn leader]> (∅ : gmap string ClientConn) in
  (forall dial', getOrCreateConnection dial' cache' leader
                 = (Ok (mkClientConn leader), cache'))
  /\ (forall a, a <> leader -> cache' !! a = (∅ : gmap string ClientConn) !! a).
Proof.
  intros leader cache'.
  apply (connection_is_cached_and_reused Fixtures.dial ∅ cache' leader
           (mkClientConn leader)).
  reflexivity.
Defined.

(** Every node redirects to 127.0.0.1:5002, which refuses connections. *)
Lemma unreachable_leader_ends_the_call_witness :
  let refused := errors_New "connection refused" in
  Unary Fixtures.always_redirecting (fun _ => Err refused)
    (NewRedirectInterceptor 3) "/vectorxlite.cluster.ClusterService/Insert"
    "req" None (mkClientConn "127.0.0.1:5012") []
  = mkOutcome
      (Some (Wrap "failed to connect to leader 127.0.0.1:5002: " refused))
      None ∅ 1.
Proof.
  intros refused.
  apply (unreachable_leader_ends_the_call Fixtures.always_redirecting
           (fun _ => Err refused) (NewRedirectInterceptor 3)
           "/vectorxlite.cluster.ClusterService/Insert" "req" None
           (mkClientConn "127.0.0.1:5012") [] refused);
    reflexivity.
Defined.

End ClientExtras.

(* ===================================================================== *)
(** * Further properties: search points and the helper of the tests *)
(* ===================================================================== *)

Module BuilderExtras.

Import Search DistributedTest AddressFacts.

#[local] Arguments String.append !_ _ / : simpl nomatch.

(** X29: a search point that Build accepts has a collection name and a
    vector that are not empty and a top-k that is not 0: the name, the
    vector and the payload query are those given, a top-k of 0 has become
    10 and any other is kept.  Building the built point again returns it
    unchanged. *)
Theorem built_search_point_is_valid (s p : SearchPoint) :
  SearchPoint_Build s = Ok p ->
  sp_CollectionName p = sp_CollectionName s /\ sp_CollectionName p <> ""
  /\ sp_Vector p = sp_Vector s /\ sp_Vector p <> []
  /\ PayloadSearchQuery p = PayloadSearchQuery s
  /\ TopK p = (if TopK s =? 0 then 10 else TopK s) /\ TopK p <> 0
  /\ SearchPoint_Build p = Ok p.
Proof.
  unfold SearchPoint_Build.
  destruct (String.eqb_spec (sp_CollectionName s) "") as [|Hname];
    [discriminate|].
  destruct (sp_Vector s) as [|x v] eqn:Hv; [discriminate|].
  cbn [List.length Nat.eqb].
  destruct (Z.eqb_spec (TopK s) 0) as [Hk|Hk]; intros [= <-];
    cbn [sp_CollectionName sp_Vector TopK PayloadSearchQuery];
    rewrite ?Hv; repeat split; try assumption; try discriminate.
  - destruct (String.eqb_spec (sp_CollectionName s) ""); [contradiction|].
    reflexivity.
  - destruct (String.eqb_spec (sp_CollectionName s) ""); [contradiction|].
    cbn [List.length Nat.eqb].
    destruct (Z.eqb_spec (TopK s) 0); [contradiction|]. reflexivity.
Qed.

Lemma built_search_point_is_valid_witness :
  let s := mkSearchPoint "users" [1; 2; 3] 0 "" in
  exists p, SearchPoint_Build s = Ok p /\ TopK p = 10
            /\ SearchPoint_Build p = Ok p.
Proof.
  intros s. eexists. split; [reflexivity|].
  destruct (built_search_point_is_valid s _ eq_refl)
    as (_ & _ & _ & _ & _ & Hk & _ & Hagain).
  split; [exact Hk | exact Hagain].
Defined.

Lemma substring_split (s : string) (n : nat) :
  (n <= String.length s)%nat ->
  String.substring 0 n s +:+ String.substring n (String.length s - n) s = s.
Proof.
  revert n. induction s as [|c s IH]; intros [|n] Hn; cbn in *;
    try reflexivity; try lia.
  - now rewrite substring_all.
  - rewrite IH by lia. reflexivity.
Qed.

(** X30: the helper [contains] of the cluster tests is a test for a
    suffix, not for a substring: it holds exactly when the second string
    is not empty and the first ends with it. *)
Theorem contains_tests_for_a_suffix (s substr : string) :
  contains s substr = true
  <-> substr <> "" /\ exists p, s = p +:+ substr.
Proof.
  unfold contains, len. split.
  - intros H. apply andb_prop in H as [H Hor]. apply andb_prop in H as [_ Hsub].
    apply Z.ltb_lt in Hsub. split; [destruct substr; [cbn in Hsub; lia | discriminate]|].
    apply orb_prop in Hor as [Heq | Hsuf].
    + apply String.eqb_eq in Heq as ->. now exists "".
    + apply andb_prop in Hsuf as [Hle Heq]. apply Z.leb_le in Hle.
      apply String.eqb_eq in Heq. unfold slice_from in Heq.
      replace (Z.to_nat (Z.of_nat (String.length s) - Z.of_nat (String.length substr)))
        with (String.length s - String.length substr)%nat in Heq by lia.
      exists (String.substring 0 (String.length s - String.length substr) s).
      pose proof (substring_split s
                    (String.length s - String.length substr) ltac:(lia)) as Hs.
      rewrite Heq in Hs. now symmetry.
  - intros [Hne [p ->]]. rewrite length_append.
    assert (0 < String.length substr)%nat as Hpos
      by (destruct substr; [congruence | cbn; lia]).
    apply andb_true_intro. split.
    { apply andb_true_intro. split; apply Z.ltb_lt; lia. }
    apply orb_true_intro. right. apply andb_true_intro. split.
    { apply Z.leb_le. lia. }
    apply String.eqb_eq. unfold slice_from. rewrite length_append.
    replace (Z.to_nat (Z.of_nat (String.length p + String.length substr)
                       - Z.of_nat (String.length substr)))
      with (String.length p + 0)%nat by lia.
    rewrite substring_skip.
    replace (String.length p + String.length substr - (String.length p + 0))%nat
      with (String.length substr) by lia.
    apply substring_all.
Qed.

(** The address of a node holds the address of the leader without ending
    with it, and the helper says no. *)
Lemma contains_tests_for_a_suffix_witness :
  contains "127.0.0.1:5001" ":5001" = true
  /\ contains "127.0.0.1:5001" "127.0.0.1" = false.
Proof.
  split.
  - apply (proj2 (contains_tests_for_a_suffix "127.0.0.1:5001" ":5001")).
    split; [discriminate | now exists "127.0.0.1"].
  - reflexivity.
Defined.

End BuilderExtras.
